(** * Expense tracker front end: a shallow embedding and its properties

    The development follows the source tree of the front end.

    - [JsString], [JsNumber], [Json], [URLSearchParams]: the JavaScript and
      browser built-ins the code calls ([trim], [parseFloat], [toFixed],
      [Number::toString], [+] and [<=] on numbers, truthiness, [join],
      [replace], [URLSearchParams.set] and [toString]), after ECMAScript
      and the URL standard.
    - [Types]: [lib/types.ts].
    - [Api]: [lib/api.ts] ([generateIdempotencyKey], the [ApiClient],
      [exportToCSV]).
    - [ExpenseForm]: [components/ExpenseForm.tsx].
    - [ExpenseList]: [components/ExpenseList.tsx].
    - [Spec]: what the specification says, in its own words, where a
      theorem compares the code with it.
    - [JsMath], [ExpenseListView], [Home], [SpendingCharts]: the rest of
      the code ([Math.max] and [Math.min], the controls of the list and
      what it renders, the Delete buttons with requests in flight,
      [pages/index.tsx], [components/SpendingCharts.tsx]).
    - [NumberInput] and [ExpenseFormView]: the number input of HTML with
      its constraints, and the form element of [ExpenseForm.tsx] with the
      attributes of its controls, which decide whether a click on the
      submit button reaches [handleSubmit].
    - [FormUrlencoded] and [CsvReader]: the readers of what the code
      writes; [Properties] and [MoreSamples].
    - The modules of facts, and [AtSamples] and [AtMoreSamples], which
      evaluate the theorems at sample data.

    Conventions.  A JavaScript string is represented by its UTF-8 bytes (a
    [string]).  A JavaScript number is an IEEE 754 binary64 value
    ([spec_float] at precision 53 and maximal exponent 1024, the
    executable specification of the Standard Library).  [undefined] and
    [null] are [None].  An object used as a dictionary is a finite map
    from its own property names.  A React state hook is a field of the
    state record of its component.  An event handler is a function from
    the state of the render it closes over to the state once the handler
    and the promise it awaits have settled, together with what it did to
    the outside; what the outside answers (the clock, the random source,
    the settled promise) is an argument.  Where the controls of a handler
    stay enabled while it awaits (the Delete buttons), the handler is
    split at its [await] and the requests in flight are part of the
    state.  The value a method of the API client resolves to is taken at
    the TypeScript type the method declares. *)

From Stdlib Require Import ZArith Lia List String Ascii SpecFloat.
From Stdlib Require Import DecimalString Decimal.
From stdpp Require Import base gmap strings list.

(* ===================================================================== *)
(** * Strings *)
(* ===================================================================== *)

Module JsString.
Local Open Scope N_scope.

Definition code (a : ascii) : N := N_of_ascii a.

(** [!!s]: the empty string is the only falsy string. *)
Definition truthy (s : string) : bool :=
  match s with
  | EmptyString => false
  | String _ _ => true
  end.

(** The character U+0022, which a string literal of this file cannot hold. *)
Definition dquote : ascii := ascii_of_N 34.

(** Number of bytes of the WhiteSpace or LineTerminator code point that
    starts [s] (ECMAScript 12.2 and 12.3: TAB, LF, VT, FF, CR, SP, U+00A0,
    U+1680, U+2000..U+200A, U+2028, U+2029, U+202F, U+205F, U+3000,
    U+FEFF), and [0] when [s] starts with none. *)
Definition whiteSpaceAt (s : string) : nat :=
  match s with
  | String a r =>
      let a := code a in
      if (9 <=? a) && (a <=? 13) || (a =? 32) then 1%nat
      else
        match r with
        | String b (String c _) =>
            let b := code b in
            let c := code c in
            if (a =? 194) && (b =? 160) then 2%nat
            else if (a =? 225) && (b =? 154) && (c =? 128) then 3%nat
            else if (a =? 226) && (b =? 128)
                    && ((128 <=? c) && (c <=? 138) || (c =? 168) || (c =? 169) || (c =? 175))
                 then 3%nat
            else if (a =? 226) && (b =? 129) && (c =? 159) then 3%nat
            else if (a =? 227) && (b =? 128) && (c =? 128) then 3%nat
            else if (a =? 239) && (b =? 187) && (c =? 191) then 3%nat
            else 0%nat
        | String b EmptyString =>
            if (a =? 194) && (code b =? 160) then 2%nat else 0%nat
        | EmptyString => 0%nat
        end
  | EmptyString => 0%nat
  end.

(** [String.prototype.trimStart]; [skip] counts the bytes still to drop of
    the white-space code point being removed. *)
Fixpoint trimStart_from (skip : nat) (s : string) : string :=
  match s with
  | EmptyString => EmptyString
  | String _ r =>
      match skip with
      | S k => trimStart_from k r
      | O =>
          match whiteSpaceAt s with
          | O => s
          | S k => trimStart_from k r
          end
      end
  end.

Definition trimStart (s : string) : string := trimStart_from 0 s.

(** [String.prototype.trimEnd]: cut at the first position from which only
    white space follows. *)
Fixpoint trimEnd (s : string) : string :=
  match s with
  | EmptyString => EmptyString
  | String a r =>
      match trimStart s with
      | EmptyString => EmptyString
      | String _ _ => String a (trimEnd r)
      end
  end.

(** [String.prototype.trim]. *)
Definition trim (s : string) : string := trimEnd (trimStart s).

(** [s.length]: the number of UTF-16 code units of the string whose UTF-8
    bytes are [s] (a continuation byte adds none, the first byte of a
    four-byte sequence adds two). *)
Fixpoint length16 (s : string) : nat :=
  match s with
  | EmptyString => 0%nat
  | String a r =>
      let c := code a in
      let units := if (128 <=? c) && (c <? 192) then 0%nat else if 240 <=? c then 2%nat else 1%nat in
      (units + length16 r)%nat
  end.

(** [s.substring(start, end)] for strings of one-byte characters. *)
Definition substring (start stop : nat) (s : string) : string :=
  if (stop <? start)%nat then String.substring stop (start - stop) s
  else String.substring start (stop - start) s.

(** [s.replace(/Q/g, 'QQ')] where [Q] is the double quote U+0022. *)
Fixpoint doubleQuotes (s : string) : string :=
  match s with
  | EmptyString => EmptyString
  | String a r =>
      if (code a =? 34) then String dquote (String dquote (doubleQuotes r))
      else String a (doubleQuotes r)
  end.

(** [Array.prototype.join] on an array of strings. *)
Fixpoint join (sep : string) (l : list string) : string :=
  match l with
  | [] => EmptyString
  | [x] => x
  | x :: rest => x +:+ sep +:+ join sep rest
  end.

(** [s.startsWith(p)]. *)
Fixpoint startsWith (p s : string) : bool :=
  match p, s with
  | EmptyString, _ => true
  | String a p', String b s' => (code a =? code b) && startsWith p' s'
  | String _ _, EmptyString => false
  end.

Fixpoint repeat0 (n : nat) : string :=
  match n with
  | O => EmptyString
  | S n' => String "0" (repeat0 n')
  end.

(** [s.repeat(n)]. *)
Fixpoint repeat (s : string) (n : nat) : string :=
  match n with
  | O => EmptyString
  | S n' => s +:+ repeat s n'
  end.

Definition isDigit (a : ascii) : bool := (48 <=? code a) && (code a <=? 57).

Fixpoint allDigits (s : string) : bool :=
  match s with
  | EmptyString => true
  | String a r => isDigit a && allDigits r
  end.

End JsString.

(* ===================================================================== *)
(** * Numbers *)
(* ===================================================================== *)

Module JsNumber.
Local Open Scope Z_scope.

(** The Number type: IEEE 754 binary64. *)
Definition prec : Z := 53.
Definition emax : Z := 1024.
Definition number : Type := spec_float.

Definition NaN : number := S754_nan.
Definition Infinity : number := S754_infinity false.
(** The literal [0]. *)
Definition zero : number := S754_zero false.

(** [x + y], [x <= y], [isNaN(x)], [!!x]. *)
Definition add (x y : number) : number := SFadd prec emax x y.
Definition leb (x y : number) : bool := SFleb x y.
Definition isNaN (x : number) : bool :=
  match x with
  | S754_nan => true
  | _ => false
  end.
Definition truthy (x : number) : bool :=
  match x with
  | S754_zero _ | S754_nan => false
  | _ => true
  end.

(** [acc || 0] on a number or [undefined]. *)
Definition orZero (x : option number) : number :=
  match x with
  | Some v => if truthy v then v else zero
  | None => zero
  end.

(** The Number nearest to [s * 10^p] (ties to even), negated when [neg]:
    the value of a decimal literal with digits [s] and exponent [p]. *)
Definition of_decimal (neg : bool) (s : N) (p : Z) : number :=
  match s with
  | N0 => S754_zero neg
  | Npos m =>
      if 0 <=? p then binary_round prec emax neg (Z.to_pos (Zpos m * 10 ^ p)) 0
      else
        let '(q, e, l) := SFdiv_core_binary prec emax (Zpos m) 0 (10 ^ (- p)) 0 in
        binary_round_aux prec emax neg q e l
  end.

(** [Number.isFinite(x)], for a valid binary64 value. *)
Definition isFinite (x : number) : bool :=
  match x with
  | S754_zero _ => true
  | S754_finite _ m e => bounded prec emax m e
  | _ => false
  end.

(** What rounding gives for a mantissa that is not zero: an infinity, or a
    finite value whose exponent is not below the least one. *)
Definition roundedShape (x : number) : Prop :=
  match x with
  | S754_infinity _ => True
  | S754_finite _ _ e => emin prec emax <= e
  | _ => False
  end.

(** The terms of the sums, zero or finite, and what the running sums of
    such terms from [0] are: never [NaN] and never the negative zero. *)
Definition termShape (x : number) : Prop :=
  match x with
  | S754_zero _ => True
  | S754_finite _ _ e => emin prec emax <= e
  | _ => False
  end.

Definition sumShape (x : number) : Prop :=
  match x with
  | S754_nan => False
  | S754_zero s => s = false
  | S754_infinity _ => True
  | S754_finite _ _ e => emin prec emax <= e
  end.

(** ** [parseFloat] *)

Definition digitValue (a : ascii) : N := (JsString.code a - 48)%N.

(** The longest run of decimal digits at the start of [s]: the value of
    [acc] followed by these digits, their count, and the rest of [s]. *)
Fixpoint digits (s : string) (acc : N) (count : nat) : N * nat * string :=
  match s with
  | String a r =>
      if JsString.isDigit a then digits r (10 * acc + digitValue a)%N (S count)
      else (acc, count, s)
  | EmptyString => (acc, count, s)
  end.

(** The exponent part [e], [e+] or [e-] followed by digits; [0] when the
    text does not continue with a complete exponent part. *)
Definition exponentPart (s : string) : Z :=
  match s with
  | String a r =>
      if ((JsString.code a =? 101) || (JsString.code a =? 69))%N then
        let '(neg, r') :=
          match r with
          | String "+" t => (false, t)
          | String "-" t => (true, t)
          | _ => (false, r)
          end in
        let '(x, nx, _) := digits r' 0%N 0%nat in
        match nx with
        | O => 0
        | S _ => if neg then - Z.of_N x else Z.of_N x
        end
      else 0
  | EmptyString => 0
  end.

(** The longest prefix of [s] that is a StrUnsignedDecimalLiteral, as a
    Number; [NaN] when there is none. *)
Definition parseUnsigned (neg : bool) (s : string) : number :=
  if JsString.startsWith "Infinity" s then S754_infinity neg
  else
    let '(i, ni, r1) := digits s 0%N 0%nat in
    let '(f, nf, r2) :=
      match r1 with
      | String "." r => digits r i 0%nat
      | _ => (i, 0%nat, r1)
      end in
    match ni, nf with
    | O, O => NaN
    | _, _ => of_decimal neg f (exponentPart r2 - Z.of_nat nf)
    end.

(** [parseFloat(s)] (ECMAScript 19.2.4). *)
Definition parseFloat (s : string) : number :=
  match JsString.trimStart s with
  | String "+" r => parseUnsigned false r
  | String "-" r => parseUnsigned true r
  | t => parseUnsigned false t
  end.

(** ** [Number::toString] (radix 10) *)

Definition digits10 (n : Z) : string := NilZero.string_of_uint (N.to_uint (Z.to_N n)).

(** The exact value [m * 2^e] of a finite number as a fraction. *)
Definition fraction (m : positive) (e : Z) : Z * Z :=
  if 0 <=? e then (Zpos m * 2 ^ e, 1) else (Zpos m, 2 ^ (- e)).

(** The fraction [v / 10^p]. *)
Definition scale10 (v : Z * Z) (p : Z) : Z * Z :=
  let '(a, b) := v in
  if 0 <=? p then (a, b * 10 ^ p) else (a * 10 ^ (- p), b).

Fixpoint exp10_below (fuel : nat) (a b : Z) (j : Z) : Z :=
  match fuel with
  | O => j
  | S fuel' => if b <=? a * 10 ^ j then j else exp10_below fuel' a b (j + 1)
  end.

(** The [n] with [10^(n-1) <= v < 10^n]. *)
Definition exponent10 (v : Z * Z) : Z :=
  let '(a, b) := v in
  if b <=? a then Z.of_nat (String.length (digits10 (a / b)))
  else 1 - exp10_below 400 a b 1.

(** The integers [s] and [n] of Number::toString step 5: the fewest digits
    [k] (tried upwards from [k]) with a [k]-digit [s] such that
    [s * 10^(n-k)] rounds to [x]; of two such [s] the one nearer to [x]. *)
Fixpoint shortest (fuel : nat) (x : number) (v : Z * Z) (n k : Z) : Z * Z :=
  let p := n - k in
  let '(a, b) := scale10 v p in
  let lo := a / b in
  let r := a mod b in
  let hi := lo + 1 in
  let same (s : Z) :=
    match of_decimal false (Z.to_N s) p, x with
    | S754_finite _ m1 e1, S754_finite _ m2 e2 => Pos.eqb m1 m2 && Z.eqb e1 e2
    | _, _ => false
    end in
  let pick (s : Z) := if s =? 10 ^ k then (10 ^ (k - 1), n + 1) else (s, n) in
  match same lo, same hi with
  | true, true =>
      match Z.compare (2 * r) b with
      | Lt => pick lo
      | Gt => pick hi
      | Eq => if Z.even lo then pick lo else pick hi
      end
  | true, false => pick lo
  | false, true => pick hi
  | false, false =>
      match fuel with
      | O => pick lo
      | S fuel' => shortest fuel' x v n (k + 1)
      end
  end.

Definition takeStr (n : Z) (s : string) : string := String.substring 0 (Z.to_nat n) s.
Definition dropStr (n : Z) (s : string) : string :=
  String.substring (Z.to_nat n) (String.length s - Z.to_nat n) s.

(** Number::toString steps 6 to 10. *)
Definition format (s n : Z) : string :=
  let d := digits10 s in
  let k := Z.of_nat (String.length d) in
  if (k <=? n) && (n <=? 21) then d +:+ JsString.repeat0 (Z.to_nat (n - k))
  else if (0 <? n) && (n <=? 21) then takeStr n d +:+ "." +:+ dropStr n d
  else if (-6 <? n) && (n <=? 0) then "0." +:+ JsString.repeat0 (Z.to_nat (- n)) +:+ d
  else
    let e := n - 1 in
    let sign := if e <? 0 then "-" else "+" in
    if k =? 1 then d +:+ "e" +:+ sign +:+ digits10 (Z.abs e)
    else takeStr 1 d +:+ "." +:+ dropStr 1 d +:+ "e" +:+ sign +:+ digits10 (Z.abs e).

Definition toString (x : number) : string :=
  match x with
  | S754_nan => "NaN"
  | S754_zero _ => "0"
  | S754_infinity s => if s then "-Infinity" else "Infinity"
  | S754_finite s m e =>
      let v := fraction m e in
      let '(d, n) := shortest 16 (S754_finite false m e) v (exponent10 v) 1 in
      (if s then "-" else "") +:+ format d n
  end.

(** ** [Number.prototype.toFixed] *)

(** The integer [n] for which [n / 10^f - a/b] is as close to zero as
    possible, the larger one when there are two (ECMAScript 21.1.3.3). *)
Definition nearestScaled (f : nat) (a b : Z) : Z :=
  (2 * a * 10 ^ Z.of_nat f + b) / (2 * b).

(** The digits of [n], padded to at least [f + 1] of them, with a point
    before the last [f]. *)
Definition fixedDigits (f : nat) (n : Z) : string :=
  let d := digits10 n in
  let d := JsString.repeat0 (S f - String.length d) +:+ d in
  let k := String.length d in
  match f with
  | O => d
  | S _ => String.substring 0 (k - f) d +:+ "." +:+ String.substring (k - f) f d
  end.

Definition toFixed (f : nat) (x : number) : string :=
  match x with
  | S754_finite s m e =>
      let '(a, b) := fraction m e in
      if 10 ^ 21 * b <=? a then toString x
      else (if s then "-" else "") +:+ fixedDigits f (nearestScaled f a b)
  | S754_zero _ => fixedDigits f 0
  | _ => toString x
  end.

(** ** Fixed-point notation *)

(** A finite number of magnitude below [10^21]: the range in which
    [toFixed] writes fixed-point notation. *)
Definition belowFixedLimit (x : number) : bool :=
  match x with
  | S754_zero _ => true
  | S754_finite _ m e => let '(a, b) := fraction m e in a <? 10 ^ 21 * b
  | _ => false
  end.

Definition stripMinus (s : string) : string :=
  match s with
  | String a r => if (JsString.code a =? 45)%N then r else s
  | EmptyString => s
  end.

(** The text is an optional minus sign, one or more digits, a point and
    exactly two digits. *)
Definition hasTwoFractionDigits (s : string) : bool :=
  let '(_, count, rest) := digits (stripMinus s) 0%N 0%nat in
  match count, rest with
  | S _, String p (String a (String b EmptyString)) =>
      (JsString.code p =? 46)%N && JsString.isDigit a && JsString.isDigit b
  | _, _ => false
  end.

End JsNumber.

(* ===================================================================== *)
(** * JSON values and thrown errors *)
(* ===================================================================== *)

Module Json.

(** What [JSON.parse] (thus [response.json()]) can produce.  An object is
    its list of members in source order; of members with the same name the
    last one is the property. *)
#[warnings="-register-all"]
Inductive value : Type :=
| Null
| Bool (b : bool)
| Num (n : JsNumber.number)
| Str (s : string)
| Arr (items : list value)
| Obj (members : list (string * value)).

(** [!!v]. *)
Definition truthy (v : value) : bool :=
  match v with
  | Null => false
  | Bool b => b
  | Num n => JsNumber.truthy n
  | Str s => JsString.truthy s
  | Arr _ | Obj _ => true
  end.

(** The own property [key] of an object. *)
Fixpoint member (key : string) (members : list (string * value)) : option value :=
  match members with
  | [] => None
  | (k, v) :: rest =>
      match member key rest with
      | Some later => Some later
      | None => if String.eqb k key then Some v else None
      end
  end.

(** [v.key] for a [v] other than [null] and a [key] that no prototype
    defines ([details], [error]): [undefined] unless [v] is an object that
    has the member. *)
Definition getField (v : value) (key : string) : option value :=
  match v with
  | Obj members => member key members
  | _ => None
  end.

(** ToString, and the text [Array.prototype.join] uses for an element
    ([null] gives the empty string). *)
Fixpoint toString (v : value) : string :=
  match v with
  | Null => "null"
  | Bool true => "true"
  | Bool false => "false"
  | Num n => JsNumber.toString n
  | Str s => s
  | Arr items =>
      JsString.join ","
        ((fix each (l : list value) : list string :=
            match l with
            | [] => []
            | Null :: rest => EmptyString :: each rest
            | x :: rest => toString x :: each rest
            end) items)
  | Obj _ => "[object Object]"
  end.

Definition elementString (v : value) : string :=
  match v with
  | Null => EmptyString
  | _ => toString v
  end.

(** [items.join(sep)]. *)
Definition join (sep : string) (items : list value) : string :=
  JsString.join sep (map elementString items).

End Json.

(** A thrown value: an instance of [Error] with its message (the text of a
    [TypeError] or [SyntaxError] is the engine's), or a value that is not
    an instance of [Error]. *)
Inductive JsError : Type :=
| Error (message : string)
| TypeError (message : string)
| SyntaxError (message : string)
| NotAnError.

(** [err instanceof Error ? err.message : fallback]. *)
Definition messageOr (fallback : string) (err : JsError) : string :=
  match err with
  | Error m | TypeError m | SyntaxError m => m
  | NotAnError => fallback
  end.

(** A settled promise. *)
Inductive Settled (T : Type) : Type :=
| Fulfilled (v : T)
| Rejected (e : JsError).
Arguments Fulfilled {T} v.
Arguments Rejected {T} e.

(* ===================================================================== *)
(** * lib/types.ts *)
(* ===================================================================== *)

Module Types.
Import JsNumber.

Record Expense : Type := {
  id : string;
  amount : number;
  category : string;
  description : string;
  date : string;
  created_at : string;
}.

Record CreateExpenseInput : Type := {
  input_amount : number;
  input_category : string;
  input_description : string;
  input_date : string;
  idempotency_key : option string;
}.

Record PaginatedResponse (T : Type) : Type := {
  data : list T;
  total : number;
  page : number;
  limit : number;
  totalPages : number;
}.
Arguments data {T} _.
Arguments total {T} _.
Arguments page {T} _.
Arguments limit {T} _.
Arguments totalPages {T} _.

(** [ApiError]: the type declares [error] as present; the client guards
    against its absence, so it is optional here. *)
Record ApiError : Type := {
  error : option string;
  details : option (list string);
}.

Definition CATEGORIES : list string :=
  ["Food"; "Transport"; "Entertainment"; "Shopping"; "Bills"; "Healthcare";
   "Education"; "Other"].

(** [CATEGORIES[0]]. *)
Definition CATEGORIES_0 : string := hd EmptyString CATEGORIES.

(** An [<option key=.. value=..>label</option>] of a [<select>]. *)
Record SelectOption : Type := {
  option_key : string;
  option_value : string;
  option_label : string;
}.

(** [CATEGORIES.map((cat) => <option key={cat} value={cat}>{cat}</option>)]. *)
Definition categoryOptions : list SelectOption :=
  map (fun cat => {| option_key := cat; option_value := cat; option_label := cat |})
      CATEGORIES.

(** The JSON text of a body that has the shape of [ApiError]. *)
Definition ApiError_json (e : ApiError) : Json.value :=
  Json.Obj
    (match error e with
     | Some m => [("error", Json.Str m)]
     | None => []
     end
     ++
     match details e with
     | Some ds => [("details", Json.Arr (map Json.Str ds))]
     | None => []
     end).

End Types.

(* ===================================================================== *)
(** * URLSearchParams *)
(* ===================================================================== *)

Module URLSearchParams.
Local Open Scope N_scope.

(** The list of name-value pairs of a [URLSearchParams] object. *)
Definition t : Type := list (string * string).

Fixpoint remove (name : string) (l : t) : t :=
  match l with
  | [] => []
  | (k, v) :: rest =>
      if String.eqb k name then remove name rest else (k, v) :: remove name rest
  end.

(** [searchParams.set(name, value)]: the first pair named [name] takes the
    value and the others are removed; without one the pair is appended. *)
Fixpoint set (name value : string) (l : t) : t :=
  match l with
  | [] => [(name, value)]
  | (k, v) :: rest =>
      if String.eqb k name then (name, value) :: remove name rest
      else (k, v) :: set name value rest
  end.

Definition hexDigit (n : N) : ascii :=
  if n <? 10 then ascii_of_N (48 + n) else ascii_of_N (55 + n).

(** A byte the application/x-www-form-urlencoded serializer leaves as it
    is: an ASCII letter or digit, or one of [*], [-], [.], [_]. *)
Definition unreserved (c : N) : bool :=
  (48 <=? c) && (c <=? 57) || (65 <=? c) && (c <=? 90) || (97 <=? c) && (c <=? 122)
  || (c =? 42) || (c =? 45) || (c =? 46) || (c =? 95).

(** Percent-encoding with space as plus, byte by byte over UTF-8. *)
Definition encodeByte (a : ascii) : string :=
  let c := JsString.code a in
  if unreserved c then String a EmptyString
  else if c =? 32 then "+"
  else String "%" (String (hexDigit (c / 16)) (String (hexDigit (c mod 16)) EmptyString)).

Fixpoint encode (s : string) : string :=
  match s with
  | EmptyString => EmptyString
  | String a r => encodeByte a +:+ encode r
  end.

Definition pair (kv : string * string) : string :=
  encode (fst kv) +:+ "=" +:+ encode (snd kv).

(** [searchParams.toString()]. *)
Definition toString (l : t) : string := JsString.join "&" (map pair l).

Definition names (l : t) : list string := map fst l.

(** What the receiving end reads back from a query string: the pieces
    between [&], and of each piece the text before its first [=]. *)
Fixpoint beforeEquals (s : string) : string :=
  match s with
  | EmptyString => EmptyString
  | String a r => if JsString.code a =? 61 then EmptyString else String a (beforeEquals r)
  end.

(** [s.split('&')]. *)
Fixpoint pieces (s : string) : list string :=
  match s with
  | EmptyString => [EmptyString]
  | String a r =>
      if JsString.code a =? 38 then EmptyString :: pieces r
      else
        match pieces r with
        | [] => [String a EmptyString]
        | p :: rest => String a p :: rest
        end
  end.

(** The parameter names written in a query string (empty pieces are
    skipped, as the URL parser does). *)
Definition queryNames (query : string) : list string :=
  map beforeEquals (filter (fun p => JsString.truthy p = true) (pieces query)).

(** The query of a URL or endpoint: the text after its first [?]. *)
Fixpoint queryOf (url : string) : string :=
  match url with
  | EmptyString => EmptyString
  | String a r => if JsString.code a =? 63 then r else queryOf r
  end.

(** Whether the byte [c] occurs in [s]. *)
Fixpoint occurs (c : N) (s : string) : bool :=
  match s with
  | EmptyString => false
  | String a r => (JsString.code a =? c) || occurs c r
  end.

End URLSearchParams.

(* ===================================================================== *)
(** * lib/api.ts *)
(* ===================================================================== *)

Module Api.
Import JsNumber Types.
Local Open Scope Z_scope.

(** [process.env.NEXT_PUBLIC_API_URL || 'http://localhost:3001']. *)
Definition API_BASE_URL (NEXT_PUBLIC_API_URL : option string) : string :=
  match NEXT_PUBLIC_API_URL with
  | Some u => if JsString.truthy u then u else "http://localhost:3001"
  | None => "http://localhost:3001"
  end.

(** [generateIdempotencyKey()], given what [Date.now()] and
    [Math.random().toString(36)] return at the call. *)
Definition generateIdempotencyKey (now : number) (random36 : string) : string :=
  JsNumber.toString now +:+ "-" +:+ JsString.substring 2 15 random36.

Inductive Method : Type := GET | POST | PUT | DELETE.

(** The [RequestInit] the client passes: [body] stands for
    [JSON.stringify(input)]. *)
Record RequestInit : Type := {
  method : option Method;
  body : option CreateExpenseInput;
}.

(** One call of [fetch(url, {...options, headers})]. *)
Record Fetch : Type := {
  fetch_url : string;
  fetch_init : RequestInit;
  fetch_headers : list (string * string);
}.

(** What [request] does to the outside: it calls [fetch], and it may read
    the response body with [response.json()]. *)
Inductive Effect : Type :=
| Fetched (f : Fetch)
| ReadJson.

(** A response: its status, and what [response.json()] settles to (a
    rejection when the body is not JSON text). *)
Record Response : Type := {
  status : Z;
  json : Settled Json.value;
}.

(** [response.ok]. *)
Definition ok (r : Response) : bool := (200 <=? status r) && (status r <=? 299).

(** What [await fetch(...)] gives: a rejection (network failure) or a response. *)
Inductive FetchResult : Type :=
| Failed (e : JsError)
| Responded (r : Response).

(** The value thrown by
    [throw new Error(error.details?.join(', ') || error.error || 'Request failed')]
    for the parsed body [data]; evaluating the operand throws a [TypeError]
    itself when [data] is [null] or when [details] is neither nullish nor
    an array. *)
Definition fallbackMessage (data : Json.value) : JsError :=
  match Json.getField data "error" with
  | Some v => if Json.truthy v then Error (Json.toString v) else Error "Request failed"
  | None => Error "Request failed"
  end.

Definition thrownFor (data : Json.value) : JsError :=
  match data with
  | Json.Null => TypeError "Cannot read properties of null (reading 'details')"
  | _ =>
      match Json.getField data "details" with
      | None | Some Json.Null => fallbackMessage data
      | Some (Json.Arr items) =>
          let joined := Json.join ", " items in
          if JsString.truthy joined then Error joined else fallbackMessage data
      | Some _ => TypeError "error.details?.join is not a function"
      end
  end.

Section Client.
Variable NEXT_PUBLIC_API_URL : option string.

(** [ApiClient.request]: the settled promise and the effects, in order. *)
Definition request (endpoint : string) (options : RequestInit) (net : FetchResult)
  : Settled (option Json.value) * list Effect :=
  let url := API_BASE_URL NEXT_PUBLIC_API_URL +:+ endpoint in
  let call := Fetched {| fetch_url := url; fetch_init := options;
                         fetch_headers := [("Content-Type", "application/json")] |} in
  match net with
  | Failed e => (Rejected e, [call])
  | Responded response =>
      if status response =? 204 then (Fulfilled None, [call])
      else
        match json response with
        | Rejected e => (Rejected e, [call; ReadJson])
        | Fulfilled data =>
            if negb (ok response) then (Rejected (thrownFor data), [call; ReadJson])
            else (Fulfilled (Some data), [call; ReadJson])
        end
  end.

(** The [params] argument of [getExpenses]. *)
Record ListParams : Type := {
  params_category : option string;
  params_sort : option string;
  params_page : option number;
  params_limit : option number;
}.

(** The [URLSearchParams] that [getExpenses] builds. *)
Definition searchParams (params : option ListParams) : URLSearchParams.t :=
  let sp : URLSearchParams.t := [] in
  let sp :=
    match params ≫= params_category with
    | Some c => if JsString.truthy c then URLSearchParams.set "category" c sp else sp
    | None => sp
    end in
  let sp :=
    match params ≫= params_sort with
    | Some s => if JsString.truthy s then URLSearchParams.set "sort" s sp else sp
    | None => sp
    end in
  let sp :=
    match params ≫= params_page with
    | Some n => if JsNumber.truthy n then URLSearchParams.set "page" (JsNumber.toString n) sp else sp
    | None => sp
    end in
  let sp :=
    match params ≫= params_limit with
    | Some n => if JsNumber.truthy n then URLSearchParams.set "limit" (JsNumber.toString n) sp else sp
    | None => sp
    end in
  sp.

(** The [endpoint] of [getExpenses]. *)
Definition expensesEndpoint (params : option ListParams) : string :=
  let queryString := URLSearchParams.toString (searchParams params) in
  if JsString.truthy queryString then "/expenses?" +:+ queryString else "/expenses".

(** The methods of [ApiClient], as the call each one makes. *)
Inductive Call : Type :=
| CreateExpense (input : CreateExpenseInput)
| GetExpenses (params : option ListParams)
| UpdateExpense (id : string) (input : CreateExpenseInput)
| DeleteExpense (id : string)
| GetStats
| GetCategories.

Definition endpointOf (c : Call) : string :=
  match c with
  | CreateExpense _ => "/expenses"
  | GetExpenses params => expensesEndpoint params
  | UpdateExpense id _ => "/expenses/" +:+ id
  | DeleteExpense id => "/expenses/" +:+ id
  | GetStats => "/stats"
  | GetCategories => "/categories"
  end.

Definition optionsOf (c : Call) : RequestInit :=
  match c with
  | CreateExpense input => {| method := Some POST; body := Some input |}
  | UpdateExpense _ input => {| method := Some PUT; body := Some input |}
  | DeleteExpense _ => {| method := Some DELETE; body := None |}
  | GetExpenses _ | GetStats | GetCategories => {| method := None; body := None |}
  end.

Definition perform (c : Call) (net : FetchResult) : Settled (option Json.value) * list Effect :=
  request (endpointOf c) (optionsOf c) net.

Definition createExpense (input : CreateExpenseInput) := perform (CreateExpense input).
Definition getExpenses (params : option ListParams) := perform (GetExpenses params).
Definition updateExpense (id : string) (input : CreateExpenseInput) := perform (UpdateExpense id input).
Definition deleteExpense (id : string) := perform (DeleteExpense id).
Definition getStats := perform GetStats.
Definition getCategories := perform GetCategories.

End Client.

(** ** [exportToCSV] *)

Definition newline : string := String (ascii_of_N 10) EmptyString.
Definition quoted (s : string) : string :=
  String JsString.dquote (JsString.doubleQuotes s +:+ String JsString.dquote EmptyString).

Definition csvHeaders : list string := ["Date"; "Description"; "Category"; "Amount (₹)"].

(** One element of [rows]. *)
Definition csvRow (e : Expense) : list string :=
  [date e; quoted (description e); category e; JsNumber.toFixed 2 (amount e)].

(** The text [csv]. *)
Definition csvText (expenses : list Expense) : string :=
  JsString.join newline
    (JsString.join "," csvHeaders :: map (fun row => JsString.join "," row) (map csvRow expenses)).

(** The file the browser is made to download. *)
Record Download : Type := {
  blob_text : string;
  blob_type : string;
  download_name : string;
}.

(** [exportToCSV(expenses)], where [today] is
    [new Date().toISOString().split('T')[0]]. *)
Definition exportToCSV (today : string) (expenses : list Expense) : Download :=
  {| blob_text := csvText expenses;
     blob_type := "text/csv;charset=utf-8;";
     download_name := "expenses_" +:+ today +:+ ".csv" |}.

End Api.

(* ===================================================================== *)
(** * components/ExpenseForm.tsx *)
(* ===================================================================== *)

Module ExpenseForm.
Import JsNumber Types.

(** The state hooks of the component. *)
Record State : Type := {
  amount : string;
  category : string;
  description : string;
  date : string;
  isSubmitting : bool;
  error : option string;
  currentIdempotencyKey : option string;
}.

Definition setAmount (v : string) (st : State) : State :=
  {| amount := v; category := category st; description := description st;
     date := date st; isSubmitting := isSubmitting st; error := error st;
     currentIdempotencyKey := currentIdempotencyKey st |}.
Definition setCategory (v : string) (st : State) : State :=
  {| amount := amount st; category := v; description := description st;
     date := date st; isSubmitting := isSubmitting st; error := error st;
     currentIdempotencyKey := currentIdempotencyKey st |}.
Definition setDescription (v : string) (st : State) : State :=
  {| amount := amount st; category := category st; description := v;
     date := date st; isSubmitting := isSubmitting st; error := error st;
     currentIdempotencyKey := currentIdempotencyKey st |}.
Definition setDate (v : string) (st : State) : State :=
  {| amount := amount st; category := category st; description := description st;
     date := v; isSubmitting := isSubmitting st; error := error st;
     currentIdempotencyKey := currentIdempotencyKey st |}.
Definition setIsSubmitting (v : bool) (st : State) : State :=
  {| amount := amount st; category := category st; description := description st;
     date := date st; isSubmitting := v; error := error st;
     currentIdempotencyKey := currentIdempotencyKey st |}.
Definition setError (v : option string) (st : State) : State :=
  {| amount := amount st; category := category st; description := description st;
     date := date st; isSubmitting := isSubmitting st; error := v;
     currentIdempotencyKey := currentIdempotencyKey st |}.
Definition setCurrentIdempotencyKey (v : option string) (st : State) : State :=
  {| amount := amount st; category := category st; description := description st;
     date := date st; isSubmitting := isSubmitting st; error := error st;
     currentIdempotencyKey := v |}.

(** The state at mount; [today] is [new Date().toISOString().split('T')[0]]. *)
Definition initialState (today : string) : State :=
  {| amount := EmptyString; category := CATEGORIES_0; description := EmptyString;
     date := today; isSubmitting := false; error := None;
     currentIdempotencyKey := None |}.

Definition resetForm (today : string) (st : State) : State :=
  setCurrentIdempotencyKey None
    (setDate today (setDescription EmptyString (setCategory CATEGORIES_0 (setAmount EmptyString st)))).

(** What one submission meets: the clock and the random source read by
    [generateIdempotencyKey], the date read by [resetForm], and what
    [api.createExpense] settles to. *)
Record SubmitEnv : Type := {
  now : number;
  random36 : string;
  today : string;
  outcome : Settled Expense;
}.

(** What the component does to the outside. *)
Inductive Output : Type :=
| Called (c : Api.Call)
| OnExpenseCreated.

(** [!currentIdempotencyKey]. *)
Definition keyMissing (k : option string) : bool :=
  match k with
  | Some s => negb (JsString.truthy s)
  | None => true
  end.

(** The stored key is absent or a non-empty string (what every reachable
    state satisfies). *)
Definition keyInvariant (st : State) : Prop :=
  keyMissing (currentIdempotencyKey st) = true -> currentIdempotencyKey st = None.

(** [const amountNum = parseFloat(amount)] and the test on it. *)
Definition amountNum (st : State) : number := parseFloat (amount st).
Definition amountRejected (st : State) : bool :=
  isNaN (amountNum st) || leb (amountNum st) zero.

(** [const idempotencyKey = currentIdempotencyKey || generateIdempotencyKey()]. *)
Definition idempotencyKey (env : SubmitEnv) (st : State) : string :=
  match currentIdempotencyKey st with
  | Some k => if JsString.truthy k then k
              else Api.generateIdempotencyKey (now env) (random36 env)
  | None => Api.generateIdempotencyKey (now env) (random36 env)
  end.

(** [const input: CreateExpenseInput = { ... }]. *)
Definition input (env : SubmitEnv) (st : State) : CreateExpenseInput :=
  {| input_amount := amountNum st;
     input_category := category st;
     input_description := JsString.trim (description st);
     input_date := date st;
     idempotency_key := Some (idempotencyKey env st) |}.

(** [handleSubmit]; [st0] is the state of the render the handler closes over. *)
Definition handleSubmit (env : SubmitEnv) (st0 : State) : State * list Output :=
  let st := setError None st0 in
  if amountRejected st0 then
    (setError (Some "Please enter a valid amount greater than 0") st, [])
  else if negb (JsString.truthy (JsString.trim (description st0))) then
    (setError (Some "Please enter a description") st, [])
  else if negb (JsString.truthy (date st0)) then
    (setError (Some "Please select a date") st, [])
  else
    let st :=
      if keyMissing (currentIdempotencyKey st0)
      then setCurrentIdempotencyKey (Some (idempotencyKey env st0)) st else st in
    let st := setIsSubmitting true st in
    match outcome env with
    | Fulfilled _ =>
        (setIsSubmitting false (resetForm (today env) st),
         [Called (Api.CreateExpense (input env st0)); OnExpenseCreated])
    | Rejected err =>
        (setIsSubmitting false (setError (Some (messageOr "Failed to create expense" err)) st),
         [Called (Api.CreateExpense (input env st0))])
    end.

(** What the user does to the form.  The controls are disabled while
    [isSubmitting]; the category comes from the options of the select. *)
Inductive Event : Type :=
| ChangeAmount (v : string)
| SelectCategory (index : nat)
| ChangeDescription (v : string)
| ChangeDate (v : string)
| Submit (env : SubmitEnv).

(** The options of the category select of the form. *)
Definition formCategoryOptions : list SelectOption := categoryOptions.

Definition step (st : State) (ev : Event) : State * list Output :=
  if isSubmitting st then (st, [])
  else
    match ev with
    | ChangeAmount v => (setAmount v st, [])
    | SelectCategory index =>
        match formCategoryOptions !! index with
        | Some o => (setCategory (option_value o) st, [])
        | None => (st, [])
        end
    | ChangeDescription v => (setDescription v st, [])
    | ChangeDate v => (setDate v st, [])
    | Submit env => handleSubmit env st
    end.

(** A create request that was sent, with the environment of its submission. *)
Record Attempt : Type := {
  sent : CreateExpenseInput;
  env_of : SubmitEnv;
}.

Definition succeeded (a : Attempt) : bool :=
  match outcome (env_of a) with
  | Fulfilled _ => true
  | Rejected _ => false
  end.

Definition key (a : Attempt) : option string := idempotency_key (sent a).

Definition attemptsOf (ev : Event) (outputs : list Output) : list Attempt :=
  match ev with
  | Submit env =>
      omap (fun o =>
              match o with
              | Called (Api.CreateExpense input) => Some {| sent := input; env_of := env |}
              | _ => None
              end) outputs
  | _ => []
  end.

(** The state after a sequence of events and the create requests sent, in order. *)
Fixpoint run (st : State) (events : list Event) : State * list Attempt :=
  match events with
  | [] => (st, [])
  | ev :: rest =>
      let '(st', outputs) := step st ev in
      let '(final, later) := run st' rest in
      (final, attemptsOf ev outputs ++ later)
  end.

End ExpenseForm.

(* ===================================================================== *)
(** * components/ExpenseList.tsx *)
(* ===================================================================== *)

Module ExpenseList.
Import JsNumber Types.

(** ['date_desc' | 'date_asc']. *)
Inductive SortOrder : Type := date_desc | date_asc.

Definition sortString (o : SortOrder) : string :=
  match o with
  | date_desc => "date_desc"
  | date_asc => "date_asc"
  end.

Record EditForm : Type := {
  edit_amount : string;
  edit_category : string;
  edit_description : string;
  edit_date : string;
}.

(** The state hooks of the component. *)
Record State : Type := {
  expenses : list Expense;
  isLoading : bool;
  error : option string;
  categoryFilter : string;
  sortOrder : SortOrder;
  currentPage : number;
  totalPages : number;
  totalItems : number;
  editingExpense : option Expense;
  editForm : EditForm;
  isEditSubmitting : bool;
  deletingId : option string;
}.

Definition itemsPerPage : number := of_decimal false 10 0.

Definition initialState : State :=
  {| expenses := []; isLoading := true; error := None;
     categoryFilter := EmptyString; sortOrder := date_desc;
     currentPage := of_decimal false 1 0; totalPages := of_decimal false 1 0;
     totalItems := zero;
     editingExpense := None;
     editForm := {| edit_amount := EmptyString; edit_category := EmptyString;
                    edit_description := EmptyString; edit_date := EmptyString |};
     isEditSubmitting := false; deletingId := None |}.

Definition setError (v : option string) (st : State) : State :=
  {| expenses := expenses st; isLoading := isLoading st; error := v;
     categoryFilter := categoryFilter st; sortOrder := sortOrder st;
     currentPage := currentPage st; totalPages := totalPages st;
     totalItems := totalItems st; editingExpense := editingExpense st;
     editForm := editForm st; isEditSubmitting := isEditSubmitting st;
     deletingId := deletingId st |}.
Definition setIsLoading (v : bool) (st : State) : State :=
  {| expenses := expenses st; isLoading := v; error := error st;
     categoryFilter := categoryFilter st; sortOrder := sortOrder st;
     currentPage := currentPage st; totalPages := totalPages st;
     totalItems := totalItems st; editingExpense := editingExpense st;
     editForm := editForm st; isEditSubmitting := isEditSubmitting st;
     deletingId := deletingId st |}.
(** [setExpenses(response.data); setTotalPages(response.totalPages);
    setTotalItems(response.total)]. *)
Definition setPage (response : PaginatedResponse Expense) (st : State) : State :=
  {| expenses := data response; isLoading := isLoading st; error := error st;
     categoryFilter := categoryFilter st; sortOrder := sortOrder st;
     currentPage := currentPage st; totalPages := Types.totalPages response;
     totalItems := total response; editingExpense := editingExpense st;
     editForm := editForm st; isEditSubmitting := isEditSubmitting st;
     deletingId := deletingId st |}.
Definition setEditing (e : option Expense) (st : State) : State :=
  {| expenses := expenses st; isLoading := isLoading st; error := error st;
     categoryFilter := categoryFilter st; sortOrder := sortOrder st;
     currentPage := currentPage st; totalPages := totalPages st;
     totalItems := totalItems st; editingExpense := e;
     editForm := editForm st; isEditSubmitting := isEditSubmitting st;
     deletingId := deletingId st |}.
Definition setEditForm (f : EditForm) (st : State) : State :=
  {| expenses := expenses st; isLoading := isLoading st; error := error st;
     categoryFilter := categoryFilter st; sortOrder := sortOrder st;
     currentPage := currentPage st; totalPages := totalPages st;
     totalItems := totalItems st; editingExpense := editingExpense st;
     editForm := f; isEditSubmitting := isEditSubmitting st;
     deletingId := deletingId st |}.
Definition setIsEditSubmitting (v : bool) (st : State) : State :=
  {| expenses := expenses st; isLoading := isLoading st; error := error st;
     categoryFilter := categoryFilter st; sortOrder := sortOrder st;
     currentPage := currentPage st; totalPages := totalPages st;
     totalItems := totalItems st; editingExpense := editingExpense st;
     editForm := editForm st; isEditSubmitting := v;
     deletingId := deletingId st |}.
Definition setDeletingId (v : option string) (st : State) : State :=
  {| expenses := expenses st; isLoading := isLoading st; error := error st;
     categoryFilter := categoryFilter st; sortOrder := sortOrder st;
     currentPage := currentPage st; totalPages := totalPages st;
     totalItems := totalItems st; editingExpense := editingExpense st;
     editForm := editForm st; isEditSubmitting := isEditSubmitting st;
     deletingId := v |}.

(** The [params] object [fetchExpenses] builds. *)
Definition fetchParams (st : State) : Api.ListParams :=
  {| Api.params_category :=
       if JsString.truthy (categoryFilter st) then Some (categoryFilter st) else None;
     Api.params_sort := Some (sortString (sortOrder st));
     Api.params_page := Some (currentPage st);
     Api.params_limit := Some itemsPerPage |}.

(** [fetchExpenses], given what [api.getExpenses(params)] settles to. *)
Definition fetchExpenses (result : Settled (PaginatedResponse Expense)) (st : State)
  : State * list Api.Call :=
  let st := setError None (setIsLoading true st) in
  let call := Api.GetExpenses (Some (fetchParams st)) in
  match result with
  | Fulfilled response => (setIsLoading false (setPage response st), [call])
  | Rejected err =>
      (setIsLoading false (setError (Some (messageOr "Failed to fetch expenses" err)) st), [call])
  end.

(** [const total = expenses.reduce((sum, expense) => sum + expense.amount, 0)]. *)
Definition total (st : State) : number :=
  fold_left (fun sum expense => add sum (Types.amount expense)) (expenses st) zero.

(** [const categoryTotals = expenses.reduce((acc, expense) => { ... }, {})]:
    the object is a finite map from its own property names.  That is what
    the code reads and writes for the categories of the enumeration; a
    name that an object inherits ([constructor], [toString], ...) is read
    through the prototype by [acc[expense.category]], and the theorems
    about the summary assume categories of the enumeration. *)
Definition categoryTotals (st : State) : gmap string number :=
  fold_left
    (fun acc expense =>
       <[Types.category expense :=
           add (orZero (acc !! Types.category expense)) (Types.amount expense)]> acc)
    (expenses st) ∅.

Definition handleEditClick (expense : Expense) (st : State) : State :=
  setEditForm
    {| edit_amount := JsNumber.toString (Types.amount expense);
       edit_category := Types.category expense;
       edit_description := Types.description expense;
       edit_date := Types.date expense |}
    (setEditing (Some expense) st).

Definition changeEditCategory (v : string) (st : State) : State :=
  setEditForm {| edit_amount := edit_amount (editForm st); edit_category := v;
                 edit_description := edit_description (editForm st);
                 edit_date := edit_date (editForm st) |} st.
Definition changeEditDescription (v : string) (st : State) : State :=
  setEditForm {| edit_amount := edit_amount (editForm st);
                 edit_category := edit_category (editForm st);
                 edit_description := v; edit_date := edit_date (editForm st) |} st.
Definition changeEditDate (v : string) (st : State) : State :=
  setEditForm {| edit_amount := edit_amount (editForm st);
                 edit_category := edit_category (editForm st);
                 edit_description := edit_description (editForm st); edit_date := v |} st.

(** [handleEditSubmit], given what [api.updateExpense] and the
    [fetchExpenses()] that follows a success settle to. *)
Definition handleEditSubmit (updated : Settled Expense)
    (refetched : Settled (PaginatedResponse Expense)) (st : State)
  : State * list Api.Call :=
  match editingExpense st with
  | None => (st, [])
  | Some editing =>
      let amountNum := parseFloat (edit_amount (editForm st)) in
      if isNaN amountNum || leb amountNum zero then (st, [])
      else
        let input :=
          {| input_amount := amountNum;
             input_category := edit_category (editForm st);
             input_description := JsString.trim (edit_description (editForm st));
             input_date := edit_date (editForm st);
             idempotency_key := None |} in
        let call := Api.UpdateExpense (Types.id editing) input in
        let st := setIsEditSubmitting true st in
        match updated with
        | Fulfilled _ =>
            let '(st, calls) := fetchExpenses refetched (setEditing None st) in
            (setIsEditSubmitting false st, call :: calls)
        | Rejected err =>
            (setIsEditSubmitting false
               (setError (Some (messageOr "Failed to update expense" err)) st), [call])
        end
  end.

(** [deletingId === id]. *)
Definition isDeleting (st : State) (id : string) : bool :=
  match deletingId st with
  | Some d => String.eqb d id
  | None => false
  end.

(** [handleDeleteClick]; the timer of the first click is the separate
    event [deleteTimeout]. *)
Definition handleDeleteClick (id : string) (deleted : Settled unit)
    (refetched : Settled (PaginatedResponse Expense)) (st : State)
  : State * list Api.Call :=
  if isDeleting st id then
    match deleted with
    | Fulfilled _ =>
        let '(st, calls) := fetchExpenses refetched (setDeletingId None st) in
        (st, Api.DeleteExpense id :: calls)
    | Rejected err =>
        (setDeletingId None (setError (Some (messageOr "Failed to delete expense" err)) st),
         [Api.DeleteExpense id])
    end
  else (setDeletingId (Some id) st, []).

Definition deleteTimeout (st : State) : State := setDeletingId None st.

(** The argument of [api.getExpenses] in [handleExportCSV]:
    [{ category: categoryFilter || undefined, sort: sortOrder }]. *)
Definition exportParams (st : State) : Api.ListParams :=
  {| Api.params_category :=
       if JsString.truthy (categoryFilter st) then Some (categoryFilter st) else None;
     Api.params_sort := Some (sortString (sortOrder st));
     Api.params_page := None;
     Api.params_limit := None |}.

(** [handleExportCSV], given what [api.getExpenses] settles to and the
    date [exportToCSV] reads. *)
Definition handleExportCSV (result : Settled (PaginatedResponse Expense)) (today : string)
    (st : State) : State * list Api.Call * option Api.Download :=
  let call := Api.GetExpenses (Some (exportParams st)) in
  match result with
  | Fulfilled response => (st, [call], Some (Api.exportToCSV today (data response)))
  | Rejected err =>
      (setError (Some (messageOr "Failed to export expenses" err)) st, [call], None)
  end.

(** The options of the category select of the edit modal. *)
Definition editCategoryOptions : list SelectOption := categoryOptions.

End ExpenseList.

(* ===================================================================== *)
(** * The statements of the specification, as definitions *)
(* ===================================================================== *)

(** These definitions follow the words of the specification, not the code;
    the theorems below compare the code with them. *)
Module Spec.
Import JsNumber Types.

(** A value that is present and truthy. *)
Definition supplied (value : option string) : bool :=
  match value with
  | Some v => JsString.truthy v
  | None => false
  end.

Definition suppliedNumber (value : option number) : bool :=
  match value with
  | Some n => JsNumber.truthy n
  | None => false
  end.

(** The query parameter a supplied value gives. *)
Definition entry (name : string) (value : option string) : URLSearchParams.t :=
  match value with
  | Some v => if JsString.truthy v then [(name, v)] else []
  | None => []
  end.

Definition entryNumber (name : string) (value : option number) : URLSearchParams.t :=
  match value with
  | Some n => if JsNumber.truthy n then [(name, JsNumber.toString n)] else []
  | None => []
  end.

(** The message for an error body: the details joined by a comma and a
    space when that text is not empty, else the error field when it is a
    non-empty string, else the fixed text. *)
Definition messageOfErrorBody (e : ApiError) : string :=
  let joined :=
    match details e with
    | Some ds => JsString.join ", " ds
    | None => EmptyString
    end in
  if JsString.truthy joined then joined
  else
    match error e with
    | Some m => if JsString.truthy m then m else "Request failed"
    | None => "Request failed"
    end.

(** Whether a parameter is one of the two that select a page. *)
Definition pagingParameter (kv : string * string) : bool :=
  String.eqb (fst kv) "page" || String.eqb (fst kv) "limit".

(** The sum of the amounts of a list of expenses, added in list order
    starting from [0]. *)
Definition sumOfAmounts (items : list Expense) : number :=
  fold_left add (map amount items) zero.

(** The items of a category. *)
Definition ofCategory (c : string) (items : list Expense) : list Expense :=
  List.filter (fun e => String.eqb (category e) c) items.

(** The line of the CSV text for one expense: date, quoted description,
    category and amount with two fraction digits, separated by commas. *)
Definition csvLine (e : Expense) : string :=
  date e +:+ "," +:+ String JsString.dquote (JsString.doubleQuotes (description e))
  +:+ String JsString.dquote EmptyString +:+ "," +:+ category e +:+ ","
  +:+ JsNumber.toFixed 2 (amount e).

(** Reading a quoted CSV field back: the text between the outer quotes,
    with every pair of quotes read as one. *)
Fixpoint unquoteBody (s : string) : option string :=
  match s with
  | EmptyString => None
  | String a r =>
      if (JsString.code a =? 34)%N then
        match r with
        | EmptyString => Some EmptyString
        | String b r' =>
            if (JsString.code b =? 34)%N then
              match unquoteBody r' with
              | Some t => Some (String JsString.dquote t)
              | None => None
              end
            else None
        end
      else
        match unquoteBody r with
        | Some t => Some (String a t)
        | None => None
        end
  end.

Definition unquoteField (s : string) : option string :=
  match s with
  | String a r => if (JsString.code a =? 34)%N then unquoteBody r else None
  | EmptyString => None
  end.

(** The idempotency keys of a sequence of create requests, given the key
    stored before the first: a request carries the stored key, or a key
    generated at its submission when none is stored; a failed request
    leaves its key stored, a successful one leaves none. *)
Fixpoint chained (stored : option string) (log : list ExpenseForm.Attempt) : Prop :=
  match log with
  | [] => True
  | a :: rest =>
      ExpenseForm.key a
      = Some (match stored with
              | Some k => k
              | None => Api.generateIdempotencyKey
                          (ExpenseForm.now (ExpenseForm.env_of a))
                          (ExpenseForm.random36 (ExpenseForm.env_of a))
              end)
      /\ chained (if ExpenseForm.succeeded a then None else ExpenseForm.key a) rest
  end.

(** The key a form holds after the requests of [log]. *)
Definition storedAfter (log : list ExpenseForm.Attempt) : option string :=
  match last log with
  | Some a => if ExpenseForm.succeeded a then None else ExpenseForm.key a
  | None => None
  end.

(** The lines of a text: the pieces between its line feeds. *)
Fixpoint linesOf (s : string) : list string :=
  match s with
  | EmptyString => [EmptyString]
  | String a r =>
      if (JsString.code a =? 10)%N then EmptyString :: linesOf r
      else
        match linesOf r with
        | [] => [String a EmptyString]
        | p :: rest => String a p :: rest
        end
  end.

(** The number of line feeds in a text, and in the date, the description
    and the category of an expense. *)
Fixpoint lineFeeds (s : string) : nat :=
  match s with
  | EmptyString => 0%nat
  | String a r => ((if (JsString.code a =? 10)%N then 1 else 0) + lineFeeds r)%nat
  end.

Definition lineFeedsIn (e : Expense) : nat :=
  (lineFeeds (date e) + lineFeeds (description e) + lineFeeds (category e))%nat.

End Spec.

(* ===================================================================== *)
(** * Sample data *)
(* ===================================================================== *)

Module Sample.
Import JsNumber Types.

Definition lunch : Expense :=
  {| id := "65a1"; amount := of_decimal false 10050 (-2); category := "Food";
     description := "Lunch"; date := "2024-01-10"; created_at := "2024-01-10T10:30:00.000Z" |}.
Definition taxi : Expense :=
  {| id := "65a2"; amount := of_decimal false 50 0; category := "Transport";
     description := "Taxi"; date := "2024-01-15"; created_at := "2024-01-15T08:00:00.000Z" |}.
Definition snack : Expense :=
  {| id := "65a3"; amount := of_decimal false 20 0; category := "Food";
     description := "Snack"; date := "2024-02-01"; created_at := "2024-02-01T16:45:00.000Z" |}.
(** An amount of [1e21]. *)
Definition rent : Expense :=
  {| id := "65a4"; amount := of_decimal false 1 21; category := "Bills";
     description := "Rent"; date := "2024-01-15"; created_at := "2024-01-15T09:00:00.000Z" |}.

Definition page1 : PaginatedResponse Expense :=
  {| data := [lunch; taxi; snack]; total := of_decimal false 3 0;
     page := of_decimal false 1 0; limit := of_decimal false 10 0;
     totalPages := of_decimal false 1 0 |}.

(** The create form, mounted on 2024-01-15, with an amount and a description typed in. *)
Definition filled (amountText descriptionText : string) : ExpenseForm.State :=
  ExpenseForm.setDescription descriptionText
    (ExpenseForm.setAmount amountText (ExpenseForm.initialState "2024-01-15")).

Definition accepted : ExpenseForm.SubmitEnv :=
  {| ExpenseForm.now := of_decimal false 1700000000000 0;
     ExpenseForm.random36 := "0.4fzyo82mvyr";
     ExpenseForm.today := "2024-01-15";
     ExpenseForm.outcome := Fulfilled lunch |}.
Definition refused (at_ms : N) (random : string) : ExpenseForm.SubmitEnv :=
  {| ExpenseForm.now := of_decimal false at_ms 0;
     ExpenseForm.random36 := random;
     ExpenseForm.today := "2024-01-15";
     ExpenseForm.outcome := Rejected (TypeError "Failed to fetch") |}.
Definition created (at_ms : N) (random : string) : ExpenseForm.SubmitEnv :=
  {| ExpenseForm.now := of_decimal false at_ms 0;
     ExpenseForm.random36 := random;
     ExpenseForm.today := "2024-01-15";
     ExpenseForm.outcome := Fulfilled lunch |}.

(** A user who types an amount, fails twice on the network, succeeds, and
    then creates a second expense at the first try. *)
Definition retries : list ExpenseForm.Event :=
  [ExpenseForm.ChangeAmount "100.50"; ExpenseForm.ChangeDescription " Lunch ";
   ExpenseForm.Submit (refused 1700000000001 "0.abc");
   ExpenseForm.Submit (refused 1700000000002 "0.def");
   ExpenseForm.Submit (created 1700000000003 "0.ghi");
   ExpenseForm.ChangeAmount "20"; ExpenseForm.ChangeDescription "Snack";
   ExpenseForm.SelectCategory 0;
   ExpenseForm.Submit (created 1700000000004 "0.jkl")].

(** The list view after [page1] has arrived, with the edit modal opened on
    [lunch] and its description cleared. *)
Definition editingLunch : ExpenseList.State :=
  ExpenseList.changeEditDescription "   "
    (ExpenseList.handleEditClick lunch
       (fst (ExpenseList.fetchExpenses (Fulfilled page1) ExpenseList.initialState))).

(** A validation failure as the server reports it. *)
Definition validationFailure (ds : list string) : Api.Response :=
  {| Api.status := 400;
     Api.json := Fulfilled (ApiError_json {| error := Some "Validation failed";
                                             details := Some ds |}) |}.

End Sample.

(* ===================================================================== *)
(** * Numbers: subtraction, comparison, [Math.max] and [Math.min] *)
(* ===================================================================== *)

Module JsMath.
Import JsNumber.

(** The literals [1], [5], [10] and [100]. *)
Definition one : number := of_decimal false 1 0.
Definition five : number := of_decimal false 5 0.
Definition ten : number := of_decimal false 10 0.
Definition hundred : number := of_decimal false 100 0.

(** [x - y], [x * y], [x / y], [x < y], [x === y]. *)
Definition sub (x y : number) : number := SFsub prec emax x y.
Definition mul (x y : number) : number := SFmul prec emax x y.
Definition div (x y : number) : number := SFdiv prec emax x y.
Definition ltb (x y : number) : bool := SFltb x y.
Definition strictEquals (x y : number) : bool := SFeqb x y.

(** [Math.max(x, y)]: [NaN] when an argument is, and [+0] is larger than
    [-0] (ECMAScript 21.3.2.24). *)
Definition max (x y : number) : number :=
  match x, y with
  | S754_nan, _ | _, S754_nan => NaN
  | S754_zero sx, S754_zero sy => S754_zero (sx && sy)
  | _, _ => if leb x y then y else x
  end.

(** [Math.min(x, y)]: [NaN] when an argument is, and [-0] is smaller than
    [+0]. *)
Definition min (x y : number) : number :=
  match x, y with
  | S754_nan, _ | _, S754_nan => NaN
  | S754_zero sx, S754_zero sy => S754_zero (sx || sy)
  | _, _ => if leb x y then x else y
  end.

(** [Math.max(...l)]: the arguments are taken in order, from [-Infinity]. *)
Definition maxOf (l : list number) : number := fold_left max l (S754_infinity true).

End JsMath.

(* ===================================================================== *)
(** * Reading a query string and a CSV text back *)
(* ===================================================================== *)

(** The parser of application/x-www-form-urlencoded text of the URL
    standard, which the receiving end of a request applies to the query:
    the pieces between [&] that are not empty, each split at its first [=],
    a plus sign read as a space and [%XY] as the byte with hexadecimal
    digits [XY]. *)
Module FormUrlencoded.
Local Open Scope N_scope.

Definition hexValue (a : ascii) : option N :=
  let c := JsString.code a in
  if (48 <=? c) && (c <=? 57) then Some (c - 48)
  else if (65 <=? c) && (c <=? 70) then Some (c - 55)
  else if (97 <=? c) && (c <=? 102) then Some (c - 87)
  else None.

Fixpoint decode (s : string) : string :=
  match s with
  | EmptyString => EmptyString
  | String a r =>
      if JsString.code a =? 43 then String " " (decode r)
      else if JsString.code a =? 37 then
        match r with
        | String h (String l r') =>
            match hexValue h, hexValue l with
            | Some x, Some y => String (ascii_of_N (16 * x + y)) (decode r')
            | _, _ => String a (decode r)
            end
        | _ => String a (decode r)
        end
      else String a (decode r)
  end.

(** The text after the first [=] of a piece; empty when there is none. *)
Fixpoint afterEquals (s : string) : string :=
  match s with
  | EmptyString => EmptyString
  | String a r => if JsString.code a =? 61 then r else afterEquals r
  end.

Definition parse (query : string) : list (string * string) :=
  map (fun piece => (decode (URLSearchParams.beforeEquals piece), decode (afterEquals piece)))
      (filter (fun p => JsString.truthy p = true) (URLSearchParams.pieces query)).

End FormUrlencoded.

(** A reader of CSV text (RFC 4180, with line feeds between the records):
    fields are separated by commas; a field that starts with a double quote
    runs to the closing double quote, with two double quotes in it read as
    one. *)
Module CsvReader.
Local Open Scope N_scope.

Inductive Mode : Type :=
| FieldStart
| Plain
| Quoted.

(** The records read so far have their first field under construction. *)
Definition push (a : ascii) (records : list (list string)) : list (list string) :=
  match records with
  | (field :: fields) :: rest => (String a field :: fields) :: rest
  | [] :: rest => [String a EmptyString] :: rest
  | [] => [[String a EmptyString]]
  end.

Definition newField (records : list (list string)) : list (list string) :=
  match records with
  | fields :: rest => (EmptyString :: fields) :: rest
  | [] => [[EmptyString]]
  end.

Definition newRecord (records : list (list string)) : list (list string) :=
  [EmptyString] :: records.

Fixpoint read (mode : Mode) (s : string) : list (list string) :=
  match s with
  | EmptyString => [[EmptyString]]
  | String a r =>
      match mode with
      | Quoted =>
          if JsString.code a =? 34 then
            match r with
            | String b r' =>
                if JsString.code b =? 34 then push JsString.dquote (read Quoted r')
                else read Plain r
            | EmptyString => [[EmptyString]]
            end
          else push a (read Quoted r)
      | _ =>
          if JsString.code a =? 44 then newField (read FieldStart r)
          else if JsString.code a =? 10 then newRecord (read FieldStart r)
          else if (JsString.code a =? 34)
                  && match mode with FieldStart => true | _ => false end
               then read Quoted r
          else push a (read Plain r)
      end
  end.

Definition records (text : string) : list (list string) := read FieldStart text.

(** A text that can stand in a field without quotes: it holds no comma,
    no double quote and no line feed. *)
Definition bare (s : string) : bool :=
  negb (URLSearchParams.occurs 44 s) && negb (URLSearchParams.occurs 34 s)
  && negb (URLSearchParams.occurs 10 s).

(** A cell of a line as [exportToCSV] writes it: bare, or between double
    quotes with the double quotes of the content doubled. *)
Inductive Cell : Type :=
| Bare (content : string)
| InQuotes (content : string).

Definition content (c : Cell) : string :=
  match c with
  | Bare s | InQuotes s => s
  end.

Definition written (c : Cell) : string :=
  match c with
  | Bare s => s
  | InQuotes s => Api.quoted s
  end.

Definition wellFormed (c : Cell) : Prop :=
  match c with
  | Bare s => bare s = true
  | InQuotes _ => True
  end.

(** The cells of the header line and of the line of an expense. *)
Definition headerCells : list Cell := map Bare Api.csvHeaders.

Definition rowCells (e : Types.Expense) : list Cell :=
  [Bare (Types.date e); InQuotes (Types.description e); Bare (Types.category e);
   Bare (JsNumber.toFixed 2 (Types.amount e))].

(** What may follow a cell (nothing, or a comma or a line feed and more)
    and what may follow a line (nothing, or a line feed and more). *)
Definition afterCell (s : string) : Prop :=
  match s with
  | EmptyString => True
  | String a _ => JsString.code a = 44 \/ JsString.code a = 10
  end.

Definition afterLine (tail : string) : Prop :=
  match tail with
  | EmptyString => True
  | String a _ => JsString.code a = 10
  end.

(** The characters of [s] put, in order, before the field under
    construction. *)
Fixpoint pushAll (s : string) (records : list (list string)) : list (list string) :=
  match s with
  | EmptyString => records
  | String a r => push a (pushAll r records)
  end.

(** The records of the text that follows a line. *)
Definition following (tail : string) : list (list string) :=
  match tail with
  | EmptyString => []
  | String _ more => read FieldStart more
  end.

End CsvReader.

(* ===================================================================== *)
(** * The number input of HTML *)
(* ===================================================================== *)

(** [<input type="number">] with its attributes [min], [step] and
    [required], after the HTML standard: the value of the input is a valid
    floating-point number or the empty string, and the constraints are
    tested on the decimal number the value denotes, in decimal arithmetic
    as browsers do (exactly here; a browser keeps the first 18 digits or
    so of a longer text). *)
Module NumberInput.
Import JsNumber.
Local Open Scope Z_scope.

(** A decimal number [mantissa * 10^exponent]. *)
Record Decimal : Type := {
  mantissa : Z;
  exponent : Z;
}.

(** The end of a valid floating-point number: nothing, or [e] or [E], an
    optional sign, and digits up to the end. *)
Definition exponentValid (s : string) : bool :=
  match s with
  | EmptyString => true
  | String a r =>
      ((JsString.code a =? 101) || (JsString.code a =? 69))%N
      && let r' :=
           match r with
           | String "+" t => t
           | String "-" t => t
           | _ => r
           end in
         let '(_, nx, rest) := digits r' 0%N 0%nat in
         (0 <? nx)%nat && negb (JsString.truthy rest)
  end.

(** A valid floating-point number: an optional minus sign; digits, or
    digits, a point and digits, or a point and digits; and an optional
    exponent. *)
Definition valid (s : string) : bool :=
  let t :=
    match s with
    | String "-" r => r
    | _ => s
    end in
  let '(_, ni, r1) := digits t 0%N 0%nat in
  match r1 with
  | String "." r => let '(_, nf, r2) := digits r 0%N 0%nat in (0 <? nf)%nat && exponentValid r2
  | _ => (0 <? ni)%nat && exponentValid r1
  end.

(** The number a valid floating-point number denotes. *)
Definition decimal (s : string) : Decimal :=
  let '(neg, t) :=
    match s with
    | String "-" r => (true, r)
    | _ => (false, s)
    end in
  let '(i, ni, r1) := digits t 0%N 0%nat in
  let '(f, nf, r2) :=
    match r1 with
    | String "." r => digits r i 0%nat
    | _ => (i, 0%nat, r1)
    end in
  {| mantissa := if neg then - Z.of_N f else Z.of_N f;
     exponent := exponentPart r2 - Z.of_nat nf |}.

Definition parse (s : string) : option Decimal :=
  if valid s then Some (decimal s) else None.

(** The integer [d / 10^e], for an [e] not above the exponent of [d]. *)
Definition scaled (d : Decimal) (e : Z) : Z := mantissa d * 10 ^ (exponent d - e).

Definition ltb (a b : Decimal) : bool :=
  let e := Z.min (exponent a) (exponent b) in
  scaled a e <? scaled b e.

Definition sub (a b : Decimal) : Decimal :=
  let e := Z.min (exponent a) (exponent b) in
  {| mantissa := scaled a e - scaled b e; exponent := e |}.

(** Whether [a] is an integral multiple of [b]. *)
Definition multipleOf (a b : Decimal) : bool :=
  let e := Z.min (exponent a) (exponent b) in
  scaled a e mod scaled b e =? 0.

Record Attributes : Type := {
  min : option Decimal;
  step : Decimal;
  required : bool;
}.

(** The value sanitization algorithm: a text that is not a valid
    floating-point number gives the empty value. *)
Definition value (text : string) : string :=
  if valid text then text else EmptyString.

(** The step base is [min] when there is one. *)
Definition stepBase (attrs : Attributes) : Decimal :=
  match min attrs with
  | Some m => m
  | None => {| mantissa := 0; exponent := 0 |}
  end.

(** Suffering from being missing, from an underflow, from a step mismatch. *)
Definition valueMissing (attrs : Attributes) (v : string) : bool :=
  required attrs && negb (JsString.truthy v).

Definition rangeUnderflow (attrs : Attributes) (v : string) : bool :=
  match parse v, min attrs with
  | Some d, Some m => ltb d m
  | _, _ => false
  end.

Definition stepMismatch (attrs : Attributes) (v : string) : bool :=
  match parse v with
  | Some d => negb (multipleOf (sub d (stepBase attrs)) (step attrs))
  | None => false
  end.

(** The input whose text is [text] satisfies its constraints. *)
Definition satisfied (attrs : Attributes) (text : string) : bool :=
  let v := value text in
  negb (valueMissing attrs v) && negb (rangeUnderflow attrs v) && negb (stepMismatch attrs v).

End NumberInput.

(* ===================================================================== *)
(** * components/ExpenseForm.tsx: the form element and its controls *)
(* ===================================================================== *)

Module ExpenseFormView.
Import JsNumber Types ExpenseForm.

(** [<input type="number" step="0.01" min="0.01" required />]. *)
Definition amountInput : NumberInput.Attributes :=
  {| NumberInput.min := Some {| NumberInput.mantissa := 1; NumberInput.exponent := -2 |};
     NumberInput.step := {| NumberInput.mantissa := 1; NumberInput.exponent := -2 |};
     NumberInput.required := true |}.

(** [maxLength={500}] of the description input: an edit by the user never
    leaves more than 500 UTF-16 code units in it. *)
Definition maxLength : nat := 500.

Definition typed (ev : Event) : bool :=
  match ev with
  | ChangeDescription v => (JsString.length16 v <=? maxLength)%nat
  | _ => true
  end.

(** The constraints of the controls of [<form onSubmit={handleSubmit}>],
    which has no [noValidate]: the amount input, and [required] on the date
    and on the description. *)
Definition checkValidity (st : State) : bool :=
  NumberInput.satisfied amountInput (amount st)
  && JsString.truthy (date st)
  && JsString.truthy (description st).

(** A click on [Save Expense], the submit button, which is disabled while
    [isSubmitting]: the browser validates the form and fires the submit
    event, which runs [handleSubmit], only when every control satisfies its
    constraints; otherwise it reports the first invalid control and the
    component sees nothing. *)
Definition clickSaveExpense (env : SubmitEnv) (st : State) : State * list Output :=
  if isSubmitting st then (st, [])
  else if checkValidity st then handleSubmit env st
  else (st, []).

End ExpenseFormView.

(* ===================================================================== *)
(** * components/ExpenseList.tsx: the controls and what is rendered *)
(* ===================================================================== *)

Module ExpenseListView.
Import JsNumber Types ExpenseList.

Definition setCategoryFilter (v : string) (st : State) : State :=
  {| expenses := expenses st; isLoading := isLoading st; error := error st;
     categoryFilter := v; sortOrder := sortOrder st;
     currentPage := currentPage st; totalPages := totalPages st;
     totalItems := totalItems st; editingExpense := editingExpense st;
     editForm := editForm st; isEditSubmitting := isEditSubmitting st;
     deletingId := deletingId st |}.
Definition setSortOrder (v : SortOrder) (st : State) : State :=
  {| expenses := expenses st; isLoading := isLoading st; error := error st;
     categoryFilter := categoryFilter st; sortOrder := v;
     currentPage := currentPage st; totalPages := totalPages st;
     totalItems := totalItems st; editingExpense := editingExpense st;
     editForm := editForm st; isEditSubmitting := isEditSubmitting st;
     deletingId := deletingId st |}.
Definition setCurrentPage (v : number) (st : State) : State :=
  {| expenses := expenses st; isLoading := isLoading st; error := error st;
     categoryFilter := categoryFilter st; sortOrder := sortOrder st;
     currentPage := v; totalPages := totalPages st;
     totalItems := totalItems st; editingExpense := editingExpense st;
     editForm := editForm st; isEditSubmitting := isEditSubmitting st;
     deletingId := deletingId st |}.

(** The effect [useEffect(() => { setCurrentPage(1) }, [categoryFilter, sortOrder])]. *)
Definition resetPage (st : State) : State := setCurrentPage JsMath.one st.

(** The filter and the sort selects: [onChange] and then the effect. *)
Definition changeCategoryFilter (v : string) (st : State) : State :=
  resetPage (setCategoryFilter v st).
Definition changeSortOrder (v : SortOrder) (st : State) : State :=
  resetPage (setSortOrder v st).

(** [setCurrentPage(p => Math.max(1, p - 1))] and
    [setCurrentPage(p => Math.min(totalPages, p + 1))]. *)
Definition previousPage (st : State) : State :=
  setCurrentPage (JsMath.max JsMath.one (JsMath.sub (currentPage st) JsMath.one)) st.
Definition nextPage (st : State) : State :=
  setCurrentPage (JsMath.min (totalPages st) (add (currentPage st) JsMath.one)) st.

(** The Cancel button of the edit modal. *)
Definition cancelEdit (st : State) : State := setEditing None st.

(** ** What is rendered *)

(** [error && ...]: the error panel, with its button [Try again]. *)
Definition errorShown (st : State) : bool :=
  match error st with
  | Some m => JsString.truthy m
  | None => false
  end.

(** [isLoading && ...]. *)
Definition loadingShown (st : State) : bool := isLoading st.


(** [!isLoading && !error && expenses.length > 0 && ...]: the table. *)
Definition tableShown (st : State) : bool :=
  negb (isLoading st) && negb (errorShown st) && (0 <? length (expenses st))%nat.

(** [!categoryFilter && expenses.length > 0
     && Object.keys(categoryTotals).length > 0 && ...]. *)
Definition breakdownShown (st : State) : bool :=
  negb (JsString.truthy (categoryFilter st)) && (0 <? length (expenses st))%nat
  && (0 <? size (categoryTotals st))%nat.

(** [totalPages > 1 && ...], inside the table. *)
Definition paginationShown (st : State) : bool :=
  tableShown st && JsMath.ltb JsMath.one (totalPages st).

(** [disabled={expenses.length === 0}] of the export button,
    [disabled={currentPage === 1}] and [disabled={currentPage === totalPages}]
    of the page buttons. *)
Definition exportDisabled (st : State) : bool := (length (expenses st) =? 0)%nat.
Definition previousDisabled (st : State) : bool :=
  JsMath.strictEquals (currentPage st) JsMath.one.
Definition nextDisabled (st : State) : bool :=
  JsMath.strictEquals (currentPage st) (totalPages st).

(** [editingExpense && ...]: the edit modal. *)
Definition editModalShown (st : State) : bool :=
  match editingExpense st with
  | Some _ => true
  | None => false
  end.

(** ** Clicks on the Delete buttons *)

(** [fetchExpenses] up to its [await], and from there on. *)
Definition fetchStarted (st : State) : State := setError None (setIsLoading true st).

Definition fetchSettled (result : Settled (PaginatedResponse Expense)) (st : State) : State :=
  match result with
  | Fulfilled response => setIsLoading false (setPage response st)
  | Rejected err =>
      setIsLoading false (setError (Some (messageOr "Failed to fetch expenses" err)) st)
  end.

(** The component with what is pending: of each DELETE request in flight
    the id and the state of the render whose handler made it (after a
    success the handler calls the [fetchExpenses] of that render); the
    number of list requests in flight; the number of timers set by first
    clicks.  The Delete buttons stay enabled meanwhile. *)
Record Mounted : Type := {
  view : State;
  deleting : list (string * State);
  fetching : nat;
  timers : nat;
}.

Definition mount (st : State) : Mounted :=
  {| view := st; deleting := []; fetching := 0; timers := 0 |}.

(** A click on the Delete button of the row [id]; the expiry of a timer;
    the settlement of the [n]-th DELETE request in flight, or of a list
    request in flight. *)
Inductive DeleteEvent : Type :=
| Click (id : string)
| TimerExpired
| DeleteSettled (n : nat) (deleted : Settled unit)
| ListSettled (result : Settled (PaginatedResponse Expense)).

(** [handleDeleteClick] up to its [await] for a click, and from there on
    for a settlement; an event that cannot happen (no such request or timer
    is pending) changes nothing. *)
Definition deleteStep (m : Mounted) (ev : DeleteEvent) : Mounted * list Api.Call :=
  match ev with
  | Click id =>
      if isDeleting (view m) id then
        ({| view := view m; deleting := deleting m ++ [(id, view m)];
            fetching := fetching m; timers := timers m |},
         [Api.DeleteExpense id])
      else
        ({| view := setDeletingId (Some id) (view m); deleting := deleting m;
            fetching := fetching m; timers := S (timers m) |}, [])
  | TimerExpired =>
      match timers m with
      | O => (m, [])
      | S n =>
          ({| view := deleteTimeout (view m); deleting := deleting m;
              fetching := fetching m; timers := n |}, [])
      end
  | DeleteSettled n deleted =>
      match deleting m !! n with
      | None => (m, [])
      | Some (id, closure) =>
          match deleted with
          | Fulfilled _ =>
              ({| view := fetchStarted (setDeletingId None (view m));
                  deleting := delete n (deleting m);
                  fetching := S (fetching m); timers := timers m |},
               [Api.GetExpenses (Some (fetchParams closure))])
          | Rejected err =>
              ({| view := setDeletingId None
                            (setError (Some (messageOr "Failed to delete expense" err)) (view m));
                  deleting := delete n (deleting m);
                  fetching := fetching m; timers := timers m |}, [])
          end
      end
  | ListSettled result =>
      match fetching m with
      | O => (m, [])
      | S n =>
          ({| view := fetchSettled result (view m); deleting := deleting m;
              fetching := n; timers := timers m |}, [])
      end
  end.

(** After each event of a sequence, in order: the component and the calls
    the event made. *)
Fixpoint deleteRun (m : Mounted) (events : list DeleteEvent) : list (Mounted * list Api.Call) :=
  match events with
  | [] => []
  | ev :: rest => deleteStep m ev :: deleteRun (fst (deleteStep m ev)) rest
  end.

End ExpenseListView.

(* ===================================================================== *)
(** * pages/index.tsx *)
(* ===================================================================== *)

Module Home.
Import JsNumber.

Inductive Tab : Type := expenses | charts.

(** The state hooks of the page. *)
Record State : Type := {
  refreshTrigger : number;
  showForm : bool;
  activeTab : Tab;
}.

Definition initialState : State :=
  {| refreshTrigger := zero; showForm := false; activeTab := expenses |}.

Definition handleExpenseCreated (st : State) : State :=
  {| refreshTrigger := add (refreshTrigger st) JsMath.one; showForm := false;
     activeTab := activeTab st |}.

(** [setShowForm(!showForm)] and [setActiveTab(tab)]. *)
Definition toggleForm (st : State) : State :=
  {| refreshTrigger := refreshTrigger st; showForm := negb (showForm st);
     activeTab := activeTab st |}.
Definition setActiveTab (tab : Tab) (st : State) : State :=
  {| refreshTrigger := refreshTrigger st; showForm := showForm st; activeTab := tab |}.

(** What is rendered: [activeTab === 'expenses' && ...] for the button and
    the list, [showForm && ...] inside it for the form,
    [activeTab === 'charts' && ...] for the charts. *)
Definition addButtonRendered (st : State) : bool :=
  match activeTab st with
  | expenses => true
  | charts => false
  end.
Definition listRendered (st : State) : bool := addButtonRendered st.
Definition formRendered (st : State) : bool := addButtonRendered st && showForm st.
Definition chartsRendered (st : State) : bool :=
  match activeTab st with
  | expenses => false
  | charts => true
  end.

(** The page with the [ExpenseForm] it renders.  The state of the form
    lives as long as the form stays rendered: a form that is rendered
    again is mounted anew. *)
Record Page : Type := {
  home : State;
  form : option ExpenseForm.State;
}.

Definition initialPage : Page := {| home := initialState; form := None |}.

(** The page once its state is [h]; [today] is the date a form mounted now
    starts with. *)
Definition render (today : string) (h : State) (p : Page) : Page :=
  {| home := h;
     form := if formRendered h
             then Some (match form p with
                        | Some f => f
                        | None => ExpenseForm.initialState today
                        end)
             else None |}.

Inductive Event : Type :=
| ClickAddExpense (today : string)
| ClickTab (tab : Tab) (today : string)
| OnForm (ev : ExpenseForm.Event).

(** The callbacks the form made, applied to the state of the page. *)
Definition notify (outputs : list ExpenseForm.Output) (h : State) : State :=
  fold_left (fun h o =>
               match o with
               | ExpenseForm.OnExpenseCreated => handleExpenseCreated h
               | ExpenseForm.Called _ => h
               end) outputs h.

Definition step (p : Page) (ev : Event) : Page * list ExpenseForm.Attempt :=
  match ev with
  | ClickAddExpense today =>
      if addButtonRendered (home p) then (render today (toggleForm (home p)) p, [])
      else (p, [])
  | ClickTab tab today => (render today (setActiveTab tab (home p)) p, [])
  | OnForm ev =>
      match form p with
      | None => (p, [])
      | Some f =>
          let '(f', outputs) := ExpenseForm.step f ev in
          let h := notify outputs (home p) in
          ({| home := h; form := if formRendered h then Some f' else None |},
           ExpenseForm.attemptsOf ev outputs)
      end
  end.

(** The page after a sequence of events and the create requests sent. *)
Fixpoint run (p : Page) (events : list Event) : Page * list ExpenseForm.Attempt :=
  match events with
  | [] => (p, [])
  | ev :: rest =>
      let '(p', sent) := step p ev in
      let '(final, later) := run p' rest in
      (final, sent ++ later)
  end.

End Home.

(* ===================================================================== *)
(** * components/SpendingCharts.tsx *)
(* ===================================================================== *)

Module SpendingCharts.
Import JsNumber.

Record MonthlyData : Type := {
  month : string;
  monthly_total : number;
  monthly_count : number;
}.

Record CategoryData : Type := {
  category : string;
  category_total : number;
  category_count : number;
}.

Record Stats : Type := {
  monthly : list MonthlyData;
  categories : list CategoryData;
}.

(** The state hooks of the component. *)
Record State : Type := {
  stats : option Stats;
  isLoading : bool;
  error : option string;
}.

Definition initialState : State := {| stats := None; isLoading := true; error := None |}.

(** [fetchStats], given what [api.getStats()] settles to. *)
Definition fetchStats (result : Settled Stats) (st : State) : State * list Api.Call :=
  match result with
  | Fulfilled data => ({| stats := Some data; isLoading := false; error := None |}, [Api.GetStats])
  | Rejected err =>
      ({| stats := stats st; isLoading := false;
          error := Some (messageOr "Failed to fetch stats" err) |}, [Api.GetStats])
  end.

(** Which of its four renderings the component returns: the tests are
    [isLoading], [error] and
    [!stats || (stats.monthly.length === 0 && stats.categories.length === 0)],
    in this order. *)
Inductive View : Type :=
| LoadingCharts
| ErrorLoadingCharts (message : string)
| NoDataForCharts
| Charts (data : Stats).

Definition noData (s : Stats) : bool :=
  (length (monthly s) =? 0)%nat && (length (categories s) =? 0)%nat.

Definition chartsOf (data : option Stats) : View :=
  match data with
  | None => NoDataForCharts
  | Some s => if noData s then NoDataForCharts else Charts s
  end.

Definition view (st : State) : View :=
  if isLoading st then LoadingCharts
  else
    match error st with
    | Some m => if JsString.truthy m then ErrorLoadingCharts m else chartsOf (stats st)
    | None => chartsOf (stats st)
    end.

(** [stats.monthly.length > 0 && ...] and [stats.categories.length > 0 && ...]:
    the two blocks of the charts. *)
Definition trendShown (s : Stats) : bool := (0 <? length (monthly s))%nat.
Definition categoriesShown (s : Stats) : bool := (0 <? length (categories s))%nat.

(** [Math.max(...stats.monthly.map(m => m.total), 1)] and
    [Math.max(...stats.categories.map(c => c.total), 1)]. *)
Definition maxMonthly (s : Stats) : number :=
  JsMath.maxOf (map monthly_total (monthly s) ++ [JsMath.one]).
Definition maxCategory (s : Stats) : number :=
  JsMath.maxOf (map category_total (categories s) ++ [JsMath.one]).

(** [stats.categories.reduce((sum, c) => sum + c.total, 0)]. *)
Definition totalSpending (s : Stats) : number :=
  fold_left (fun sum c => add sum (category_total c)) (categories s) zero.

(** [stats.monthly.slice(-6)]. *)
Definition monthsShown (s : Stats) : list MonthlyData :=
  drop (length (monthly s) - 6) (monthly s).

(** The widths of the bars, in per cent:
    [Math.max((month.total / maxMonthly) * 100, 10)] and
    [Math.max((cat.total / maxCategory) * 100, 5)]. *)
Definition monthWidth (s : Stats) (m : MonthlyData) : number :=
  JsMath.max (JsMath.mul (JsMath.div (monthly_total m) (maxMonthly s)) JsMath.hundred) JsMath.ten.
Definition categoryWidth (s : Stats) (c : CategoryData) : number :=
  JsMath.max (JsMath.mul (JsMath.div (category_total c) (maxCategory s)) JsMath.hundred) JsMath.five.

End SpendingCharts.

(* ===================================================================== *)
(** * Properties of requests, of pages and of numbers *)
(* ===================================================================== *)

Module Properties.
Import JsNumber Types.
Local Open Scope Z_scope.

(** What the checks of the create form are for: the amount is a number
    greater than zero, the description and the date are not empty, the
    category is one of the enumeration, and there is an idempotency key,
    not empty. *)
Definition wellFormedRequest (i : CreateExpenseInput) : Prop :=
  isNaN (input_amount i) = false
  /\ leb (input_amount i) zero = false
  /\ JsString.truthy (input_description i) = true
  /\ JsString.truthy (input_date i) = true
  /\ In (input_category i) CATEGORIES
  /\ exists k, idempotency_key i = Some k /\ JsString.truthy k = true.

(** The page holds no form, or a form that stores no idempotency key. *)
Definition withoutKey (p : Home.Page) : Prop :=
  match Home.form p with
  | Some f => ExpenseForm.currentIdempotencyKey f = None
  | None => True
  end.

(** A description that is not empty, has at most 500 UTF-16 code units and
    is the trimmed text of an input that holds at most 500. *)
Definition boundedDescription (d : string) : Prop :=
  JsString.truthy d = true
  /\ (JsString.length16 d <= 500)%nat
  /\ exists text, d = JsString.trim text /\ (JsString.length16 text <= 500)%nat.

(** The expense [id] awaits confirmation after the [i]-th event of a
    sequence of events on the Delete buttons. *)
Definition awaitsAfter (trace : list (ExpenseListView.Mounted * list Api.Call))
    (id : string) (i : nat) : Prop :=
  exists m calls,
    trace !! i = Some (m, calls)
    /\ ExpenseList.deletingId (ExpenseListView.view m) = Some id.

(** The place of a number in the order, as a triple compared from the
    left: the class (negative infinity, negative, zero, positive, positive
    infinity), then the exponent, then the mantissa. *)
Definition rank (x : number) : Z * Z * Z :=
  match x with
  | S754_nan => (0, 0, 0)
  | S754_zero _ => (0, 0, 0)
  | S754_infinity s => (if s then -2 else 2, 0, 0)
  | S754_finite s m e => if s then (-1, - e, - Zpos m) else (1, e, Zpos m)
  end.

Definition rankLe (a b : Z * Z * Z) : Prop :=
  fst (fst a) < fst (fst b)
  \/ (fst (fst a) = fst (fst b)
      /\ (snd (fst a) < snd (fst b)
          \/ (snd (fst a) = snd (fst b) /\ snd a <= snd b))).

End Properties.

(* ===================================================================== *)
(** * More sample data *)
(* ===================================================================== *)

Module MoreSamples.
Import JsNumber Types.

(** An expense whose description holds a comma, double quotes and a line
    feed. *)
Definition dinner : Expense :=
  {| id := "65a5"; amount := of_decimal false 455 (-1); category := "Food";
     description :=
       "Dinner, "
       +:+ String JsString.dquote
             ("large" +:+ String JsString.dquote (String (ascii_of_N 10) "with friends"));
     date := "2024-02-03"; created_at := "2024-02-03T20:15:00.000Z" |}.

(** The answer to a request for an expense that does not exist. *)
Definition notFound : Api.Response :=
  {| Api.status := 404;
     Api.json := Fulfilled (ApiError_json {| error := Some "Expense not found";
                                             details := None |}) |}.

(** The list view showing [page1], and the view on page 2 of 3. *)
Definition shown : ExpenseList.State :=
  fst (ExpenseList.fetchExpenses (Fulfilled Sample.page1) ExpenseList.initialState).

Definition secondOfThree : ExpenseList.State :=
  fst (ExpenseList.fetchExpenses
         (Fulfilled {| data := [Sample.lunch; Sample.taxi; Sample.snack];
                       total := of_decimal false 25 0; page := of_decimal false 2 0;
                       limit := of_decimal false 10 0; totalPages := of_decimal false 3 0 |})
         (ExpenseListView.setCurrentPage (of_decimal false 2 0) ExpenseList.initialState)).

(** Two clicks on the Delete button of [lunch] and a third one while the
    DELETE request is in flight; then the answers arrive: the first request
    succeeded, the list is fetched, and the second request finds no expense. *)
Definition impatientClicks : list ExpenseListView.DeleteEvent :=
  [ExpenseListView.Click "65a1"; ExpenseListView.Click "65a1"; ExpenseListView.Click "65a1";
   ExpenseListView.DeleteSettled 0 (Fulfilled tt);
   ExpenseListView.ListSettled (Fulfilled Sample.page1);
   ExpenseListView.DeleteSettled 0 (Rejected (Error "Expense not found"))].

(** The page with the form opened and filled in. *)
Definition formFilled : Home.Page :=
  fst (Home.run Home.initialPage
         [Home.ClickAddExpense "2024-01-15";
          Home.OnForm (ExpenseForm.ChangeAmount "100.50");
          Home.OnForm (ExpenseForm.ChangeDescription "Lunch")]).

(** A create request fails; the user hides the form, opens it again,
    fills it in as before and submits again. *)
Definition hiddenAfterFailure : Home.Page :=
  fst (Home.run formFilled
         [Home.OnForm (ExpenseForm.Submit (Sample.refused 1700000000001 "0.abc"));
          Home.ClickAddExpense "2024-01-15"]).

Definition secondTry : list Home.Event :=
  [Home.ClickAddExpense "2024-01-15";
   Home.OnForm (ExpenseForm.ChangeAmount "100.50");
   Home.OnForm (ExpenseForm.ChangeDescription "Lunch");
   Home.OnForm (ExpenseForm.Submit (Sample.created 1700000000002 "0.def"))].

(** The whole of it from the first render of the page: the form is opened
    and filled in, the create request fails, the user hides the form with
    the button (now labelled Cancel), opens it again, fills it in as before
    and submits again. *)
Definition cancelledRetry : list Home.Event :=
  [Home.ClickAddExpense "2024-01-15";
   Home.OnForm (ExpenseForm.ChangeAmount "100.50");
   Home.OnForm (ExpenseForm.ChangeDescription "Lunch");
   Home.OnForm (ExpenseForm.Submit (Sample.refused 1700000000001 "0.abc"));
   Home.ClickAddExpense "2024-01-15";
   Home.ClickAddExpense "2024-01-15";
   Home.OnForm (ExpenseForm.ChangeAmount "100.50");
   Home.OnForm (ExpenseForm.ChangeDescription "Lunch");
   Home.OnForm (ExpenseForm.Submit (Sample.created 1700000000002 "0.def"))].

(** Statistics of seven months and two categories. *)
Definition monthOf (name : string) (units : N) : SpendingCharts.MonthlyData :=
  {| SpendingCharts.month := name;
     SpendingCharts.monthly_total := of_decimal false units 0;
     SpendingCharts.monthly_count := of_decimal false 2 0 |}.

Definition sevenMonths : SpendingCharts.Stats :=
  {| SpendingCharts.monthly :=
       [monthOf "2023-08" 120; monthOf "2023-09" 80; monthOf "2023-10" 0;
        monthOf "2023-11" 300; monthOf "2023-12" 950; monthOf "2024-01" 150;
        monthOf "2024-02" 20];
     SpendingCharts.categories :=
       [{| SpendingCharts.category := "Food";
           SpendingCharts.category_total := of_decimal false 1205 (-1);
           SpendingCharts.category_count := of_decimal false 2 0 |};
        {| SpendingCharts.category := "Transport";
           SpendingCharts.category_total := of_decimal false 50 0;
           SpendingCharts.category_count := of_decimal false 1 0 |}] |}.

End MoreSamples.

(* ===================================================================== *)
(** * Facts about numbers *)
(* ===================================================================== *)

#[local] Arguments String.append !s1 s2 : simpl nomatch.

Module NumberFacts.
Import JsNumber.
Local Open Scope Z_scope.

Lemma shr_1_shiftr mrs :
  0 <= shr_m mrs -> shr_m (shr_1 mrs) = Z.shiftr (shr_m mrs) 1.
Proof.
  destruct mrs as [m r s]; simpl.
  destruct m as [|[p|p|]|p]; intros H; try reflexivity; lia.
Qed.

Lemma iter_shr_1_shiftr p : forall mrs,
  0 <= shr_m mrs -> shr_m (SpecFloat.iter_pos shr_1 p mrs) = Z.shiftr (shr_m mrs) (Zpos p).
Proof.
  induction p as [p IH|p IH|]; intros mrs Hm; simpl.
  - assert (H1 : 0 <= shr_m (shr_1 mrs)).
    { rewrite shr_1_shiftr by assumption. apply Z.shiftr_nonneg; assumption. }
    assert (H2 : 0 <= shr_m (SpecFloat.iter_pos shr_1 p (shr_1 mrs))).
    { rewrite IH by assumption. apply Z.shiftr_nonneg; assumption. }
    rewrite IH, IH, shr_1_shiftr by assumption.
    rewrite !Z.shiftr_shiftr by lia. f_equal. lia.
  - assert (H2 : 0 <= shr_m (SpecFloat.iter_pos shr_1 p mrs)).
    { rewrite IH by assumption. apply Z.shiftr_nonneg; assumption. }
    rewrite IH, IH by assumption.
    rewrite !Z.shiftr_shiftr by lia. f_equal. lia.
  - apply shr_1_shiftr; assumption.
Qed.

Lemma digits2_pos_size m : digits2_pos m = Pos.size m.
Proof. induction m; simpl; congruence. Qed.

Lemma pow2_digits_le m : 2 ^ (Zpos (digits2_pos m) - 1) <= Zpos m.
Proof.
  rewrite digits2_pos_size.
  pose proof (Pos.size_le m) as H.
  assert (H' : 2 ^ Zpos (Pos.size m) <= 2 * Zpos m).
  { change 2 with (Zpos 2) at 1. rewrite <- Pos2Z.inj_pow. 
    change (2 * Zpos m) with (Zpos m~0). apply Pos2Z.pos_le_pos. exact H. }
  replace (Zpos (Pos.size m)) with (Z.succ (Zpos (Pos.size m) - 1)) in H' by lia.
  rewrite Z.pow_succ_r in H' by lia. lia.
Qed.

Lemma shr_m_of_loc m l : shr_m (shr_record_of_loc m l) = m.
Proof. destruct l as [|[]]; reflexivity. Qed.

Lemma shr_fexp_positive m e l :
  0 < m -> emin prec emax <= e ->
  0 < shr_m (fst (shr_fexp prec emax m e l)) /\ emin prec emax <= snd (shr_fexp prec emax m e l).
Proof.
  intros Hm He. unfold shr_fexp, shr.
  destruct (fexp prec emax (Zdigits2 m + e) - e) as [|p|p] eqn:Hn; simpl;
    rewrite ?shr_m_of_loc; try (split; lia).
  rewrite iter_shr_1_shiftr by (rewrite shr_m_of_loc; lia).
  rewrite shr_m_of_loc.
  destruct m as [|m|m]; try lia. simpl in Hn.
  unfold fexp in Hn.
  assert (Hp : Zpos p <= Zpos (digits2_pos m) - 1) by (unfold prec in *; lia).
  split; [|lia].
  rewrite Z.shiftr_div_pow2 by lia.
  apply Z.div_str_pos. split; [apply Z.pow_pos_nonneg; lia|].
  etransitivity; [|apply pow2_digits_le].
  apply Z.pow_le_mono_r; lia.
Qed.

Lemma round_nearest_even_ge m l : 0 < m -> 0 < round_nearest_even m l.
Proof.
  intros H. destruct l as [|[]]; simpl; try lia. destruct (Z.even m); lia.
Qed.

Lemma binary_round_aux_shape s m e l :
  0 < m -> emin prec emax <= e -> roundedShape (binary_round_aux prec emax s m e l).
Proof.
  intros Hm He. unfold binary_round_aux.
  destruct (shr_fexp_positive m e l Hm He) as [H1 H1'].
  destruct (shr_fexp prec emax m e l) as [mrs' e'] eqn:E1. simpl in H1, H1'.
  pose proof (round_nearest_even_ge (shr_m mrs') (loc_of_shr_record mrs') H1) as H2.
  destruct (shr_fexp_positive _ e' loc_Exact H2 H1') as [H3 H3'].
  destruct (shr_fexp prec emax (round_nearest_even (shr_m mrs') (loc_of_shr_record mrs')) e' loc_Exact)
    as [mrs'' e''] eqn:E2. simpl in H3, H3'.
  destruct (shr_m mrs'') as [|q|q]; try lia.
  destruct (e'' <=? emax - prec); simpl; auto.
Qed.

Lemma binary_round_shape s m e :
  emin prec emax <= e -> roundedShape (binary_round prec emax s m e).
Proof.
  intros He. unfold binary_round.
  destruct (shl_align m e (fexp prec emax (Zpos (digits2_pos m) + e))) as [mz ez] eqn:E.
  apply binary_round_aux_shape; [lia|].
  unfold shl_align in E.
  destruct (fexp prec emax (Zpos (digits2_pos m) + e) - e) eqn:Hd; inversion E; subst; try lia.
  unfold fexp. lia.
Qed.

Lemma rounded_sumShape x : roundedShape x -> sumShape x.
Proof. destruct x; simpl; tauto. Qed.

(** Adding a finite term to a running sum gives neither [NaN] nor the
    negative zero. *)
Lemma add_sumShape x a : sumShape x -> termShape a -> sumShape (add x a).
Proof.
  destruct x as [sx|sx| |sx mx ex], a as [sa|sa| |sa ma ea]; simpl; try tauto.
  - intros -> _. destruct sa; reflexivity.
  - intros Hx Ha. unfold add, SFadd, binary_normalize.
    destruct (cond_Zopp sx (Zpos (fst (shl_align mx ex (Z.min ex ea))))
              + cond_Zopp sa (Zpos (fst (shl_align ma ea (Z.min ex ea))))) as [|p|p].
    + reflexivity.
    + apply rounded_sumShape, binary_round_shape. lia.
    + apply rounded_sumShape, binary_round_shape. lia.
Qed.

(** A running sum is kept by [|| 0]: when it is falsy it is [0]. *)
Lemma sumShape_orZero x : sumShape x -> orZero (Some x) = x.
Proof. destruct x as [s|s| |s m e]; simpl; try tauto. intros ->. reflexivity. Qed.

Lemma isFinite_termShape x : isFinite x = true -> termShape x.
Proof.
  destruct x as [s|s| |s m e]; simpl; try discriminate; auto.
  unfold bounded, canonical_mantissa, fexp. intros H.
  apply andb_prop in H as [H _]. apply Z.eqb_eq in H. lia.
Qed.

(** *** Digits and fixed-point notation *)

Lemma length_append_string (a b : string) :
  String.length (a +:+ b) = (String.length a + String.length b)%nat.
Proof. induction a; simpl; congruence. Qed.

Lemma allDigits_append (a b : string) :
  JsString.allDigits (a +:+ b) = JsString.allDigits a && JsString.allDigits b.
Proof.
  induction a as [|c a IH]; simpl; [reflexivity|].
  rewrite IH. apply andb_assoc.
Qed.

Lemma allDigits_repeat0 n : JsString.allDigits (JsString.repeat0 n) = true.
Proof. induction n; simpl; auto. Qed.

Lemma length_repeat0 n : String.length (JsString.repeat0 n) = n.
Proof. induction n; simpl; congruence. Qed.

Lemma allDigits_of_uint d : JsString.allDigits (NilEmpty.string_of_uint d) = true.
Proof. induction d; simpl; auto. Qed.

Lemma allDigits_digits10 n : JsString.allDigits (digits10 n) = true.
Proof.
  unfold digits10, NilZero.string_of_uint.
  destruct (N.to_uint (Z.to_N n)); try reflexivity; apply (allDigits_of_uint (_ _)).
Qed.

Lemma allDigits_substring s : forall n m,
  JsString.allDigits s = true -> JsString.allDigits (String.substring n m s) = true.
Proof.
  induction s as [|c s IH]; intros n m H.
  - destruct n, m; reflexivity.
  - simpl in H. apply andb_prop in H as [Hc Hs].
    destruct n, m; simpl; auto.
    rewrite Hc. simpl. apply IH; assumption.
Qed.

Lemma length_substring s : forall n m,
  (n + m <= String.length s)%nat -> String.length (String.substring n m s) = m.
Proof.
  induction s as [|c s IH]; intros n m H.
  - destruct n, m; simpl in *; lia.
  - destruct n, m; simpl in *; try reflexivity;
      try (f_equal; apply IH; lia); apply IH; lia.
Qed.

Lemma digits_run ip : forall acc count c r,
  JsString.allDigits ip = true -> JsString.isDigit c = false ->
  exists v, digits (ip +:+ String c r) acc count = (v, (count + String.length ip)%nat, String c r).
Proof.
  induction ip as [|d ip IH]; intros acc count c r Hip Hc; simpl.
  - rewrite Hc. exists acc. rewrite Nat.add_0_r. reflexivity.
  - simpl in Hip. apply andb_prop in Hip as [Hd Hip]. rewrite Hd.
    destruct (IH (10 * acc + digitValue d)%N (S count) c r Hip Hc) as [v Hv].
    exists v. rewrite Hv. rewrite Nat.add_succ_r. reflexivity.
Qed.

Lemma stripMinus_digit ip :
  JsString.allDigits ip = true -> stripMinus ip = ip.
Proof.
  destruct ip as [|c ip]; simpl; [reflexivity|].
  intros H. apply andb_prop in H as [H _].
  unfold JsString.isDigit in H. apply andb_prop in H as [H1 H2].
  apply N.leb_le in H1. destruct (N.eqb_spec (JsString.code c) 45); [lia|reflexivity].
Qed.

Lemma stripMinus_digits_first ip rest :
  JsString.allDigits ip = true -> ip <> EmptyString ->
  stripMinus (ip +:+ rest) = ip +:+ rest.
Proof.
  destruct ip as [|c ip]; [contradiction|]. simpl. intros H _.
  apply andb_prop in H as [H _].
  unfold JsString.isDigit in H. apply andb_prop in H as [H1 H2].
  apply N.leb_le in H1. destruct (N.eqb_spec (JsString.code c) 45); [lia|reflexivity].
Qed.

(** A text made of a sign, digits, a point and two digits passes the check. *)
Lemma hasTwoFractionDigits_intro (minus : bool) ip fp :
  JsString.allDigits ip = true -> ip <> EmptyString ->
  JsString.allDigits fp = true -> String.length fp = 2%nat ->
  hasTwoFractionDigits ((if minus then "-" else "") +:+ ip +:+ "." +:+ fp) = true.
Proof.
  intros Hip Hne Hfp Hlen. unfold hasTwoFractionDigits.
  assert (Hs : stripMinus ((if minus then "-" else "") +:+ ip +:+ "." +:+ fp)
               = ip +:+ String "." fp).
  { destruct minus; [reflexivity|]. apply (stripMinus_digits_first ip); assumption. }
  rewrite Hs.
  destruct (digits_run ip 0%N 0%nat "."%char fp Hip eq_refl) as [v Hv].
  rewrite Hv.
  destruct ip as [|c ip]; [contradiction|].
  destruct fp as [|a [|b [|? ?]]]; try discriminate.
  simpl in Hfp. rewrite andb_true_r in Hfp. simpl. exact Hfp.
Qed.

Lemma fixedDigits_shape f n :
  exists ip fp,
    fixedDigits (S f) n = ip +:+ "." +:+ fp
    /\ JsString.allDigits ip = true /\ ip <> EmptyString
    /\ JsString.allDigits fp = true /\ String.length fp = S f.
Proof.
  unfold fixedDigits.
  set (d := JsString.repeat0 (S (S f) - String.length (digits10 n)) +:+ digits10 n).
  assert (Hd : JsString.allDigits d = true).
  { unfold d. rewrite allDigits_append, allDigits_repeat0, allDigits_digits10. reflexivity. }
  assert (Hk : (S (S f) <= String.length d)%nat).
  { unfold d. rewrite length_append_string, length_repeat0. lia. }
  exists (String.substring 0 (String.length d - S f) d),
         (String.substring (String.length d - S f) (S f) d).
  split; [reflexivity|].
  split; [apply allDigits_substring; assumption|].
  split.
  { intros Heq. apply (f_equal String.length) in Heq.
    rewrite length_substring in Heq by lia. simpl in Heq. lia. }
  split; [apply allDigits_substring; assumption|].
  apply length_substring. lia.
Qed.

(** [toFixed(2)] writes exactly two fraction digits for every finite number
    of magnitude below [10^21]. *)
Lemma toFixed_two_digits x :
  belowFixedLimit x = true -> hasTwoFractionDigits (toFixed 2 x) = true.
Proof.
  destruct x as [s|s| |s m e]; unfold belowFixedLimit, toFixed; try discriminate.
  - intros _. reflexivity.
  - destruct (fraction m e) as [a b]. intros H.
    rewrite Z.leb_antisym, H. cbv beta iota delta [negb].
    destruct (fixedDigits_shape 1 (nearestScaled 2 a b)) as (ip & fp & -> & Hip & Hne & Hfp & Hlen).
    apply hasTwoFractionDigits_intro; assumption.
Qed.

End NumberFacts.

(* ===================================================================== *)
(** * The API client *)
(* ===================================================================== *)

Module StringFacts.

Lemma truthy_append_char (a : string) (c : ascii) (b : string) :
  JsString.truthy (a +:+ String c b) = true.
Proof. destruct a; reflexivity. Qed.

Lemma truthy_nonempty (s : string) : JsString.truthy s = true <-> s <> EmptyString.
Proof. destruct s; simpl; split; intros H; congruence. Qed.

Lemma join_cons_cons sep (x y : string) l :
  JsString.join sep (x :: y :: l) = x +:+ sep +:+ JsString.join sep (y :: l).
Proof. reflexivity. Qed.

Lemma append_assoc (a b c : string) : (a +:+ b) +:+ c = a +:+ b +:+ c.
Proof. induction a; simpl; congruence. Qed.

Lemma pieces_nonempty s : URLSearchParams.pieces s <> [].
Proof.
  destruct s as [|a r]; simpl; [discriminate|].
  destruct (JsString.code a =? 38)%N; [discriminate|].
  destruct (URLSearchParams.pieces r); discriminate.
Qed.

(** Splitting at [&] undoes joining with [&] when no piece holds one. *)
Lemma pieces_no_amp s :
  URLSearchParams.occurs 38 s = false -> URLSearchParams.pieces s = [s].
Proof.
  induction s as [|a r IH]; simpl; [reflexivity|].
  intros H. apply orb_false_elim in H as [Ha Hr].
  rewrite Ha, (IH Hr). reflexivity.
Qed.

Lemma pieces_append_amp s rest :
  URLSearchParams.occurs 38 s = false ->
  URLSearchParams.pieces (s +:+ String "&" rest) = s :: URLSearchParams.pieces rest.
Proof.
  induction s as [|a r IH]; simpl; [reflexivity|].
  intros H. apply orb_false_elim in H as [Ha Hr].
  rewrite Ha, (IH Hr). reflexivity.
Qed.

Lemma pieces_join l :
  l <> [] -> Forall (fun p => URLSearchParams.occurs 38 p = false) l ->
  URLSearchParams.pieces (JsString.join "&" l) = l.
Proof.
  induction l as [|x [|y l] IH]; intros Hne Hall; [contradiction| |].
  - simpl. apply pieces_no_amp. inversion Hall; assumption.
  - rewrite join_cons_cons. inversion Hall as [|? ? Hx Hrest]; subst.
    change ("&" +:+ ?z) with (String "&" z).
    rewrite pieces_append_amp by assumption.
    rewrite IH; [reflexivity|discriminate|assumption].
Qed.

Lemma occurs_append c a b :
  URLSearchParams.occurs c (a +:+ b) = URLSearchParams.occurs c a || URLSearchParams.occurs c b.
Proof.
  induction a as [|x a IH]; simpl; [reflexivity|].
  rewrite IH. apply orb_assoc.
Qed.

Lemma encodeByte_plain a :
  URLSearchParams.occurs 38 (URLSearchParams.encodeByte a) = false
  /\ URLSearchParams.occurs 61 (URLSearchParams.encodeByte a) = false.
Proof. destruct a as [[] [] [] [] [] [] [] []]; vm_compute; split; reflexivity. Qed.

(** An encoded text holds neither [&] nor [=]. *)
Lemma encode_plain s :
  URLSearchParams.occurs 38 (URLSearchParams.encode s) = false
  /\ URLSearchParams.occurs 61 (URLSearchParams.encode s) = false.
Proof.
  induction s as [|a r [IH1 IH2]]; simpl; [split; reflexivity|].
  rewrite !occurs_append, IH1, IH2.
  destruct (encodeByte_plain a) as [-> ->]. split; reflexivity.
Qed.

Lemma beforeEquals_append k rest :
  URLSearchParams.occurs 61 k = false ->
  URLSearchParams.beforeEquals (k +:+ String "=" rest) = k.
Proof.
  induction k as [|a r IH]; simpl; [reflexivity|].
  intros H. apply orb_false_elim in H as [Ha Hr].
  rewrite Ha, (IH Hr). reflexivity.
Qed.

(** Reading the names back from the serialized parameters gives the
    encoded names, in order. *)
Lemma queryNames_toString (l : URLSearchParams.t) :
  URLSearchParams.queryNames (URLSearchParams.toString l)
  = map (fun kv => URLSearchParams.encode (fst kv)) l.
Proof.
  unfold URLSearchParams.queryNames, URLSearchParams.toString.
  destruct l as [|kv l]; [reflexivity|].
  rewrite pieces_join.
  - set (l' := kv :: l). clearbody l'. clear.
    induction l' as [|[k v] l' IH]; [reflexivity|].
    cbn [map]. rewrite filter_cons.
    destruct (decide (JsString.truthy (URLSearchParams.pair (k, v)) = true)) as [_|Hn].
    + cbn [map]. rewrite IH. f_equal.
      apply (beforeEquals_append (URLSearchParams.encode k)). apply encode_plain.
    + exfalso. apply Hn. apply truthy_append_char.
  - discriminate.
  - apply List.Forall_forall. intros p Hp. apply List.in_map_iff in Hp as [[k v] [<- _]].
    unfold URLSearchParams.pair. cbn [fst snd].
    rewrite !occurs_append.
    rewrite (proj1 (encode_plain k)), (proj1 (encode_plain v)). reflexivity.
Qed.

Lemma truthy_toString (l : URLSearchParams.t) :
  JsString.truthy (URLSearchParams.toString l) = match l with [] => false | _ => true end.
Proof.
  destruct l as [|[k v] [|kv l]]; [reflexivity| |].
  - apply truthy_append_char.
  - unfold URLSearchParams.toString. cbn [map]. rewrite join_cons_cons.
    unfold URLSearchParams.pair at 1. cbn [fst snd].
    rewrite append_assoc. apply truthy_append_char.
Qed.

End StringFacts.

Module ApiFacts.
Import JsNumber Types Api Spec StringFacts.
Local Open Scope Z_scope.

Lemma ok_false_not_204 response : ok response = false -> (status response =? 204) = false.
Proof.
  unfold ok. intros H. apply Z.eqb_neq. intros E. rewrite E in H. discriminate.
Qed.

(** ** Request outcomes (claims C6 and C7) *)

Lemma request_204 env endpoint options response :
  status response = 204 ->
  request env endpoint options (Responded response)
  = (Fulfilled None,
     [Fetched {| fetch_url := API_BASE_URL env +:+ endpoint; fetch_init := options;
                 fetch_headers := [("Content-Type", "application/json")] |}]).
Proof. intros H. unfold request. rewrite H. reflexivity. Qed.

Lemma request_not_ok env endpoint options response :
  ok response = false ->
  exists e, fst (request env endpoint options (Responded response)) = Rejected e.
Proof.
  intros H. unfold request. rewrite (ok_false_not_204 _ H), H.
  destruct (json response) as [data|e]; simpl; eauto.
Qed.

(** C6.  A delete request whose response has status 204 resolves with no
    value, and the only effect is the call of [fetch]: the body is not
    read.  A response that is not ok, as one with status 404 is, makes the
    request throw: no value is returned. *)
Theorem deleteExpense_no_content_and_failures
    (env : option string) (id : string) (response : Response) :
  (status response = 204 ->
     deleteExpense env id (Responded response)
     = (Fulfilled None,
        [Fetched {| fetch_url := API_BASE_URL env +:+ "/expenses/" +:+ id;
                    fetch_init := {| method := Some DELETE; body := None |};
                    fetch_headers := [("Content-Type", "application/json")] |}])
     /\ ~ In ReadJson (snd (deleteExpense env id (Responded response))))
  /\ (ok response = false ->
        exists e, fst (deleteExpense env id (Responded response)) = Rejected e)
  /\ (status response = 404 -> ok response = false).
Proof.
  split; [|split].
  - intros H. unfold deleteExpense, perform.
    rewrite (request_204 _ _ _ _ H). split; [reflexivity|].
    simpl. intros [E|[]]. discriminate E.
  - intros H. apply request_not_ok. exact H.
  - intros H. unfold ok. rewrite H. reflexivity.
Qed.

Lemma member_error_details (e : ApiError) :
  Json.member "details" (match error e with Some m => [("error", Json.Str m)] | None => [] end
                         ++ match details e with
                            | Some ds => [("details", Json.Arr (map Json.Str ds))]
                            | None => []
                            end)
  = option_map (fun ds => Json.Arr (map Json.Str ds)) (details e)
  /\
  Json.member "error" (match error e with Some m => [("error", Json.Str m)] | None => [] end
                       ++ match details e with
                          | Some ds => [("details", Json.Arr (map Json.Str ds))]
                          | None => []
                          end)
  = option_map Json.Str (error e).
Proof. destruct (error e), (details e); split; reflexivity. Qed.

Lemma join_strings sep (ds : list string) :
  Json.join sep (map Json.Str ds) = JsString.join sep ds.
Proof.
  unfold Json.join. f_equal. induction ds as [|d ds IH]; simpl; congruence.
Qed.

Lemma thrownFor_ApiError (e : ApiError) :
  thrownFor (ApiError_json e) = Error (messageOfErrorBody e).
Proof.
  unfold thrownFor, fallbackMessage, messageOfErrorBody, ApiError_json, Json.getField.
  destruct (member_error_details e) as [-> ->].
  destruct (details e) as [ds|]; simpl.
  - rewrite join_strings. destruct (JsString.truthy (JsString.join ", " ds)); [reflexivity|].
    destruct (error e) as [m|]; simpl; [|reflexivity].
    destruct (JsString.truthy m); reflexivity.
  - destruct (error e) as [m|]; simpl; [|reflexivity].
    destruct (JsString.truthy m); reflexivity.
Qed.

(** C7, as amended.  For a response that is not ok and whose body has the
    shape of [ApiError], the request throws an [Error] whose message is the
    details joined by a comma and a space when that text is not empty,
    otherwise the error field when it is a non-empty string, otherwise
    [Request failed]. *)
Theorem request_error_message
    (env : option string) (endpoint : string) (options : RequestInit)
    (response : Response) (e : ApiError) :
  ok response = false ->
  json response = Fulfilled (ApiError_json e) ->
  fst (request env endpoint options (Responded response))
  = Rejected (Error (messageOfErrorBody e)).
Proof.
  intros Hok Hjson. unfold request.
  rewrite (ok_false_not_204 _ Hok), Hjson, Hok. cbn [negb fst].
  rewrite thrownFor_ApiError. reflexivity.
Qed.

(** ** Query parameters (claims C10 and C5) *)

Lemma searchParams_entries (params : option ListParams) :
  searchParams params
  = entry "category" (params ≫= params_category)
    ++ entry "sort" (params ≫= params_sort)
    ++ entryNumber "page" (params ≫= params_page)
    ++ entryNumber "limit" (params ≫= params_limit).
Proof.
  destruct params as [[c s p l]|]; [|reflexivity].
  unfold searchParams, entry, entryNumber. simpl.
  destruct c as [c|]; [destruct (JsString.truthy c)|];
  destruct s as [s|]; try destruct (JsString.truthy s);
  destruct p as [p|]; try destruct (JsNumber.truthy p);
  destruct l as [l|]; try destruct (JsNumber.truthy l); reflexivity.
Qed.

Lemma names_entry name value :
  URLSearchParams.names (entry name value) = if supplied value then [name] else [].
Proof. destruct value as [v|]; simpl; [destruct (JsString.truthy v)|]; reflexivity. Qed.

Lemma names_entryNumber name value :
  URLSearchParams.names (entryNumber name value) = if suppliedNumber value then [name] else [].
Proof. destruct value as [v|]; simpl; [destruct (JsNumber.truthy v)|]; reflexivity. Qed.

Lemma queryOf_expensesEndpoint (params : option ListParams) :
  URLSearchParams.queryOf (expensesEndpoint params)
  = URLSearchParams.toString (searchParams params).
Proof.
  unfold expensesEndpoint.
  destruct (JsString.truthy (URLSearchParams.toString (searchParams params))) eqn:E.
  - reflexivity.
  - destruct (URLSearchParams.toString (searchParams params)); [reflexivity|discriminate].
Qed.

(** The names read back from the URL of [getExpenses] are the names set. *)
Lemma queryNames_expensesEndpoint (params : option ListParams) :
  URLSearchParams.queryNames (URLSearchParams.queryOf (expensesEndpoint params))
  = URLSearchParams.names (searchParams params).
Proof.
  rewrite queryOf_expensesEndpoint, queryNames_toString, searchParams_entries.
  unfold URLSearchParams.names. rewrite !map_app.
  destruct (params ≫= params_category) as [c|]; simpl; [destruct (JsString.truthy c)|];
  destruct (params ≫= params_sort) as [s|]; simpl; try destruct (JsString.truthy s);
  destruct (params ≫= params_page) as [p|]; simpl; try destruct (JsNumber.truthy p);
  destruct (params ≫= params_limit) as [l|]; simpl; try destruct (JsNumber.truthy l);
  reflexivity.
Qed.

(** C10.  The URL of [getExpenses] names a parameter exactly when its
    value is present and truthy, in the order category, sort, page, limit;
    when none is, the endpoint is [/expenses]. *)
Theorem getExpenses_omits_falsy_parameters (params : option ListParams) :
  URLSearchParams.queryNames (URLSearchParams.queryOf (expensesEndpoint params))
  = (if supplied (params ≫= params_category) then ["category"] else [])
    ++ (if supplied (params ≫= params_sort) then ["sort"] else [])
    ++ (if suppliedNumber (params ≫= params_page) then ["page"] else [])
    ++ (if suppliedNumber (params ≫= params_limit) then ["limit"] else [])
  /\ (supplied (params ≫= params_category) = false ->
      supplied (params ≫= params_sort) = false ->
      suppliedNumber (params ≫= params_page) = false ->
      suppliedNumber (params ≫= params_limit) = false ->
      expensesEndpoint params = "/expenses")
  /\ (forall env net,
        exists rest,
          snd (getExpenses env params net)
          = Fetched {| fetch_url := API_BASE_URL env +:+ expensesEndpoint params;
                       fetch_init := {| method := None; body := None |};
                       fetch_headers := [("Content-Type", "application/json")] |} :: rest).
Proof.
  split; [|split].
  - rewrite queryNames_expensesEndpoint, searchParams_entries.
    unfold URLSearchParams.names. rewrite !map_app.
    fold (URLSearchParams.names (entry "category" (params ≫= params_category))).
    fold (URLSearchParams.names (entry "sort" (params ≫= params_sort))).
    fold (URLSearchParams.names (entryNumber "page" (params ≫= params_page))).
    fold (URLSearchParams.names (entryNumber "limit" (params ≫= params_limit))).
    rewrite !names_entry, !names_entryNumber. reflexivity.
  - intros Hc Hs Hp Hl. unfold expensesEndpoint.
    rewrite truthy_toString, searchParams_entries.
    unfold entry, entryNumber, supplied, suppliedNumber in *.
    destruct (params ≫= params_category) as [c|]; [rewrite Hc|];
    (destruct (params ≫= params_sort) as [s|]; [rewrite Hs|]);
    (destruct (params ≫= params_page) as [p|]; [rewrite Hp|]);
    (destruct (params ≫= params_limit) as [l|]; [rewrite Hl|]); reflexivity.
  - intros env net. unfold getExpenses, perform, request.
    cbn [endpointOf optionsOf].
    destruct net as [e|response]; [eexists; reflexivity|].
    destruct (status response =? 204); [eexists; reflexivity|].
    destruct (json response) as [data|e]; [|eexists; reflexivity].
    destruct (negb (ok response)); eexists; reflexivity.
Qed.

End ApiFacts.

(* ===================================================================== *)
(** * The create form *)
(* ===================================================================== *)

Module ExpenseFormFacts.
Import JsNumber Types Spec.
Import ExpenseForm.

Lemma generated_key_truthy n r : JsString.truthy (Api.generateIdempotencyKey n r) = true.
Proof. unfold Api.generateIdempotencyKey. apply StringFacts.truthy_append_char. Qed.

Lemma keyInvariant_initial day : keyInvariant (initialState day).
Proof. intros _. reflexivity. Qed.

(** The cases of the three checks of [handleSubmit] on the state [st]: the
    amount is rejected; all three pass; the date is missing; the
    description is blank. *)
Ltac validation_cases st :=
  destruct (amountRejected st);
  [|destruct (JsString.truthy (JsString.trim (description st)));
    [destruct (JsString.truthy (date st))|]].

(** What [handleSubmit] sends and leaves stored, case by case. *)
Lemma handleSubmit_outputs env st :
  snd (handleSubmit env st)
  = if amountRejected st
       || negb (JsString.truthy (JsString.trim (description st)))
       || negb (JsString.truthy (date st))
    then []
    else Called (Api.CreateExpense (input env st))
         :: match outcome env with
            | Fulfilled _ => [OnExpenseCreated]
            | Rejected _ => []
            end.
Proof.
  unfold handleSubmit. validation_cases st; try reflexivity.
  destruct (outcome env); reflexivity.
Qed.

Lemma handleSubmit_key env st :
  currentIdempotencyKey (fst (handleSubmit env st))
  = if amountRejected st
       || negb (JsString.truthy (JsString.trim (description st)))
       || negb (JsString.truthy (date st))
    then currentIdempotencyKey st
    else match outcome env with
         | Fulfilled _ => None
         | Rejected _ =>
             if keyMissing (currentIdempotencyKey st)
             then Some (idempotencyKey env st) else currentIdempotencyKey st
         end.
Proof.
  unfold handleSubmit. validation_cases st; try reflexivity.
  destruct (outcome env); [reflexivity|].
  destruct (keyMissing (currentIdempotencyKey st)); reflexivity.
Qed.

Lemma idempotencyKey_stored env st :
  keyInvariant st ->
  idempotencyKey env st
  = match currentIdempotencyKey st with
    | Some k => k
    | None => Api.generateIdempotencyKey (now env) (random36 env)
    end.
Proof.
  unfold keyInvariant, idempotencyKey, keyMissing.
  destruct (currentIdempotencyKey st) as [k|]; [|reflexivity].
  destruct (JsString.truthy k); [reflexivity|]. intros H. discriminate (H eq_refl).
Qed.

Lemma idempotencyKey_truthy env st :
  keyInvariant st -> JsString.truthy (idempotencyKey env st) = true.
Proof.
  unfold keyInvariant, idempotencyKey, keyMissing.
  destruct (currentIdempotencyKey st) as [k|]; [|intros; apply generated_key_truthy].
  destruct (JsString.truthy k) eqn:E; [intros; exact E|]. intros H. discriminate (H eq_refl).
Qed.

(** One event sends at most one create request; the request carries the
    stored key or a fresh one, and what stays stored follows its outcome. *)
Lemma step_attempt st ev :
  keyInvariant st ->
  keyInvariant (fst (step st ev))
  /\ ((attemptsOf ev (snd (step st ev)) = []
       /\ currentIdempotencyKey (fst (step st ev)) = currentIdempotencyKey st)
      \/ exists a,
           attemptsOf ev (snd (step st ev)) = [a]
           /\ key a = Some (match currentIdempotencyKey st with
                            | Some k => k
                            | None => Api.generateIdempotencyKey (now (env_of a)) (random36 (env_of a))
                            end)
           /\ currentIdempotencyKey (fst (step st ev))
              = if succeeded a then None else key a).
Proof.
  intros Hinv. unfold step.
  destruct (isSubmitting st).
  { split; [exact Hinv|]. left. split; [destruct ev; reflexivity|reflexivity]. }
  destruct ev as [v|index|v|v|env]; try (split; [exact Hinv|left; split; reflexivity]).
  - destruct (formCategoryOptions !! index); (split; [exact Hinv|left; split; reflexivity]).
  - pose proof (handleSubmit_outputs env st) as Hout.
    pose proof (handleSubmit_key env st) as Hkey.
    destruct (amountRejected st
              || negb (JsString.truthy (JsString.trim (description st)))
              || negb (JsString.truthy (date st))).
    + split.
      * unfold keyInvariant. rewrite Hkey. exact Hinv.
      * left. rewrite Hout, Hkey. split; reflexivity.
    + assert (Hstored : currentIdempotencyKey (fst (handleSubmit env st))
                        = match outcome env with
                          | Fulfilled _ => None
                          | Rejected _ => Some (idempotencyKey env st)
                          end).
      { rewrite Hkey. destruct (outcome env); [reflexivity|].
        destruct (keyMissing (currentIdempotencyKey st)) eqn:Hm; [reflexivity|].
        rewrite (idempotencyKey_stored env st Hinv).
        destruct (currentIdempotencyKey st); [reflexivity|discriminate]. }
      split.
      * unfold keyInvariant. rewrite Hstored.
        destruct (outcome env); [reflexivity|].
        simpl. rewrite (idempotencyKey_truthy env st Hinv). discriminate.
      * right. exists {| sent := input env st; env_of := env |}.
        split; [rewrite Hout; destruct (outcome env); reflexivity|].
        split.
        -- unfold key. simpl. rewrite (idempotencyKey_stored env st Hinv). reflexivity.
        -- rewrite Hstored. unfold succeeded, key. simpl.
           destruct (outcome env); reflexivity.
Qed.

Lemma run_cons st ev rest :
  run st (ev :: rest)
  = (fst (run (fst (step st ev)) rest),
     attemptsOf ev (snd (step st ev)) ++ snd (run (fst (step st ev)) rest)).
Proof.
  simpl. destruct (step st ev) as [st' outputs]. simpl.
  destruct (run st' rest) as [final later]. reflexivity.
Qed.

Lemma storedAfter_cons a b log : storedAfter (a :: b :: log) = storedAfter (b :: log).
Proof. reflexivity. Qed.

(** The requests of a run are chained from the key stored at its start,
    and the key stored at its end is the one the last request leaves. *)
Lemma run_chained events : forall st,
  keyInvariant st ->
  chained (currentIdempotencyKey st) (snd (run st events))
  /\ currentIdempotencyKey (fst (run st events))
     = match snd (run st events) with
       | [] => currentIdempotencyKey st
       | log => storedAfter log
       end.
Proof.
  induction events as [|ev rest IH]; intros st Hinv; [split; [exact I|reflexivity]|].
  rewrite run_cons. cbn [fst snd].
  destruct (step_attempt st ev Hinv) as [Hinv' [[Hnone Hsame]|(a & Hone & Hkey & Hstored)]];
    destruct (IH _ Hinv') as [Hchain Hfinal].
  - rewrite Hnone. cbn [app]. rewrite Hsame in Hchain, Hfinal. split; assumption.
  - rewrite Hone. cbn [app]. rewrite Hstored in Hchain, Hfinal. split.
    + split; assumption.
    + rewrite Hfinal. destruct (snd (run (fst (step st ev)) rest)); reflexivity.
Qed.

Lemma chained_same_key k pre : forall a post,
  chained (Some k) (pre ++ a :: post) ->
  Forall (fun b => succeeded b = false) pre ->
  key a = Some k /\ Forall (fun b => key b = Some k) pre.
Proof.
  induction pre as [|b pre IH]; intros a post Hc Hf.
  - destruct Hc as [Hk _]. split; [exact Hk|constructor].
  - destruct Hc as [Hk Hrest]. inversion Hf as [|? ? Hb Hpre]; subst.
    rewrite Hb, Hk in Hrest.
    destruct (IH a post Hrest Hpre) as [Ha Hall].
    split; [exact Ha|constructor; assumption].
Qed.

Lemma chained_failures_share stored pre a post :
  chained stored (pre ++ a :: post) ->
  Forall (fun b => succeeded b = false) pre ->
  Forall (fun b => key b = key a) pre.
Proof.
  destruct pre as [|b pre]; intros Hc Hf; [constructor|].
  destruct Hc as [Hk Hrest]. inversion Hf as [|? ? Hb Hpre]; subst.
  rewrite Hb, Hk in Hrest.
  destruct (chained_same_key _ pre a post Hrest Hpre) as [Ha Hall].
  constructor; [congruence|].
  eapply Forall_impl; [exact Hall|]. intros c Hc. cbn beta in Hc. congruence.
Qed.

Lemma chained_suffix stored pre : forall log,
  chained stored (pre ++ log) -> exists stored', chained stored' log.
Proof.
  revert stored. induction pre as [|b pre IH]; intros stored log Hc; [eauto|].
  destruct Hc as [_ Hrest]. eapply IH; exact Hrest.
Qed.

Lemma chained_after stored pre a b post :
  chained stored (pre ++ a :: b :: post) ->
  key b = if succeeded a
          then Some (Api.generateIdempotencyKey (now (env_of b)) (random36 (env_of b)))
          else key a.
Proof.
  intros Hc. apply chained_suffix in Hc as [stored' [Ha [Hb _]]].
  rewrite Hb. destruct (succeeded a); [reflexivity|]. rewrite Ha. reflexivity.
Qed.

(** Every request of a run carries a key, and the key is not empty. *)
Lemma run_keys events : forall st,
  keyInvariant st ->
  Forall (fun a => exists k, key a = Some k /\ JsString.truthy k = true) (snd (run st events)).
Proof.
  induction events as [|ev rest IH]; intros st Hinv; [constructor|].
  rewrite run_cons. cbn [snd].
  destruct (step_attempt st ev Hinv) as [Hinv' [[Hnone _]|(a & Hone & Hkey & _)]].
  - rewrite Hnone. cbn [app]. apply IH. exact Hinv'.
  - rewrite Hone. cbn [app]. constructor; [|apply IH; exact Hinv'].
    eexists. split; [exact Hkey|].
    unfold keyInvariant, keyMissing in Hinv.
    destruct (currentIdempotencyKey st) as [k|]; [|apply generated_key_truthy].
    destruct (JsString.truthy k); [reflexivity|]. discriminate (Hinv eq_refl).
Qed.

(** What [api.createExpense(input)] hands to [fetch]: a POST to
    [/expenses] whose body is [input]. *)
Lemma createExpense_fetch env input net :
  exists rest,
    snd (Api.createExpense env input net)
    = Api.Fetched {| Api.fetch_url := Api.API_BASE_URL env +:+ "/expenses";
                     Api.fetch_init := {| Api.method := Some Api.POST;
                                          Api.body := Some input |};
                     Api.fetch_headers := [("Content-Type", "application/json")] |} :: rest.
Proof.
  unfold Api.createExpense, Api.perform, Api.request. cbn [Api.endpointOf Api.optionsOf].
  destruct net as [e|response]; [eexists; reflexivity|].
  destruct (Api.status response =? 204)%Z; [eexists; reflexivity|].
  destruct (Api.json response) as [data|e]; [|eexists; reflexivity].
  destruct (negb (Api.ok response)); eexists; reflexivity.
Qed.

(** C1, as amended.  From the mount of the form on and as long as it stays
    mounted, whatever the user does: every create request is a POST to
    [/expenses] whose body holds an idempotency key that is not empty; the
    requests sent before a given one, when they all failed, carry the same
    key as it (so every attempt up to and including the first successful
    one sends one key); the first request carries the key generated at its
    submission; the request after a failed one reuses its key, and the
    request after a successful one carries a key generated at its own
    submission; at the end the form stores the key of a failed last request
    and no key after a successful one. *)
Theorem idempotency_key_reused_until_success (day : string) (events : list Event) :
  let log := snd (run (initialState day) events) in
  (forall a,
     In a log ->
     (exists k, idempotency_key (sent a) = Some k /\ JsString.truthy k = true)
     /\ forall env net,
          exists rest,
            snd (Api.createExpense env (sent a) net)
            = Api.Fetched {| Api.fetch_url := Api.API_BASE_URL env +:+ "/expenses";
                             Api.fetch_init := {| Api.method := Some Api.POST;
                                                  Api.body := Some (sent a) |};
                             Api.fetch_headers := [("Content-Type", "application/json")] |}
              :: rest)
  /\ (forall pre a post,
        log = pre ++ a :: post ->
        Forall (fun b => succeeded b = false) pre ->
        Forall (fun b => key b = key a) pre)
  /\ (forall a rest,
        log = a :: rest ->
        key a = Some (Api.generateIdempotencyKey (now (env_of a)) (random36 (env_of a))))
  /\ (forall pre a b post,
        log = pre ++ a :: b :: post ->
        key b = if succeeded a
                then Some (Api.generateIdempotencyKey (now (env_of b)) (random36 (env_of b)))
                else key a)
  /\ currentIdempotencyKey (fst (run (initialState day) events)) = storedAfter log.
Proof.
  intros log.
  destruct (run_chained events (initialState day) (keyInvariant_initial day))
    as [Hchain Hfinal].
  pose proof (run_keys events (initialState day) (keyInvariant_initial day)) as Hkeys.
  fold log in Hchain, Hfinal, Hkeys. cbn [initialState currentIdempotencyKey] in Hchain, Hfinal.
  split; [|repeat split].
  - intros a Ha. split.
    + rewrite List.Forall_forall in Hkeys. exact (Hkeys a Ha).
    + intros env net. apply createExpense_fetch.
  - intros pre a post Hlog Hfailed. rewrite Hlog in Hchain.
    eapply chained_failures_share; eassumption.
  - intros a rest Hlog. rewrite Hlog in Hchain. destruct Hchain as [Hk _]. exact Hk.
  - intros pre a b post Hlog. rewrite Hlog in Hchain.
    eapply chained_after; eassumption.
  - rewrite Hfinal. destruct log; reflexivity.
Qed.

(** ** Validation in [handleSubmit] *)

Lemma handleSubmit_amount_rejected env st :
  amountRejected st = true ->
  handleSubmit env st
  = (setError (Some "Please enter a valid amount greater than 0") (setError None st), []).
Proof. intros H. unfold handleSubmit. rewrite H. reflexivity. Qed.

Lemma handleSubmit_amount_accepted env st :
  amountRejected st = false ->
  JsString.truthy (JsString.trim (description st)) = true ->
  JsString.truthy (date st) = true ->
  exists rest, snd (handleSubmit env st) = Called (Api.CreateExpense (input env st)) :: rest.
Proof.
  intros Ha Hd Ht. rewrite handleSubmit_outputs, Ha, Hd, Ht. cbn [orb negb].
  eexists. reflexivity.
Qed.

Lemma handleSubmit_sent env st i :
  In (Called (Api.CreateExpense i)) (snd (handleSubmit env st)) ->
  i = input env st
  /\ amountRejected st = false
  /\ JsString.truthy (JsString.trim (description st)) = true
  /\ JsString.truthy (date st) = true.
Proof.
  rewrite handleSubmit_outputs.
  validation_cases st; cbn [orb negb]; [intros []| |intros []|intros []].
  intros [H|H].
  - injection H as <-. repeat split; reflexivity.
  - destruct (outcome env); [destruct H as [H|[]]; discriminate H|destruct H].
Qed.

End ExpenseFormFacts.

(* ===================================================================== *)
(** * The expense list *)
(* ===================================================================== *)

Module ExpenseListFacts.
Import JsNumber Types Spec NumberFacts.
Import ExpenseList.

Lemma fetchExpenses_page response st :
  expenses (fst (fetchExpenses (Fulfilled response) st)) = data response.
Proof. reflexivity. Qed.

Lemma total_fold (items : list Expense) (start : number) :
  fold_left (fun sum expense => add sum (amount expense)) items start
  = fold_left add (map amount items) start.
Proof. revert start. induction items as [|e items IH]; intros start; simpl; auto. Qed.

(** The entry of a category in the object the reducer builds: the running
    value over the items of that category, each step adding the amount to
    the entry so far, or to [0] when the entry is missing or falsy. *)
Lemma categoryTotals_lookup (c : string) (items : list Expense) :
  forall acc : gmap string number,
    fold_left
      (fun acc expense =>
         <[category expense := add (orZero (acc !! category expense)) (amount expense)]> acc)
      items acc !! c
    = fold_left (fun entry expense => Some (add (orZero entry) (amount expense)))
        (ofCategory c items) (acc !! c).
Proof.
  induction items as [|e items IH]; intros acc; [reflexivity|].
  cbn [fold_left]. rewrite IH. unfold ofCategory. cbn [List.filter].
  destruct (String.eqb_spec (category e) c) as [->|Hne].
  - cbn [fold_left]. rewrite lookup_insert_eq. reflexivity.
  - rewrite lookup_insert_ne by exact Hne. reflexivity.
Qed.

(** With finite amounts the entry so far is replaced by [0] only when it
    is [0]. *)
Lemma running_entry_kept (items : list Expense) : forall x : number,
  sumShape x ->
  Forall (fun e => termShape (amount e)) items ->
  fold_left (fun entry expense => Some (add (orZero entry) (amount expense))) items (Some x)
  = Some (fold_left add (map amount items) x).
Proof.
  induction items as [|e items IH]; intros x Hx Hall; [reflexivity|].
  inversion Hall as [|? ? He Hrest]; subst.
  cbn [fold_left map]. rewrite (sumShape_orZero x Hx).
  apply IH; [apply add_sumShape; assumption|assumption].
Qed.

Lemma entry_is_sum (items : list Expense) :
  Forall (fun e => termShape (amount e)) items ->
  fold_left (fun entry expense => Some (add (orZero entry) (amount expense))) items None
  = match items with
    | [] => None
    | _ :: _ => Some (sumOfAmounts items)
    end.
Proof.
  destruct items as [|e items]; [reflexivity|]. intros Hall.
  inversion Hall as [|? ? He Hrest]; subst.
  unfold sumOfAmounts. cbn [fold_left map orZero].
  apply running_entry_kept; [|assumption].
  apply add_sumShape; [reflexivity|assumption].
Qed.

Lemma ofCategory_finite c (items : list Expense) :
  Forall (fun e => isFinite (amount e) = true) items ->
  Forall (fun e => termShape (amount e)) (ofCategory c items).
Proof.
  intros H. apply List.Forall_forall. intros e He.
  apply List.filter_In in He as [He _].
  apply isFinite_termShape. rewrite List.Forall_forall in H. apply H. exact He.
Qed.

(** C2.  Once the list request has returned a page, the expenses shown
    are exactly the items of that page and the total is the sum of their
    amounts; and for a page of the data model (every amount a finite
    number, every category one of the enumeration) the summary holds, for
    every category that occurs on the page, the sum of the amounts of its
    items on the page, and no entry for a category that does not occur.
    The second hypothesis keeps the categories apart from the property
    names an object inherits, for which the entries of an object literal
    are not those of a finite map. *)
Theorem totals_over_returned_page (st : State) (response : PaginatedResponse Expense) :
  let shown := fst (fetchExpenses (Fulfilled response) st) in
  expenses shown = data response
  /\ total shown = sumOfAmounts (data response)
  /\ (Forall (fun e => isFinite (amount e) = true) (data response) ->
      Forall (fun e => In (category e) CATEGORIES) (data response) ->
      forall c,
        categoryTotals shown !! c
        = match ofCategory c (data response) with
          | [] => None
          | _ :: _ => Some (sumOfAmounts (ofCategory c (data response)))
          end).
Proof.
  intros shown.
  assert (Hshown : expenses shown = data response) by reflexivity.
  split; [exact Hshown|]. split.
  - unfold total, sumOfAmounts. rewrite Hshown. apply total_fold.
  - intros Hfinite _ c. unfold categoryTotals. rewrite Hshown.
    rewrite categoryTotals_lookup, lookup_empty.
    apply entry_is_sum. apply ofCategory_finite. exact Hfinite.
Qed.

(** ** The parameters of the export request and of the list request *)

Lemma searchParams_export st :
  Api.searchParams (Some (exportParams st))
  = entry "category" (Some (categoryFilter st)) ++ [("sort", sortString (sortOrder st))].
Proof.
  rewrite ApiFacts.searchParams_entries. cbn.
  destruct (JsString.truthy (categoryFilter st)) eqn:E; cbn; rewrite ?E;
    destruct (sortOrder st); reflexivity.
Qed.

Lemma truthy_itemsPerPage : JsNumber.truthy itemsPerPage = true.
Proof. vm_compute. reflexivity. Qed.

Lemma searchParams_fetch st :
  Api.searchParams (Some (fetchParams st))
  = entry "category" (Some (categoryFilter st)) ++ [("sort", sortString (sortOrder st))]
    ++ entryNumber "page" (Some (currentPage st)) ++ [("limit", "10")].
Proof.
  rewrite ApiFacts.searchParams_entries.
  change (Some (fetchParams st) ≫= Api.params_limit) with (Some itemsPerPage).
  change (entryNumber "limit" (Some itemsPerPage)) with [("limit", "10")].
  cbn.
  destruct (JsString.truthy (categoryFilter st)) eqn:E; cbn; rewrite ?E;
    destruct (sortOrder st); reflexivity.
Qed.

End ExpenseListFacts.

(* ===================================================================== *)
(** * The CSV export *)
(* ===================================================================== *)

Module CsvFacts.
Import JsNumber Types Api Spec.

Lemma csvRow_line (e : Expense) : JsString.join "," (csvRow e) = csvLine e.
Proof.
  unfold csvRow, csvLine, quoted. cbn [JsString.join].
  cbn [String.append]. rewrite !StringFacts.append_assoc. reflexivity.
Qed.

Lemma doubleQuotes_append (a b : string) :
  JsString.doubleQuotes (a +:+ b) = JsString.doubleQuotes a +:+ JsString.doubleQuotes b.
Proof.
  induction a as [|c a IH]; [reflexivity|].
  cbn [String.append JsString.doubleQuotes]. rewrite IH.
  destruct (JsString.code c =? 34)%N; reflexivity.
Qed.

Lemma code_dquote : JsString.code JsString.dquote = 34%N.
Proof. reflexivity. Qed.

(** A reader of quoted fields gets the description back. *)
Lemma unquote_quoted (s : string) : unquoteField (quoted s) = Some s.
Proof.
  unfold quoted, unquoteField. rewrite code_dquote. cbn [N.eqb Pos.eqb].
  induction s as [|c s IH].
  - reflexivity.
  - cbn [JsString.doubleQuotes].
    destruct (JsString.code c =? 34)%N eqn:E.
    + cbn [String.append unquoteBody]. rewrite code_dquote. cbn [N.eqb Pos.eqb].
      rewrite IH. f_equal. f_equal.
      apply N.eqb_eq in E. unfold JsString.dquote. unfold JsString.code in E.
      rewrite <- E, ascii_N_embedding. reflexivity.
    + cbn [String.append unquoteBody]. rewrite E, IH. reflexivity.
Qed.

End CsvFacts.

(* ===================================================================== *)
(** * Descriptions and categories in the two forms *)
(* ===================================================================== *)

Module FormsFacts.
Import JsNumber Types Spec.

Lemma handleEditSubmit_sent updated refetched st id i :
  In (Api.UpdateExpense id i) (snd (ExpenseList.handleEditSubmit updated refetched st)) ->
  input_description i
  = JsString.trim (ExpenseList.edit_description (ExpenseList.editForm st)).
Proof.
  unfold ExpenseList.handleEditSubmit.
  destruct (ExpenseList.editingExpense st) as [editing|]; [|intros []].
  destruct (isNaN _ || leb _ zero); [intros []|].
  destruct updated as [v|err].
  - destruct refetched; cbn [snd In]; intros [H|[H|[]]];
      try discriminate H; injection H as _ <-; reflexivity.
  - cbn [snd In]. intros [H|[]]. injection H as _ <-. reflexivity.
Qed.

Lemma option_values : map option_value categoryOptions = CATEGORIES.
Proof. unfold categoryOptions. rewrite map_map. apply map_id. Qed.

Lemma offered_in_CATEGORIES index o :
  categoryOptions !! index = Some o -> In (option_value o) CATEGORIES.
Proof.
  intros H. rewrite <- option_values. apply in_map.
  apply list_elem_of_In. eapply list_elem_of_lookup_2. exact H.
Qed.

Lemma handleSubmit_category env st :
  ExpenseForm.category (fst (ExpenseForm.handleSubmit env st)) = ExpenseForm.category st
  \/ ExpenseForm.category (fst (ExpenseForm.handleSubmit env st)) = CATEGORIES_0.
Proof.
  unfold ExpenseForm.handleSubmit.
  ExpenseFormFacts.validation_cases st; try (left; reflexivity).
  destruct (ExpenseForm.outcome env); [right; reflexivity|].
  left. destruct (ExpenseForm.keyMissing _); reflexivity.
Qed.

Lemma step_category st ev :
  In (ExpenseForm.category st) CATEGORIES ->
  In (ExpenseForm.category (fst (ExpenseForm.step st ev))) CATEGORIES.
Proof.
  intros H. unfold ExpenseForm.step.
  destruct (ExpenseForm.isSubmitting st); [exact H|].
  destruct ev as [v|index|v|v|env]; try exact H.
  - unfold ExpenseForm.formCategoryOptions.
    destruct (categoryOptions !! index) as [o|] eqn:E; [|exact H].
    exact (offered_in_CATEGORIES index o E).
  - destruct (handleSubmit_category env st) as [-> | ->]; [exact H|].
    left. reflexivity.
Qed.

Lemma run_category events : forall st,
  In (ExpenseForm.category st) CATEGORIES ->
  In (ExpenseForm.category (fst (ExpenseForm.run st events))) CATEGORIES.
Proof.
  induction events as [|ev rest IH]; intros st H; [exact H|].
  rewrite ExpenseFormFacts.run_cons. cbn [fst].
  apply IH. apply step_category. exact H.
Qed.

(** C8.  The category enumeration is the list of these eight values,
    without repetition; the values offered by the category select of the
    create form and of the edit form are exactly these; and the category
    held by the create form, from its mount on and whatever the user does,
    is one of them. *)
Theorem categories_fixed_set :
  CATEGORIES = ["Food"; "Transport"; "Entertainment"; "Shopping"; "Bills";
                "Healthcare"; "Education"; "Other"]
  /\ length CATEGORIES = 8%nat
  /\ NoDup CATEGORIES
  /\ map option_value ExpenseForm.formCategoryOptions = CATEGORIES
  /\ map option_value ExpenseList.editCategoryOptions = CATEGORIES
  /\ (forall day events,
        In (ExpenseForm.category (fst (ExpenseForm.run (ExpenseForm.initialState day) events)))
           CATEGORIES).
Proof.
  split; [reflexivity|]. split; [reflexivity|]. split.
  - apply (bool_decide_unpack _). vm_compute. exact I.
  - split; [exact option_values|]. split; [exact option_values|].
    intros day events. apply run_category. left. reflexivity.
Qed.

End FormsFacts.

(* ===================================================================== *)
(** * More on the API client *)
(* ===================================================================== *)

Module ClientFacts.
Import JsNumber Types Api Spec StringFacts.
Local Open Scope Z_scope.

(** X1.  When [request] resolves and when it rejects.  It resolves only for a
    response with status 204 (with no value, whatever the body) or for a
    response with a status from 200 to 299 whose body is JSON text (with
    the parsed body); it rejects with the error of [fetch], with the error
    of [response.json()] when the body is not JSON text (also for a status
    outside 200 to 299), and otherwise with the error made from the parsed
    body. *)
Theorem request_settles
    (env : option string) (endpoint : string) (options : RequestInit) (net : FetchResult) :
  (forall v,
     fst (request env endpoint options net) = Fulfilled v
     <-> exists response,
           net = Responded response
           /\ ((status response = 204 /\ v = None)
               \/ (status response <> 204 /\ ok response = true
                   /\ exists data, json response = Fulfilled data /\ v = Some data)))
  /\ (forall e,
        fst (request env endpoint options net) = Rejected e
        <-> net = Failed e
            \/ exists response,
                 net = Responded response /\ status response <> 204
                 /\ (json response = Rejected e
                     \/ exists data,
                          json response = Fulfilled data /\ ok response = false
                          /\ e = thrownFor data)).
Proof.
  unfold request. destruct net as [err|response].
  - split; intros x; cbn [fst]; split.
    + discriminate.
    + intros (r & H & _). discriminate H.
    + intros H. left. congruence.
    + intros [H|(r & H & _)]; [congruence|discriminate H].
  - destruct (Z.eqb_spec (status response) 204) as [E|E].
    + split; intros x; cbn [fst]; split.
      * intros H. exists response. split; [reflexivity|]. left. split; congruence.
      * intros (r & Hr & [[_ ->]|[Hne _]]); [reflexivity|].
        injection Hr as <-. contradiction.
      * discriminate.
      * intros [H|(r & Hr & Hne & _)]; [discriminate H|].
        injection Hr as <-. contradiction.
    + destruct (json response) as [data|perr] eqn:Hjson.
      * destruct (ok response) eqn:Hok; cbn [negb fst]; split; intros x; split.
        -- intros H. exists response. split; [reflexivity|]. right.
           repeat split; try assumption. exists data. split; congruence.
        -- intros (r & Hr & [[H204 _]|(_ & _ & d & Hd & ->)]); injection Hr as <-;
             [contradiction|congruence].
        -- discriminate.
        -- intros [H|(r & Hr & _ & [H|(d & _ & H & _)])]; try discriminate H;
             injection Hr as <-; congruence.
        -- discriminate.
        -- intros (r & Hr & [[H204 _]|(_ & H & _)]); injection Hr as <-;
             [contradiction|congruence].
        -- intros H. right. exists response. repeat split; try assumption.
           right. exists data. repeat split; congruence.
        -- intros [H|(r & Hr & _ & [H|(d & Hd & _ & ->)])]; try discriminate H;
             injection Hr as <-; congruence.
      * cbn [fst]. split; intros x; split.
        -- discriminate.
        -- intros (r & Hr & [[H204 _]|(_ & _ & d & Hd & _)]); injection Hr as <-;
             [contradiction|congruence].
        -- intros H. right. exists response. repeat split; try assumption.
           left. congruence.
        -- intros [H|(r & Hr & _ & [H|(d & Hd & _)])]; try discriminate H;
             injection Hr as <-; congruence.
Qed.

(** X2.  What [request] does to the outside: it calls [fetch] exactly once,
    first, with the base URL followed by the endpoint, the options it was
    given and the JSON content type; after that it reads the body of the
    response at most once, and exactly when a response arrived whose
    status is not 204. *)
Theorem request_effects
    (env : option string) (endpoint : string) (options : RequestInit) (net : FetchResult) :
  exists rest,
    snd (request env endpoint options net)
    = Fetched {| fetch_url := API_BASE_URL env +:+ endpoint; fetch_init := options;
                 fetch_headers := [("Content-Type", "application/json")] |} :: rest
    /\ (rest = [] \/ rest = [ReadJson])
    /\ (rest = [ReadJson]
        <-> exists response, net = Responded response /\ status response <> 204).
Proof.
  unfold request. destruct net as [err|response].
  - exists []. split; [reflexivity|]. split; [left; reflexivity|].
    split; [discriminate|]. intros (r & H & _). discriminate H.
  - destruct (Z.eqb_spec (status response) 204) as [E|E].
    + exists []. split; [reflexivity|]. split; [left; reflexivity|].
      split; [discriminate|]. intros (r & H & Hne). injection H as <-. contradiction.
    + exists [ReadJson].
      split; [destruct (json response); [destruct (negb (ok response))|]; reflexivity|].
      split; [right; reflexivity|].
      split; [|reflexivity]. intros _. exists response. split; [reflexivity|assumption].
Qed.

Lemma messageOfErrorBody_truthy (e : ApiError) :
  JsString.truthy (messageOfErrorBody e) = true.
Proof.
  unfold messageOfErrorBody.
  destruct (JsString.truthy (match details e with
                             | Some ds => JsString.join ", " ds
                             | None => EmptyString
                             end)) eqn:E; [exact E|].
  destruct (error e) as [m|]; [|reflexivity].
  destruct (JsString.truthy m) eqn:Em; [exact Em|reflexivity].
Qed.

(** X3.  For a response outside 200 to 299 whose body has the shape of
    [ApiError], the request rejects with an [Error] whose message is not
    empty, whatever the fields hold. *)
Theorem error_message_is_never_empty
    (env : option string) (endpoint : string) (options : RequestInit)
    (response : Response) (e : ApiError) :
  ok response = false ->
  json response = Fulfilled (ApiError_json e) ->
  exists m,
    fst (request env endpoint options (Responded response)) = Rejected (Error m)
    /\ JsString.truthy m = true.
Proof.
  intros Hok Hjson. exists (messageOfErrorBody e). split.
  - unfold request. rewrite (ApiFacts.ok_false_not_204 _ Hok), Hjson, Hok. cbn [negb fst].
    rewrite ApiFacts.thrownFor_ApiError. reflexivity.
  - apply messageOfErrorBody_truthy.
Qed.

(** ** Reading the query of [getExpenses] back *)

Lemma decode_encodeByte (a : ascii) (rest : string) :
  FormUrlencoded.decode (URLSearchParams.encodeByte a +:+ rest)
  = String a (FormUrlencoded.decode rest).
Proof. destruct a as [[] [] [] [] [] [] [] []]; reflexivity. Qed.

Lemma decode_encode_append (s rest : string) :
  FormUrlencoded.decode (URLSearchParams.encode s +:+ rest)
  = s +:+ FormUrlencoded.decode rest.
Proof.
  induction s as [|a s IH]; [reflexivity|].
  cbn [URLSearchParams.encode]. rewrite append_assoc, decode_encodeByte, IH. reflexivity.
Qed.

Lemma append_empty (s : string) : s +:+ EmptyString = s.
Proof. induction s; simpl; congruence. Qed.

Lemma decode_encode (s : string) :
  FormUrlencoded.decode (URLSearchParams.encode s) = s.
Proof.
  rewrite <- (append_empty (URLSearchParams.encode s)), decode_encode_append.
  apply append_empty.
Qed.

Lemma afterEquals_append k rest :
  URLSearchParams.occurs 61 k = false ->
  FormUrlencoded.afterEquals (k +:+ String "=" rest) = rest.
Proof.
  induction k as [|a r IH]; simpl; [reflexivity|].
  intros H. apply orb_false_elim in H as [Ha Hr].
  rewrite Ha, (IH Hr). reflexivity.
Qed.

(** Parsing the serialized parameters gives the parameters back. *)
Lemma parse_toString (l : URLSearchParams.t) :
  FormUrlencoded.parse (URLSearchParams.toString l) = l.
Proof.
  unfold FormUrlencoded.parse, URLSearchParams.toString.
  destruct l as [|kv l]; [reflexivity|].
  rewrite pieces_join.
  - set (l' := kv :: l). clearbody l'. clear.
    induction l' as [|[k v] l' IH]; [reflexivity|].
    cbn [map]. rewrite filter_cons.
    destruct (decide (JsString.truthy (URLSearchParams.pair (k, v)) = true)) as [_|Hn].
    + cbn [map]. rewrite IH. f_equal.
      unfold URLSearchParams.pair. cbn [fst snd].
      change ("=" +:+ ?z) with (String "=" z).
      rewrite (beforeEquals_append (URLSearchParams.encode k)) by apply encode_plain.
      rewrite (afterEquals_append (URLSearchParams.encode k)) by apply encode_plain.
      rewrite !decode_encode. reflexivity.
    + exfalso. apply Hn. apply truthy_append_char.
  - discriminate.
  - apply List.Forall_forall. intros p Hp. apply List.in_map_iff in Hp as [[k v] [<- _]].
    unfold URLSearchParams.pair. cbn [fst snd].
    rewrite !occurs_append.
    rewrite (proj1 (encode_plain k)), (proj1 (encode_plain v)). reflexivity.
Qed.

Lemma parse_expensesEndpoint (params : option ListParams) :
  FormUrlencoded.parse (URLSearchParams.queryOf (expensesEndpoint params))
  = searchParams params.
Proof. rewrite ApiFacts.queryOf_expensesEndpoint. apply parse_toString. Qed.

(** X4.  The query of the URL of [getExpenses], parsed the way the receiving
    end parses it, gives the parameters that were supplied, names and
    values, whatever characters the values hold: the category when it is
    present and not empty, then the sort order likewise, then the page
    and the limit when they are present and neither [0] nor [NaN]. *)
Theorem getExpenses_query_reads_back (params : option ListParams) :
  FormUrlencoded.parse (URLSearchParams.queryOf (expensesEndpoint params))
  = entry "category" (params ≫= params_category)
    ++ entry "sort" (params ≫= params_sort)
    ++ entryNumber "page" (params ≫= params_page)
    ++ entryNumber "limit" (params ≫= params_limit).
Proof.
  rewrite parse_expensesEndpoint. apply ApiFacts.searchParams_entries.
Qed.

End ClientFacts.

(* ===================================================================== *)
(** * Reading the exported file back *)
(* ===================================================================== *)

Module CsvReaderFacts.
Import JsNumber Types Api StringFacts NumberFacts CsvReader.
Local Open Scope N_scope.

Lemma pushAll_field s fields rest :
  pushAll s ((EmptyString :: fields) :: rest) = (s :: fields) :: rest.
Proof.
  induction s as [|a s IH]; [reflexivity|].
  cbn [pushAll]. rewrite IH. reflexivity.
Qed.

Lemma read_afterCell mode s :
  afterCell s -> mode <> Quoted -> read mode s = read FieldStart s.
Proof.
  destruct s as [|a r]; [reflexivity|].
  intros [H|H] Hm; destruct mode; try contradiction; cbn [read]; rewrite H; reflexivity.
Qed.

Lemma bare_cons a s :
  bare (String a s) = true ->
  (JsString.code a =? 44) = false /\ (JsString.code a =? 34) = false
  /\ (JsString.code a =? 10) = false /\ bare s = true.
Proof.
  unfold bare. cbn [URLSearchParams.occurs]. intros H.
  apply andb_prop in H as [H H3]. apply andb_prop in H as [H1 H2].
  apply negb_true_iff, orb_false_elim in H1 as [H1 H1'].
  apply negb_true_iff, orb_false_elim in H2 as [H2 H2'].
  apply negb_true_iff, orb_false_elim in H3 as [H3 H3'].
  rewrite H1', H2', H3'. auto.
Qed.

(** A bare text is read as it stands. *)
Lemma read_bare s : forall mode rest,
  bare s = true -> mode <> Quoted -> afterCell rest ->
  read mode (s +:+ rest) = pushAll s (read FieldStart rest).
Proof.
  induction s as [|a s IH]; intros mode rest Hs Hm Hrest.
  - apply read_afterCell; assumption.
  - apply bare_cons in Hs as (H1 & H2 & H3 & Hs).
    cbn [String.append pushAll].
    destruct mode; try contradiction; cbn [read]; rewrite H1, H3, H2; cbn [andb];
      rewrite (IH Plain rest Hs) by (assumption || discriminate); reflexivity.
Qed.

Lemma ascii_of_code a n : JsString.code a = n -> a = ascii_of_N n.
Proof. intros <-. unfold JsString.code. rewrite ascii_N_embedding. reflexivity. Qed.

(** A text between double quotes is read back with its double quotes. *)
Lemma read_doubled s : forall rest,
  afterCell rest ->
  read Quoted (JsString.doubleQuotes s +:+ String JsString.dquote rest)
  = pushAll s (read FieldStart rest).
Proof.
  induction s as [|a s IH]; intros rest Hrest.
  - cbn [JsString.doubleQuotes String.append pushAll read].
    rewrite CsvFacts.code_dquote. cbn [N.eqb Pos.eqb].
    destruct rest as [|b r']; [reflexivity|].
    destruct Hrest as [H|H]; rewrite H; cbn [N.eqb Pos.eqb];
      apply read_afterCell; try discriminate; cbn; rewrite H; auto.
  - cbn [JsString.doubleQuotes].
    destruct (JsString.code a =? 34) eqn:E.
    + cbn [String.append read]. rewrite CsvFacts.code_dquote. cbn [N.eqb Pos.eqb].
      rewrite (IH rest Hrest). cbn [pushAll].
      apply N.eqb_eq in E. rewrite (ascii_of_code a 34 E). reflexivity.
    + cbn [String.append read]. rewrite E, (IH rest Hrest). reflexivity.
Qed.

Lemma read_written c rest :
  wellFormed c -> afterCell rest ->
  read FieldStart (written c +:+ rest) = pushAll (content c) (read FieldStart rest).
Proof.
  destruct c as [s|s]; cbn [wellFormed written content]; intros Hc Hrest.
  - apply read_bare; [assumption|discriminate|assumption].
  - unfold quoted. cbn [String.append read].
    rewrite CsvFacts.code_dquote. cbn [N.eqb Pos.eqb andb].
    rewrite append_assoc. cbn [String.append]. apply read_doubled. assumption.
Qed.

Lemma read_line (cells : list Cell) : forall tail,
  cells <> [] -> Forall wellFormed cells -> afterLine tail ->
  read FieldStart (JsString.join "," (map written cells) +:+ tail)
  = map content cells :: following tail.
Proof.
  induction cells as [|c [|c' cells] IH]; intros tail Hne Hall Htail; [contradiction| |].
  - inversion Hall as [|? ? Hc _]; subst. cbn [map JsString.join].
    rewrite read_written; [|assumption|destruct tail; cbn in *; auto].
    destruct tail as [|a more]; cbn [following read].
    + apply (pushAll_field (content c) [] []).
    + cbn in Htail. rewrite Htail. cbn [N.eqb Pos.eqb].
      apply (pushAll_field (content c) []).
  - inversion Hall as [|? ? Hc Hrest]; subst.
    cbn [map]. rewrite join_cons_cons, !append_assoc.
    change ("," +:+ ?z) with (String "," z).
    rewrite read_written; [|assumption|cbn; auto].
    cbn [read]. cbn [JsString.code N_of_ascii N_of_digits N.eqb Pos.eqb].
    change (map written (c' :: cells)) with (written c' :: map written cells) in IH.
    cbn [map] in IH. rewrite (IH tail); [|discriminate|assumption|assumption].
    apply pushAll_field.
Qed.

Lemma read_lines (lines : list (list Cell)) :
  lines <> [] ->
  Forall (fun cells => cells <> [] /\ Forall wellFormed cells) lines ->
  read FieldStart
    (JsString.join newline (map (fun cells => JsString.join "," (map written cells)) lines))
  = map (map content) lines.
Proof.
  induction lines as [|l [|l' lines] IH]; intros Hne Hall; [contradiction| |].
  - inversion Hall as [|? ? [Hl Hcells] _]; subst. cbn [map JsString.join].
    rewrite <- (ClientFacts.append_empty (JsString.join "," (map written l))).
    rewrite read_line; [reflexivity|assumption|assumption|exact I].
  - inversion Hall as [|? ? [Hl Hcells] Hrest]; subst.
    cbn [map]. rewrite join_cons_cons. cbn [map] in IH.
    rewrite read_line; [|assumption|assumption|reflexivity].
    cbn [following]. f_equal. apply IH; [discriminate|assumption].
Qed.

(** *** The amount is a bare text *)

Lemma occurs_digits c s :
  JsString.allDigits s = true -> (c <? 48) = true -> URLSearchParams.occurs c s = false.
Proof.
  intros Hs Hc. induction s as [|a s IH]; [reflexivity|].
  cbn in Hs. apply andb_prop in Hs as [Ha Hs].
  cbn [URLSearchParams.occurs]. rewrite (IH Hs), orb_false_r.
  unfold JsString.isDigit in Ha. apply andb_prop in Ha as [Ha _].
  apply N.leb_le in Ha. apply N.ltb_lt in Hc. apply N.eqb_neq. lia.
Qed.

Lemma bare_digits s : JsString.allDigits s = true -> bare s = true.
Proof.
  intros H. unfold bare. rewrite !occurs_digits by (assumption || reflexivity). reflexivity.
Qed.

Lemma bare_append a b : bare (a +:+ b) = bare a && bare b.
Proof.
  unfold bare. rewrite !occurs_append.
  destruct (URLSearchParams.occurs 44 a), (URLSearchParams.occurs 34 a),
    (URLSearchParams.occurs 10 a), (URLSearchParams.occurs 44 b),
    (URLSearchParams.occurs 34 b), (URLSearchParams.occurs 10 b); reflexivity.
Qed.

Lemma bare_fixedDigits f n : bare (fixedDigits f n) = true.
Proof.
  unfold fixedDigits.
  set (d := JsString.repeat0 (S f - String.length (digits10 n)) +:+ digits10 n).
  assert (Hd : JsString.allDigits d = true).
  { unfold d. rewrite allDigits_append, allDigits_repeat0, allDigits_digits10. reflexivity. }
  destruct f; [apply bare_digits; assumption|].
  assert (Hsub : forall i j, bare (String.substring i j d) = true).
  { intros i j. apply bare_digits, allDigits_substring. assumption. }
  rewrite !bare_append, !Hsub. reflexivity.
Qed.

Lemma bare_format s n : bare (format s n) = true.
Proof.
  unfold format, takeStr, dropStr.
  set (d := digits10 s).
  assert (Hd : bare d = true) by apply bare_digits, allDigits_digits10.
  assert (Hsub : forall i j, bare (String.substring i j d) = true).
  { intros i j. apply bare_digits, allDigits_substring, allDigits_digits10. }
  assert (Hzero : forall k, bare (JsString.repeat0 k) = true).
  { intros k. apply bare_digits, allDigits_repeat0. }
  assert (Hexp : forall z, bare (digits10 z) = true).
  { intros z. apply bare_digits, allDigits_digits10. }
  repeat match goal with
         | |- context [if ?b then _ else _] => destruct b
         end;
    rewrite ?bare_append, ?Hd, ?Hsub, ?Hzero, ?Hexp; reflexivity.
Qed.

Lemma bare_toString x : bare (JsNumber.toString x) = true.
Proof.
  destruct x as [s|s| |s m e]; cbn [JsNumber.toString]; try (destruct s; reflexivity);
    try reflexivity.
  destruct (shortest 16 (S754_finite false m e) (fraction m e) (exponent10 (fraction m e)) 1)
    as [d n].
  rewrite bare_append, bare_format. destruct s; reflexivity.
Qed.

Lemma bare_toFixed f x : bare (toFixed f x) = true.
Proof.
  destruct x as [s|s| |s m e]; unfold toFixed;
    try apply bare_toString; try apply bare_fixedDigits.
  destruct (fraction m e) as [a b].
  destruct (10 ^ 21 * b <=? a)%Z; [apply bare_toString|].
  rewrite bare_append, bare_fixedDigits. destruct s; reflexivity.
Qed.

(** *** The file *)

Lemma csvText_cells (items : list Expense) :
  csvText items
  = JsString.join newline
      (map (fun cells => JsString.join "," (map written cells))
           (headerCells :: map rowCells items)).
Proof.
  unfold csvText. cbn [map]. f_equal. f_equal.
  rewrite !map_map. apply map_ext. intros e. reflexivity.
Qed.

(** X5.  The text that [exportToCSV] writes is well-formed CSV: when no date
    and no category holds a comma, a double quote or a line feed (the two
    fields are written without quotes), a reader of CSV gets back the four
    headers and then, for every expense in order, its date, its
    description (whatever characters it holds: commas, double quotes and
    line feeds included), its category and the text of its amount. *)
Theorem exported_file_reads_back (day : string) (items : list Expense) :
  Forall (fun e => bare (date e) = true /\ bare (category e) = true) items ->
  records (blob_text (exportToCSV day items))
  = ["Date"; "Description"; "Category"; "Amount (₹)"]
    :: map (fun e => [date e; description e; category e; toFixed 2 (amount e)]) items.
Proof.
  intros Hbare. unfold records, exportToCSV. cbn [blob_text].
  rewrite csvText_cells, read_lines.
  - cbn [map]. f_equal. rewrite map_map. apply map_ext. intros e. reflexivity.
  - discriminate.
  - constructor.
    + split; [discriminate|]. repeat constructor.
    + apply List.Forall_forall. intros cells Hin.
      apply List.in_map_iff in Hin as (e & <- & He).
      rewrite List.Forall_forall in Hbare. destruct (Hbare e He) as [Hd Hc].
      split; [discriminate|].
      repeat constructor; cbn [wellFormed]; try assumption. apply bare_toFixed.
Qed.

End CsvReaderFacts.

(* ===================================================================== *)
(** * More on the create form *)
(* ===================================================================== *)

Module SubmissionFacts.
Import JsNumber Types Spec Properties.
Import ExpenseForm.

(** X6.  A submission that fails a check sends nothing and changes nothing but
    the error shown: the fields, the stored key and the submitting flag
    stay as they were.  The checks are made in the order amount,
    description, date, and the message is that of the first that fails. *)
Theorem rejected_submission_changes_only_the_error (env : SubmitEnv) (st : State) :
  (amountRejected st = true ->
     handleSubmit env st
     = (setError (Some "Please enter a valid amount greater than 0") st, []))
  /\ (amountRejected st = false ->
      JsString.truthy (JsString.trim (description st)) = false ->
      handleSubmit env st = (setError (Some "Please enter a description") st, []))
  /\ (amountRejected st = false ->
      JsString.truthy (JsString.trim (description st)) = true ->
      JsString.truthy (date st) = false ->
      handleSubmit env st = (setError (Some "Please select a date") st, []))
  /\ (snd (handleSubmit env st) = [] ->
      amountRejected st = true
      \/ JsString.truthy (JsString.trim (description st)) = false
      \/ JsString.truthy (date st) = false).
Proof.
  unfold handleSubmit. repeat split.
  - intros ->. reflexivity.
  - intros -> ->. reflexivity.
  - intros -> -> ->. reflexivity.
  - ExpenseFormFacts.validation_cases st; auto.
    destruct (outcome env); discriminate.
Qed.

(** X7.  After a create request that succeeded the form is as it was when it
    was mounted, with the date of the day: every field, the error and the
    stored key are reset.  The request is sent first, and the parent is
    told once, after it. *)
Theorem successful_submission_resets_the_form
    (env : SubmitEnv) (st : State) (created : Expense) :
  amountRejected st = false ->
  JsString.truthy (JsString.trim (description st)) = true ->
  JsString.truthy (date st) = true ->
  outcome env = Fulfilled created ->
  handleSubmit env st
  = (initialState (today env),
     [Called (Api.CreateExpense (input env st)); OnExpenseCreated]).
Proof.
  intros Ha Hd Ht Ho. unfold handleSubmit. rewrite Ha, Hd, Ht, Ho. cbn [negb].
  destruct (keyMissing (currentIdempotencyKey st)); reflexivity.
Qed.

Lemma idempotencyKey_never_empty env st : JsString.truthy (idempotencyKey env st) = true.
Proof.
  unfold idempotencyKey.
  destruct (currentIdempotencyKey st) as [k|];
    [|apply ExpenseFormFacts.generated_key_truthy].
  destruct (JsString.truthy k) eqn:E; [exact E|apply ExpenseFormFacts.generated_key_truthy].
Qed.

Lemma stored_after_failure env st :
  (if keyMissing (currentIdempotencyKey st)
   then Some (idempotencyKey env st) else currentIdempotencyKey st)
  = Some (idempotencyKey env st).
Proof.
  unfold keyMissing, idempotencyKey.
  destruct (currentIdempotencyKey st) as [k|]; [|reflexivity].
  destruct (JsString.truthy k); reflexivity.
Qed.

(** X8.  After a create request that failed the form keeps what the user typed
    and shows the message of the error; the key that was sent stays
    stored.  Submitting again without touching the form sends the very
    same request (amount, category, description, date and idempotency
    key), whatever the clock and the random source give by then. *)
Theorem failed_submission_can_be_repeated
    (env again : SubmitEnv) (st : State) (err : JsError) :
  amountRejected st = false ->
  JsString.truthy (JsString.trim (description st)) = true ->
  JsString.truthy (date st) = true ->
  outcome env = Rejected err ->
  let st' := fst (handleSubmit env st) in
  snd (handleSubmit env st) = [Called (Api.CreateExpense (input env st))]
  /\ amount st' = amount st /\ category st' = category st
  /\ description st' = description st /\ date st' = date st
  /\ isSubmitting st' = false
  /\ error st' = Some (messageOr "Failed to create expense" err)
  /\ currentIdempotencyKey st' = Some (idempotencyKey env st)
  /\ exists rest,
       snd (handleSubmit again st') = Called (Api.CreateExpense (input env st)) :: rest.
Proof.
  intros Ha Hd Ht Ho st'.
  assert (Hst : st' = setIsSubmitting false
                        (setError (Some (messageOr "Failed to create expense" err))
                           (setCurrentIdempotencyKey (Some (idempotencyKey env st)) st))).
  { unfold st', handleSubmit. rewrite Ha, Hd, Ht, Ho. cbn [negb fst].
    pose proof (stored_after_failure env st) as Hk.
    destruct (keyMissing (currentIdempotencyKey st)); [reflexivity|].
    unfold setIsSubmitting, setError, setCurrentIdempotencyKey. cbn.
    rewrite Hk. reflexivity. }
  split.
  { rewrite ExpenseFormFacts.handleSubmit_outputs, Ha, Hd, Ht, Ho. reflexivity. }
  rewrite Hst. repeat (split; [reflexivity|]).
  assert (Hin : input again (setIsSubmitting false
                   (setError (Some (messageOr "Failed to create expense" err))
                      (setCurrentIdempotencyKey (Some (idempotencyKey env st)) st)))
                = input env st).
  { unfold input, amountNum, idempotencyKey at 1. cbn.
    rewrite (idempotencyKey_never_empty env st). reflexivity. }
  rewrite <- Hin.
  apply ExpenseFormFacts.handleSubmit_amount_accepted; assumption.
Qed.

(** ** What is sent, over every sequence of events *)

Lemma step_wellFormed st ev :
  In (category st) CATEGORIES ->
  Forall (fun a => wellFormedRequest (sent a)) (attemptsOf ev (snd (step st ev))).
Proof.
  intros Hc. unfold step.
  destruct (isSubmitting st); [destruct ev; constructor|].
  destruct ev as [v|index|v|v|env]; try constructor.
  cbn [attemptsOf]. rewrite ExpenseFormFacts.handleSubmit_outputs.
  destruct (amountRejected st) eqn:Ha; [constructor|].
  destruct (JsString.truthy (JsString.trim (description st))) eqn:Hd; [|constructor].
  destruct (JsString.truthy (date st)) eqn:Ht; [|constructor].
  cbn [orb negb].
  assert (Hw : wellFormedRequest (input env st)).
  { unfold wellFormedRequest, input. cbn.
    unfold amountRejected in Ha. apply orb_false_elim in Ha as [Hn Hl].
    repeat split; try assumption.
    exists (idempotencyKey env st). split; [reflexivity|apply idempotencyKey_never_empty]. }
  destruct (outcome env); cbn [omap option_bind app]; (constructor; [exact Hw|constructor]).
Qed.

Lemma run_wellFormed events : forall st,
  In (category st) CATEGORIES ->
  Forall (fun a => wellFormedRequest (sent a)) (snd (run st events)).
Proof.
  induction events as [|ev rest IH]; intros st Hc; [constructor|].
  rewrite ExpenseFormFacts.run_cons. cbn [snd].
  apply Forall_app. split.
  - apply step_wellFormed. exact Hc.
  - apply IH. apply FormsFacts.step_category. exact Hc.
Qed.

(** X9.  Whatever the user does with the form from its mount on, every create
    request it sends carries an amount that is a number greater than zero,
    a description and a date that are not empty, a category of the
    enumeration and an idempotency key that is not empty. *)
Theorem every_request_sent_is_well_formed (day : string) (events : list Event) :
  Forall (fun a => wellFormedRequest (sent a)) (snd (run (initialState day) events)).
Proof.
  apply run_wellFormed. left. reflexivity.
Qed.

End SubmissionFacts.

(* ===================================================================== *)
(** * More on numbers: the order, and sums and differences *)
(* ===================================================================== *)

Module OrderFacts.
Import JsNumber NumberFacts Properties.
Local Open Scope Z_scope.

Lemma compare_refl x : isNaN x = false -> SFcompare x x = Some Eq.
Proof.
  destruct x as [s|s| |s m e]; cbn; try discriminate; intros _.
  - reflexivity.
  - destruct s; reflexivity.
  - rewrite Z.compare_refl, Pos.compare_cont_refl. destruct s; reflexivity.
Qed.

Lemma compare_antisym x y :
  isNaN x = false -> isNaN y = false ->
  SFcompare y x = option_map CompOpp (SFcompare x y).
Proof.
  destruct x as [sx|sx| |sx mx ex], y as [sy|sy| |sy my ey]; cbn;
    try discriminate; intros _ _;
    try (destruct sx; reflexivity); try (destruct sy; reflexivity);
    try (destruct sx, sy; reflexivity).
  assert (Hm : Pos.compare_cont Eq my mx = CompOpp (Pos.compare_cont Eq mx my)).
  { symmetry. apply (Pos.compare_cont_antisym mx my Eq). }
  rewrite Hm, (Z.compare_antisym ex ey).
  destruct sx, sy; try reflexivity;
    destruct (ex ?= ey); cbn; rewrite ?CompOpp_involutive; reflexivity.
Qed.

Lemma leb_refl x : isNaN x = false -> leb x x = true.
Proof. intros H. unfold leb, SFleb. rewrite (compare_refl x H). reflexivity. Qed.

(** Of two numbers one is at most the other. *)
Lemma leb_total x y :
  isNaN x = false -> isNaN y = false -> leb x y = false -> leb y x = true.
Proof.
  intros Hx Hy. unfold leb, SFleb. rewrite (compare_antisym x y Hx Hy).
  assert (Hc : exists c, SFcompare x y = Some c).
  { destruct x, y; try discriminate; cbn; eauto. }
  destruct Hc as [c ->]. destruct c; cbn; congruence.
Qed.

Lemma leb_rank x y :
  isNaN x = false -> isNaN y = false -> (leb x y = true <-> rankLe (rank x) (rank y)).
Proof.
  unfold leb, SFleb, rankLe.
  destruct x as [sx|sx| |sx mx ex], y as [sy|sy| |sy my ey]; try discriminate; intros _ _;
    cbn [SFcompare rank];
    try (destruct sx; cbn; split; intros; try discriminate; try reflexivity; lia);
    try (destruct sy; cbn; split; intros; try discriminate; try reflexivity; lia);
    try (destruct sx, sy; cbn; split; intros; try discriminate; try reflexivity; lia).
  change (Pos.compare_cont Eq mx my) with (Pos.compare mx my).
  destruct sx, sy; cbn [fst snd];
    try (split; intros; try discriminate; try reflexivity; lia);
    destruct (Z.compare_spec ex ey); destruct (Pos.compare_spec mx my); cbn;
    split; intros; try discriminate; try reflexivity; lia.
Qed.

Lemma leb_not_nan x y : leb x y = true -> isNaN x = false /\ isNaN y = false.
Proof. destruct x, y; cbn; try discriminate; auto. Qed.

Lemma leb_trans x y z : leb x y = true -> leb y z = true -> leb x z = true.
Proof.
  intros Hxy Hyz.
  destruct (leb_not_nan x y Hxy) as [Hx Hy]. destruct (leb_not_nan y z Hyz) as [_ Hz].
  apply (leb_rank x y Hx Hy) in Hxy. apply (leb_rank y z Hy Hz) in Hyz.
  apply (leb_rank x z Hx Hz). unfold rankLe in *. lia.
Qed.

Lemma rounded_not_nan x : roundedShape x -> isNaN x = false.
Proof. destruct x; cbn; tauto. Qed.

(** The sum and the difference of two finite numbers are not [NaN]. *)
Lemma add_not_nan x y : termShape x -> termShape y -> isNaN (add x y) = false.
Proof.
  destruct x as [sx|sx| |sx mx ex], y as [sy|sy| |sy my ey]; cbn; try tauto.
  - intros _ _. destruct sx, sy; reflexivity.
  - intros Hx Hy. unfold add, SFadd, binary_normalize.
    destruct (cond_Zopp sx (Zpos (fst (shl_align mx ex (Z.min ex ey))))
              + cond_Zopp sy (Zpos (fst (shl_align my ey (Z.min ex ey))))) as [|p|p].
    + reflexivity.
    + apply rounded_not_nan, binary_round_shape. lia.
    + apply rounded_not_nan, binary_round_shape. lia.
Qed.

Lemma sub_not_nan x y : termShape x -> termShape y -> isNaN (JsMath.sub x y) = false.
Proof.
  destruct x as [sx|sx| |sx mx ex], y as [sy|sy| |sy my ey]; cbn; try tauto.
  - intros _ _. destruct sx, sy; reflexivity.
  - intros Hx Hy. unfold JsMath.sub, SFsub, binary_normalize.
    destruct (cond_Zopp sx (Zpos (fst (shl_align mx ex (Z.min ex ey))))
              - cond_Zopp sy (Zpos (fst (shl_align my ey (Z.min ex ey))))) as [|p|p].
    + reflexivity.
    + apply rounded_not_nan, binary_round_shape. lia.
    + apply rounded_not_nan, binary_round_shape. lia.
Qed.

Lemma one_value : JsMath.one = S754_finite false 4503599627370496 (-52).
Proof. vm_compute. reflexivity. Qed.

Lemma one_termShape : termShape JsMath.one.
Proof. rewrite one_value. cbn. unfold emin, emax, prec. lia. Qed.

Lemma max_cases x y :
  isNaN x = false -> isNaN y = false ->
  (exists sx sy, x = S754_zero sx /\ y = S754_zero sy
                 /\ JsMath.max x y = S754_zero (sx && sy))
  \/ JsMath.max x y = (if leb x y then y else x).
Proof.
  destruct x, y; try discriminate; intros _ _;
    try (right; reflexivity). left. eauto.
Qed.

Lemma min_cases x y :
  isNaN x = false -> isNaN y = false ->
  (exists sx sy, x = S754_zero sx /\ y = S754_zero sy
                 /\ JsMath.min x y = S754_zero (sx || sy))
  \/ JsMath.min x y = (if leb x y then x else y).
Proof.
  destruct x, y; try discriminate; intros _ _;
    try (right; reflexivity). left. eauto.
Qed.

(** [Math.max(x, y)] is at least [x] and at least [y], and
    [Math.min(x, y)] is at most [x]. *)
Lemma max_ge_left x y :
  isNaN x = false -> isNaN y = false -> leb x (JsMath.max x y) = true.
Proof.
  intros Hx Hy.
  destruct (max_cases x y Hx Hy) as [(sx & sy & -> & -> & ->)| ->]; [reflexivity|].
  destruct (leb x y) eqn:E; [exact E|apply leb_refl; exact Hx].
Qed.

Lemma max_ge_right x y :
  isNaN x = false -> isNaN y = false -> leb y (JsMath.max x y) = true.
Proof.
  intros Hx Hy.
  destruct (max_cases x y Hx Hy) as [(sx & sy & -> & -> & ->)| ->]; [reflexivity|].
  destruct (leb x y) eqn:E; [apply leb_refl; exact Hy|apply leb_total; assumption].
Qed.

Lemma min_le_left x y :
  isNaN x = false -> isNaN y = false -> leb (JsMath.min x y) x = true.
Proof.
  intros Hx Hy.
  destruct (min_cases x y Hx Hy) as [(sx & sy & -> & -> & ->)| ->]; [reflexivity|].
  destruct (leb x y) eqn:E; [apply leb_refl; exact Hx|apply leb_total; assumption].
Qed.

Lemma max_not_nan x y : isNaN x = false -> isNaN y = false -> isNaN (JsMath.max x y) = false.
Proof.
  unfold JsMath.max.
  destruct x, y; try discriminate; try reflexivity; intros _ _;
    destruct (leb _ _); reflexivity.
Qed.

End OrderFacts.

(* ===================================================================== *)
(** * More on the expense list *)
(* ===================================================================== *)

Module ListViewFacts.
Import JsNumber Types Spec NumberFacts OrderFacts.
Import ExpenseList ExpenseListView.

(** ** The page buttons *)

(** X10.  For a finite page number, the Previous button never leads below page
    1 and leaves page 1 where it is, and the Next button never leads
    beyond the last page. *)
Theorem page_buttons_stay_in_range (st : State) :
  isFinite (currentPage st) = true ->
  leb JsMath.one (currentPage (previousPage st)) = true
  /\ (currentPage st = JsMath.one -> currentPage (previousPage st) = JsMath.one)
  /\ (isNaN (totalPages st) = false ->
      leb (currentPage (nextPage st)) (totalPages st) = true).
Proof.
  intros Hp. apply isFinite_termShape in Hp.
  split; [|split].
  - cbn [previousPage setCurrentPage currentPage].
    apply max_ge_left; [reflexivity|].
    apply sub_not_nan; [exact Hp|exact one_termShape].
  - intros H. cbn [previousPage setCurrentPage currentPage]. rewrite H.
    vm_compute. reflexivity.
  - intros Ht. cbn [nextPage setCurrentPage currentPage].
    apply min_le_left; [exact Ht|].
    apply add_not_nan; [exact Hp|exact one_termShape].
Qed.

(** ** The summary by category *)

Lemma entry_present (items : list Expense) : forall x : number,
  is_Some (fold_left (fun entry expense => Some (add (orZero entry) (amount expense)))
             items (Some x)).
Proof. induction items as [|e items IH]; intros x; cbn [fold_left]; eauto. Qed.

Lemma ofCategory_nil c (items : list Expense) :
  ofCategory c items = [] <-> ~ In c (map category items).
Proof.
  unfold ofCategory. induction items as [|e items IH]; cbn [List.filter map In]; [tauto|].
  destruct (String.eqb_spec (category e) c) as [E|E].
  - split; [discriminate|]. intros H. contradiction H. left. exact E.
  - rewrite IH. tauto.
Qed.

Lemma categoryTotals_present st c :
  is_Some (categoryTotals st !! c) <-> In c (map category (expenses st)).
Proof.
  unfold categoryTotals.
  rewrite ExpenseListFacts.categoryTotals_lookup, lookup_empty.
  pose proof (ofCategory_nil c (expenses st)) as Hnil.
  destruct (ofCategory c (expenses st)) as [|e items].
  - cbn [fold_left]. split; [intros [x Hx]; discriminate Hx|].
    intros H. exfalso. apply (proj1 Hnil); [reflexivity|exact H].
  - cbn [fold_left]. split; [|intros _; apply entry_present].
    intros _. destruct (in_dec String.string_dec c (map category (expenses st))) as [H|H];
      [exact H|]. apply Hnil in H. discriminate H.
Qed.

(** X11.  The summary has an entry for exactly the categories that occur on the
    page shown, whatever the amounts are; so it is empty only when the
    page is, it has at most eight entries, and the third condition of the
    breakdown, that the summary has a key, follows from the second, that
    there are expenses.  (The categories are those of the enumeration,
    for which the own properties of the object are all it has.) *)
Theorem summary_has_the_categories_of_the_page (st : State) :
  Forall (fun e => In (category e) CATEGORIES) (expenses st) ->
  (forall c, is_Some (categoryTotals st !! c) <-> In c (map category (expenses st)))
  /\ (categoryTotals st = ∅ <-> expenses st = [])
  /\ size (categoryTotals st) <= 8
  /\ breakdownShown st
     = negb (JsString.truthy (categoryFilter st)) && (0 <? length (expenses st)).
Proof.
  intros Hcat.
  assert (Hempty : categoryTotals st = ∅ <-> expenses st = []).
  { split.
    - intros Hm. destruct (expenses st) as [|e items] eqn:E; [reflexivity|].
      assert (H : is_Some (categoryTotals st !! category e)).
      { apply categoryTotals_present. rewrite E. left. reflexivity. }
      rewrite Hm, lookup_empty in H. destruct H as [x Hx]. discriminate Hx.
    - intros E. unfold categoryTotals. rewrite E. reflexivity. }
  split; [exact (categoryTotals_present st)|]. split; [exact Hempty|]. split.
  - assert (Hsub : dom (categoryTotals st) ⊆ (list_to_set CATEGORIES : gset string)).
    { intros c Hc. apply elem_of_dom in Hc. apply categoryTotals_present in Hc.
      apply elem_of_list_to_set. apply list_elem_of_In.
      apply List.in_map_iff in Hc as (e & <- & He).
      rewrite List.Forall_forall in Hcat. apply Hcat. exact He. }
    apply subseteq_size in Hsub. rewrite size_dom in Hsub.
    etransitivity; [exact Hsub|].
    rewrite size_list_to_set; [reflexivity|].
    apply (bool_decide_unpack _). vm_compute. exact I.
  - unfold breakdownShown.
    destruct (expenses st) as [|e items] eqn:E; [rewrite !andb_false_r; reflexivity|].
    assert (Hne : categoryTotals st <> ∅).
    { intros Hm. apply Hempty in Hm. discriminate Hm. }
    assert (Hsize : size (categoryTotals st) <> 0).
    { intros Hs. apply Hne. apply map_size_empty_iff. exact Hs. }
    destruct (Nat.ltb_spec 0 (size (categoryTotals st))) as [_|Hle]; [|lia].
    rewrite andb_true_r. reflexivity.
Qed.

Lemma fold_add_sumShape (terms : list number) : forall x,
  sumShape x -> Forall termShape terms -> sumShape (fold_left add terms x).
Proof.
  induction terms as [|t terms IH]; intros x Hx Hall; [exact Hx|].
  inversion Hall as [|? ? Ht Hrest]; subst. cbn [fold_left].
  apply IH; [apply add_sumShape; assumption|assumption].
Qed.

Lemma sumShape_not_nan x : sumShape x -> isNaN x = false.
Proof. destruct x; cbn; tauto. Qed.

Lemma sumOfAmounts_sumShape (items : list Expense) :
  Forall (fun e => termShape (amount e)) items -> sumShape (sumOfAmounts items).
Proof.
  intros H. unfold sumOfAmounts. apply fold_add_sumShape; [reflexivity|].
  apply List.Forall_forall. intros t Ht. apply List.in_map_iff in Ht as (e & <- & He).
  rewrite List.Forall_forall in H. apply H. exact He.
Qed.

(** X12.  When the amounts of the page are finite numbers, neither the total
    nor an entry of the summary is [NaN], and none is the negative zero.
    (The categories are those of the enumeration.) *)
Theorem totals_are_numbers (st : State) :
  Forall (fun e => isFinite (amount e) = true) (expenses st) ->
  Forall (fun e => In (category e) CATEGORIES) (expenses st) ->
  (isNaN (total st) = false /\ total st <> S754_zero true)
  /\ forall c x, categoryTotals st !! c = Some x -> isNaN x = false /\ x <> S754_zero true.
Proof.
  intros Hfinite _.
  assert (Hshape : forall x, sumShape x -> isNaN x = false /\ x <> S754_zero true).
  { intros x Hx. split; [apply sumShape_not_nan; exact Hx|].
    intros ->. discriminate Hx. }
  split.
  - apply Hshape. unfold total. rewrite ExpenseListFacts.total_fold.
    apply fold_add_sumShape; [reflexivity|].
    apply List.Forall_forall. intros t Ht. apply List.in_map_iff in Ht as (e & <- & He).
    apply isFinite_termShape. rewrite List.Forall_forall in Hfinite. apply Hfinite. exact He.
  - intros c x Hx. apply Hshape. unfold categoryTotals in Hx.
    rewrite ExpenseListFacts.categoryTotals_lookup, lookup_empty in Hx.
    pose proof (ExpenseListFacts.ofCategory_finite c (expenses st) Hfinite) as Hterms.
    rewrite (ExpenseListFacts.entry_is_sum _ Hterms) in Hx.
    destruct (ofCategory c (expenses st)) as [|e items] eqn:E; [discriminate Hx|].
    injection Hx as <-. apply sumOfAmounts_sumShape. exact Hterms.
Qed.

End ListViewFacts.

Module ListHandlerFacts.
Import JsNumber Types Spec NumberFacts OrderFacts.
Import ExpenseList ExpenseListView.

(** ** Deleting *)

Lemma fetchExpenses_deletingId result st :
  deletingId (fst (fetchExpenses result st)) = deletingId st.
Proof. destruct result; reflexivity. Qed.

Lemma fetchExpenses_calls result st :
  snd (fetchExpenses result st) = [Api.GetExpenses (Some (fetchParams st))].
Proof. destruct result; reflexivity. Qed.

Lemma isDeleting_true st id : isDeleting st id = true <-> deletingId st = Some id.
Proof.
  unfold isDeleting. destruct (deletingId st) as [d|]; [|split; discriminate].
  destruct (String.eqb_spec d id) as [->|Hne]; split; intros H; congruence.
Qed.

(** X14.  A click that confirms calls [deleteExpense] once, for the expense of
    the button; nothing awaits confirmation afterwards, whether the call
    succeeded or not; after a success the list is fetched again for the
    view, after a failure the message is set and the list is not
    fetched. *)
Theorem confirmed_delete_outcomes
    (id : string) (deleted : Settled unit) (refetched : Settled (PaginatedResponse Expense))
    (st : State) :
  deletingId st = Some id ->
  let result := handleDeleteClick id deleted refetched st in
  deletingId (fst result) = None
  /\ match deleted with
     | Fulfilled _ =>
         snd result = [Api.DeleteExpense id; Api.GetExpenses (Some (fetchParams st))]
     | Rejected err =>
         snd result = [Api.DeleteExpense id]
         /\ error (fst result) = Some (messageOr "Failed to delete expense" err)
         /\ expenses (fst result) = expenses st
     end.
Proof.
  intros Hd result. unfold result, handleDeleteClick.
  rewrite (proj2 (isDeleting_true st id) Hd).
  destruct deleted as [u|err].
  - pose proof (fetchExpenses_calls refetched (setDeletingId None st)) as Hc.
    pose proof (fetchExpenses_deletingId refetched (setDeletingId None st)) as Hn.
    destruct (fetchExpenses refetched (setDeletingId None st)) as [st' calls].
    cbn [fst snd] in *. subst calls. split; [exact Hn|reflexivity].
  - repeat split.
Qed.

(** ** Editing *)


(** X16.  Opening the edit modal on an expense and saving without a change sends,
    if anything, an update for that expense with its category and its date
    as they are, its description trimmed, and as the amount the number
    read back from the text of its amount. *)
Theorem edit_without_changes
    (expense : Expense) (updated : Settled Expense)
    (refetched : Settled (PaginatedResponse Expense)) (st : State) :
  let opened := handleEditClick expense st in
  editModalShown opened = true
  /\ forall target input,
       In (Api.UpdateExpense target input) (snd (handleEditSubmit updated refetched opened)) ->
       target = id expense
       /\ input_category input = category expense
       /\ input_date input = date expense
       /\ input_description input = JsString.trim (description expense)
       /\ input_amount input = parseFloat (JsNumber.toString (amount expense))
       /\ idempotency_key input = None.
Proof.
  intros opened. split; [reflexivity|].
  intros target input. unfold opened, handleEditSubmit, handleEditClick.
  cbn [editingExpense setEditForm setEditing editForm edit_amount edit_category
       edit_description edit_date].
  destruct (isNaN _ || leb _ zero); [intros []|].
  destruct updated as [v|err].
  - destruct refetched; cbn [snd In]; intros [H|[H|[]]]; try discriminate H;
      injection H as <- <-; repeat split.
  - cbn [snd In]. intros [H|[]]. injection H as <- <-. repeat split.
Qed.

(** ** Failures and what is shown *)


(** ** The list request of the view *)

(** X18.  The query of the request that [fetchExpenses] makes, parsed the way
    the receiving end parses it: the category filter when it is not empty,
    the sort order, the current page (left out only if it were [0] or
    [NaN]) and the limit, which is always 10. *)
Theorem list_request_reads_back
    (result : Settled (PaginatedResponse Expense)) (st : State) :
  exists params,
    snd (fetchExpenses result st) = [Api.GetExpenses params]
    /\ FormUrlencoded.parse (URLSearchParams.queryOf (Api.endpointOf (Api.GetExpenses params)))
       = (if JsString.truthy (categoryFilter st) then [("category", categoryFilter st)] else [])
         ++ [("sort", sortString (sortOrder st))]
         ++ (if JsNumber.truthy (currentPage st)
             then [("page", JsNumber.toString (currentPage st))] else [])
         ++ [("limit", "10")].
Proof.
  exists (Some (fetchParams st)). split; [apply fetchExpenses_calls|].
  cbn [Api.endpointOf]. rewrite ClientFacts.parse_expensesEndpoint.
  apply ExpenseListFacts.searchParams_fetch.
Qed.

(** X19.  After the category filter or the sort order has changed and the
    effect that follows has run, the view is on page 1: a list request
    made from then on asks for the new filter and sort order and for
    page 1. *)
Theorem changing_the_filter_asks_for_the_first_page
    (result : Settled (PaginatedResponse Expense)) (st : State) :
  (forall v,
     currentPage (changeCategoryFilter v st) = JsMath.one
     /\ FormUrlencoded.parse
          (URLSearchParams.queryOf
             (Api.expensesEndpoint (Some (fetchParams (changeCategoryFilter v st)))))
        = (if JsString.truthy v then [("category", v)] else [])
          ++ [("sort", sortString (sortOrder st)); ("page", "1"); ("limit", "10")])
  /\ (forall o,
        currentPage (changeSortOrder o st) = JsMath.one
        /\ FormUrlencoded.parse
             (URLSearchParams.queryOf
                (Api.expensesEndpoint (Some (fetchParams (changeSortOrder o st)))))
           = (if JsString.truthy (categoryFilter st)
              then [("category", categoryFilter st)] else [])
             ++ [("sort", sortString o); ("page", "1"); ("limit", "10")]).
Proof.
  split.
  - intros v. split; [reflexivity|].
    rewrite ClientFacts.parse_expensesEndpoint, ExpenseListFacts.searchParams_fetch.
    reflexivity.
  - intros o. split; [reflexivity|].
    rewrite ClientFacts.parse_expensesEndpoint, ExpenseListFacts.searchParams_fetch.
    reflexivity.
Qed.

End ListHandlerFacts.

(* ===================================================================== *)
(** * The page *)
(* ===================================================================== *)

Module HomeFacts.
Import JsNumber Types Properties.
Import Home.

Lemma step_outputs f ev :
  snd (ExpenseForm.step f ev) = []
  \/ (exists i, snd (ExpenseForm.step f ev) = [ExpenseForm.Called (Api.CreateExpense i)])
  \/ (exists i, snd (ExpenseForm.step f ev)
                = [ExpenseForm.Called (Api.CreateExpense i); ExpenseForm.OnExpenseCreated]).
Proof.
  unfold ExpenseForm.step. destruct (ExpenseForm.isSubmitting f); [left; reflexivity|].
  destruct ev as [v|index|v|v|env]; try (left; reflexivity).
  - destruct (ExpenseForm.formCategoryOptions !! index); left; reflexivity.
  - rewrite ExpenseFormFacts.handleSubmit_outputs.
    destruct (_ || _ || _); [left; reflexivity|].
    destruct (ExpenseForm.outcome env); [right; right|right; left]; eauto.
Qed.

(** X20.  A create request that succeeded hides the form, whose state is
    dropped, and adds one to the refresh trigger; any other event on the
    form leaves the page as it is and the form rendered. *)
Theorem created_expense_hides_the_form (p : Page) (f : ExpenseForm.State)
    (ev : ExpenseForm.Event) :
  form p = Some f ->
  formRendered (home p) = true ->
  let after := fst (step p (OnForm ev)) in
  (In ExpenseForm.OnExpenseCreated (snd (ExpenseForm.step f ev)) ->
     form after = None
     /\ formRendered (home after) = false
     /\ refreshTrigger (home after) = add (refreshTrigger (home p)) JsMath.one
     /\ activeTab (home after) = activeTab (home p))
  /\ (~ In ExpenseForm.OnExpenseCreated (snd (ExpenseForm.step f ev)) ->
      home after = home p /\ form after = Some (fst (ExpenseForm.step f ev))).
Proof.
  intros Hf Hr after. unfold after, step. rewrite Hf.
  destruct (step_outputs f ev) as [H|[[i H]|[i H]]];
    destruct (ExpenseForm.step f ev) as [f' outputs]; cbn [snd fst] in *; subst outputs;
    cbn [notify fold_left].
  - rewrite Hr. split; [intros []|]. intros _. split; reflexivity.
  - rewrite Hr. split; [intros [H|[]]; discriminate H|]. intros _. split; reflexivity.
  - split.
    + intros _. unfold formRendered, handleExpenseCreated. cbn.
      rewrite andb_false_r. repeat split.
    + intros H. contradiction H. right. left. reflexivity.
Qed.

Lemma render_withoutKey today h p : withoutKey p -> withoutKey (render today h p).
Proof.
  unfold withoutKey, render. cbn [form].
  destruct (formRendered h); [|auto].
  destruct (form p); auto.
Qed.

Lemma keyInvariant_without f :
  ExpenseForm.currentIdempotencyKey f = None -> ExpenseForm.keyInvariant f.
Proof. intros H _. exact H. Qed.

Lemma step_withoutKey p ev :
  withoutKey p ->
  (snd (step p ev) = [] /\ withoutKey (fst (step p ev)))
  \/ exists a,
       snd (step p ev) = [a]
       /\ ExpenseForm.key a
          = Some (Api.generateIdempotencyKey (ExpenseForm.now (ExpenseForm.env_of a))
                    (ExpenseForm.random36 (ExpenseForm.env_of a))).
Proof.
  intros Hp. destruct ev as [today|tab today|ev]; cbn [step].
  - left. destruct (addButtonRendered (home p)); cbn [fst snd];
      (split; [reflexivity|]); [apply render_withoutKey|]; exact Hp.
  - left. split; [reflexivity|]. apply render_withoutKey. exact Hp.
  - unfold withoutKey in Hp. destruct (form p) as [f|] eqn:Hf.
    + destruct (ExpenseFormFacts.step_attempt f ev (keyInvariant_without f Hp))
        as [_ [[Hnone Hsame]|(a & Hone & Hkey & _)]];
        destruct (ExpenseForm.step f ev) as [f' outputs]; cbn [fst snd] in *.
      * left. split; [exact Hnone|]. unfold withoutKey. cbn [form].
        destruct (formRendered _); [congruence|exact I].
      * right. exists a. split; [exact Hone|]. rewrite Hkey, Hp. reflexivity.
    + left. split; [reflexivity|]. cbn [fst]. unfold withoutKey. rewrite Hf. exact I.
Qed.

Lemma page_run_cons p ev rest :
  run p (ev :: rest)
  = (fst (run (fst (step p ev)) rest), snd (step p ev) ++ snd (run (fst (step p ev)) rest)).
Proof.
  cbn [run]. destruct (step p ev) as [p' sent]. cbn [fst snd].
  destruct (run p' rest) as [final later]. reflexivity.
Qed.

Lemma run_withoutKey events : forall p a rest,
  withoutKey p ->
  snd (run p events) = a :: rest ->
  ExpenseForm.key a
  = Some (Api.generateIdempotencyKey (ExpenseForm.now (ExpenseForm.env_of a))
            (ExpenseForm.random36 (ExpenseForm.env_of a))).
Proof.
  induction events as [|ev events IH]; intros p a rest Hp Hlog; [discriminate Hlog|].
  rewrite page_run_cons in Hlog. cbn [snd] in Hlog.
  destruct (step_withoutKey p ev Hp) as [[Hnone Hp']|(b & Hone & Hkey)].
  - rewrite Hnone in Hlog. cbn [app] in Hlog. eapply IH; eassumption.
  - rewrite Hone in Hlog. cbn [app] in Hlog. injection Hlog as <- _. exact Hkey.
Qed.

(** X21.  The idempotency key lives in the form, and the form lives only while
    it is rendered.  A click on the button that hides the form, or a
    change to the charts, drops the state of the form; and whatever
    happens from a page that holds no form, the first create request sent
    afterwards carries a key generated at its own submission: the key of
    a request that failed before the form was hidden is not sent again. *)
Theorem reopened_form_sends_a_new_key (p : Page) :
  (forall today, formRendered (home p) = true ->
                 form (fst (step p (ClickAddExpense today))) = None)
  /\ (forall today, form (fst (step p (ClickTab charts today))) = None)
  /\ (form p = None ->
      forall events a rest,
        snd (run p events) = a :: rest ->
        ExpenseForm.key a
        = Some (Api.generateIdempotencyKey (ExpenseForm.now (ExpenseForm.env_of a))
                  (ExpenseForm.random36 (ExpenseForm.env_of a)))).
Proof.
  split; [|split].
  - intros today Hr. unfold formRendered in Hr. apply andb_prop in Hr as [Ha Hs].
    cbn [step]. rewrite Ha. cbn [fst render form]. unfold formRendered, toggleForm.
    cbn. rewrite Hs, andb_false_r. reflexivity.
  - intros today. reflexivity.
  - intros Hf events a rest. apply run_withoutKey. unfold withoutKey. rewrite Hf. exact I.
Qed.

End HomeFacts.

(* ===================================================================== *)
(** * The charts *)
(* ===================================================================== *)

Module SpendingChartsFacts.
Import JsNumber NumberFacts OrderFacts.
Import SpendingCharts.
Local Open Scope Z_scope.

(** X22.  The six latest months are shown, in the order of the statistics: all
    of them when there are at most six, and otherwise the last six. *)
Theorem last_six_months_are_shown (s : Stats) :
  length (monthsShown s) = Nat.min 6 (length (monthly s))
  /\ (exists earlier, monthly s = earlier ++ monthsShown s
                      /\ length earlier = (length (monthly s) - 6)%nat)
  /\ ((length (monthly s) <= 6)%nat -> monthsShown s = monthly s).
Proof.
  unfold monthsShown. split; [|split].
  - rewrite length_drop. lia.
  - exists (take (length (monthly s) - 6) (monthly s)). split.
    + symmetry. apply take_drop.
    + rewrite length_take. lia.
  - intros H. replace (length (monthly s) - 6)%nat with 0%nat by lia. reflexivity.
Qed.

(** ** The scale of the bars *)

Lemma fold_max_not_nan (l : list number) : forall acc,
  isNaN acc = false -> Forall (fun x => isNaN x = false) l ->
  isNaN (fold_left JsMath.max l acc) = false.
Proof.
  induction l as [|x l IH]; intros acc Hacc Hall; [exact Hacc|].
  inversion Hall as [|? ? Hx Hrest]; subst. cbn [fold_left].
  apply IH; [apply max_not_nan; assumption|assumption].
Qed.

Lemma fold_max_ge_acc (l : list number) : forall acc,
  isNaN acc = false -> Forall (fun x => isNaN x = false) l ->
  leb acc (fold_left JsMath.max l acc) = true.
Proof.
  induction l as [|x l IH]; intros acc Hacc Hall; [apply leb_refl; exact Hacc|].
  inversion Hall as [|? ? Hx Hrest]; subst. cbn [fold_left].
  eapply leb_trans; [apply (max_ge_left acc x); assumption|].
  apply IH; [apply max_not_nan; assumption|assumption].
Qed.

Lemma fold_max_ge_elem (l : list number) : forall acc x,
  isNaN acc = false -> Forall (fun x => isNaN x = false) l -> In x l ->
  leb x (fold_left JsMath.max l acc) = true.
Proof.
  induction l as [|y l IH]; intros acc x Hacc Hall Hin; [destruct Hin|].
  inversion Hall as [|? ? Hy Hrest]; subst. cbn [fold_left].
  destruct Hin as [->|Hin].
  - eapply leb_trans; [apply (max_ge_right acc x); assumption|].
    apply fold_max_ge_acc; [apply max_not_nan; assumption|assumption].
  - apply IH; [apply max_not_nan; assumption|assumption|assumption].
Qed.

Lemma one_not_nan : isNaN JsMath.one = false.
Proof. reflexivity. Qed.

Lemma maxOf_with_one (totals : list number) :
  Forall (fun x => isNaN x = false) totals ->
  isNaN (JsMath.maxOf (totals ++ [JsMath.one])) = false
  /\ leb JsMath.one (JsMath.maxOf (totals ++ [JsMath.one])) = true
  /\ Forall (fun x => leb x (JsMath.maxOf (totals ++ [JsMath.one])) = true) totals.
Proof.
  intros Hall.
  assert (Hall' : Forall (fun x => isNaN x = false) (totals ++ [JsMath.one])).
  { apply Forall_app. split; [exact Hall|]. constructor; [reflexivity|constructor]. }
  unfold JsMath.maxOf. split; [|split].
  - apply fold_max_not_nan; [reflexivity|exact Hall'].
  - apply fold_max_ge_elem; [reflexivity|exact Hall'|].
    apply in_or_app. right. left. reflexivity.
  - apply List.Forall_forall. intros x Hx.
    apply fold_max_ge_elem; [reflexivity|exact Hall'|].
    apply in_or_app. left. exact Hx.
Qed.

Lemma Forall_map_total {A} (f : A -> number) (P : number -> Prop) (l : list A) :
  Forall (fun a => P (f a)) l -> Forall P (map f l).
Proof. intros H. apply List.Forall_map. exact H. Qed.

Lemma bars_scale (s : Stats) :
  (Forall (fun m => isNaN (monthly_total m) = false) (monthly s) ->
     isNaN (maxMonthly s) = false
     /\ leb JsMath.one (maxMonthly s) = true
     /\ truthy (maxMonthly s) = true
     /\ Forall (fun m => leb (monthly_total m) (maxMonthly s) = true) (monthly s))
  /\ (Forall (fun c => isNaN (category_total c) = false) (categories s) ->
      isNaN (maxCategory s) = false
      /\ leb JsMath.one (maxCategory s) = true
      /\ truthy (maxCategory s) = true
      /\ Forall (fun c => leb (category_total c) (maxCategory s) = true) (categories s)).
Proof.
  assert (Htruthy : forall x, leb JsMath.one x = true -> truthy x = true).
  { intros x. rewrite one_value. destruct x as [sx|sx| |sx mx ex]; cbn; try discriminate; auto. }
  split; intros Hall.
  - destruct (maxOf_with_one (map monthly_total (monthly s))) as (Hnan & Hone & Hge).
    { apply List.Forall_map. exact Hall. }
    fold (maxMonthly s) in Hnan, Hone, Hge.
    split; [exact Hnan|]. split; [exact Hone|]. split; [apply Htruthy; exact Hone|].
    apply List.Forall_map in Hge. exact Hge.
  - destruct (maxOf_with_one (map category_total (categories s))) as (Hnan & Hone & Hge).
    { apply List.Forall_map. exact Hall. }
    fold (maxCategory s) in Hnan, Hone, Hge.
    split; [exact Hnan|]. split; [exact Hone|]. split; [apply Htruthy; exact Hone|].
    apply List.Forall_map in Hge. exact Hge.
Qed.

(** X23.  The totals of the months and of the categories are divided by a
    number that is at least 1 and at least every total, when no total is
    [NaN]: the divisor is never zero, and it is 1 when there is no total
    at all. *)
Theorem bars_are_scaled_by_the_largest_total (s : Stats) :
  (Forall (fun m => isNaN (monthly_total m) = false) (monthly s) ->
     leb JsMath.one (maxMonthly s) = true
     /\ truthy (maxMonthly s) = true
     /\ Forall (fun m => leb (monthly_total m) (maxMonthly s) = true) (monthly s))
  /\ (Forall (fun c => isNaN (category_total c) = false) (categories s) ->
      leb JsMath.one (maxCategory s) = true
      /\ truthy (maxCategory s) = true
      /\ Forall (fun c => leb (category_total c) (maxCategory s) = true) (categories s))
  /\ (monthly s = [] -> maxMonthly s = JsMath.one)
  /\ (categories s = [] -> maxCategory s = JsMath.one).
Proof.
  destruct (bars_scale s) as [Hm Hc].
  split; [|split; [|split]].
  - intros H. destruct (Hm H) as (_ & H1 & H2 & H3). auto.
  - intros H. destruct (Hc H) as (_ & H1 & H2 & H3). auto.
  - intros E. unfold maxMonthly. rewrite E. vm_compute. reflexivity.
  - intros E. unfold maxCategory. rewrite E. vm_compute. reflexivity.
Qed.

End SpendingChartsFacts.

Module WidthFacts.
Import JsNumber NumberFacts OrderFacts.
Import SpendingCharts.
Local Open Scope Z_scope.

Lemma shr_fexp_nonneg m e l : 0 <= m -> 0 <= shr_m (fst (shr_fexp prec emax m e l)).
Proof.
  intros Hm. unfold shr_fexp, shr.
  destruct (fexp prec emax (Zdigits2 m + e) - e) as [|p|p]; cbn [fst];
    rewrite ?shr_m_of_loc; try assumption.
  rewrite iter_shr_1_shiftr by (rewrite shr_m_of_loc; assumption).
  rewrite shr_m_of_loc. apply Z.shiftr_nonneg. assumption.
Qed.

Lemma round_nearest_even_nonneg m l : 0 <= m -> 0 <= round_nearest_even m l.
Proof.
  intros H. destruct l as [|[]]; cbn; try lia. destruct (Z.even m); lia.
Qed.

(** Rounding a mantissa that is not negative does not give [NaN]. *)
Lemma binary_round_aux_not_nan s m e l :
  0 <= m -> isNaN (binary_round_aux prec emax s m e l) = false.
Proof.
  intros Hm. unfold binary_round_aux.
  pose proof (shr_fexp_nonneg m e l Hm) as H1.
  destruct (shr_fexp prec emax m e l) as [mrs' e']. cbn [fst] in H1.
  pose proof (round_nearest_even_nonneg (shr_m mrs') (loc_of_shr_record mrs') H1) as H2.
  pose proof (shr_fexp_nonneg _ e' loc_Exact H2) as H3.
  destruct (shr_fexp prec emax (round_nearest_even (shr_m mrs') (loc_of_shr_record mrs')) e'
              loc_Exact) as [mrs'' e'']. cbn [fst] in H3.
  destruct (shr_m mrs'') as [|q|q]; [reflexivity| |lia].
  destruct (e'' <=? emax - prec); reflexivity.
Qed.

Lemma div_core_nonneg m1 e1 m2 e2 :
  0 <= fst (fst (SFdiv_core_binary prec emax (Zpos m1) e1 (Zpos m2) e2)).
Proof.
  unfold SFdiv_core_binary.
  set (s := e1 - e2 - _).
  set (m' := match s with Z0 => Zpos m1 | Zpos _ => Z.shiftl (Zpos m1) s | Zneg _ => 0 end).
  assert (Hm' : 0 <= m').
  { unfold m'. destruct s; try lia. apply Z.shiftl_nonneg. lia. }
  pose proof (Z_div_mod m' (Zpos m2) ltac:(lia)) as Hdiv.
  destruct (Z.div_eucl m' (Zpos m2)) as [q r]. cbn [fst].
  destruct Hdiv as [Heq Hr]. nia.
Qed.

(** A quotient is not [NaN] when the dividend is finite and the divisor is
    neither zero nor [NaN]; a product with a finite number other than zero
    is not [NaN] when the other factor is not. *)
Lemma div_not_nan x y :
  isFinite x = true -> isNaN y = false -> truthy y = true -> isNaN (JsMath.div x y) = false.
Proof.
  destruct x as [sx|sx| |sx mx ex], y as [sy|sy| |sy my ey]; cbn; try discriminate;
    try reflexivity.
  intros _ _ _. unfold JsMath.div, SFdiv.
  pose proof (div_core_nonneg mx ex my ey) as H.
  destruct (SFdiv_core_binary prec emax (Zpos mx) ex (Zpos my) ey) as [[q e] l]. cbn [fst] in H.
  apply binary_round_aux_not_nan. exact H.
Qed.

Lemma mul_not_nan x m e :
  isNaN x = false -> isNaN (JsMath.mul x (S754_finite false m e)) = false.
Proof.
  destruct x as [sx|sx| |sx mx ex]; cbn; try discriminate; try reflexivity.
  intros _. unfold JsMath.mul, SFmul. apply binary_round_aux_not_nan. lia.
Qed.

Lemma hundred_value : JsMath.hundred = S754_finite false 7036874417766400 (-46).
Proof. vm_compute. reflexivity. Qed.

Lemma width_at_least total scale least :
  isFinite total = true -> isNaN scale = false -> truthy scale = true ->
  isNaN least = false ->
  leb least (JsMath.max (JsMath.mul (JsMath.div total scale) JsMath.hundred) least) = true.
Proof.
  intros Ht Hs Hz Hl. apply max_ge_right; [|exact Hl].
  rewrite hundred_value. apply mul_not_nan. apply div_not_nan; assumption.
Qed.

Lemma isFinite_not_nan x : isFinite x = true -> isNaN x = false.
Proof. destruct x; cbn; try discriminate; reflexivity. Qed.

(** X24.  When the totals are finite numbers, the bar of a month is at least 10
    per cent wide and the bar of a category at least 5 per cent, however
    small its total is beside the largest. *)
Theorem bars_have_a_least_width (s : Stats) :
  Forall (fun m => isFinite (monthly_total m) = true) (monthly s) ->
  Forall (fun c => isFinite (category_total c) = true) (categories s) ->
  Forall (fun m => leb JsMath.ten (monthWidth s m) = true) (monthly s)
  /\ Forall (fun c => leb JsMath.five (categoryWidth s c) = true) (categories s).
Proof.
  intros Hm Hc.
  destruct (SpendingChartsFacts.bars_scale s) as [Hmonthly Hcategory].
  split.
  - destruct Hmonthly as (Hnan & _ & Hz & _).
    { eapply Forall_impl; [exact Hm|]. intros m H. apply isFinite_not_nan. exact H. }
    eapply Forall_impl; [exact Hm|]. intros m H. cbn beta.
    apply width_at_least; [exact H|exact Hnan|exact Hz|reflexivity].
  - destruct Hcategory as (Hnan & _ & Hz & _).
    { eapply Forall_impl; [exact Hc|]. intros c H. apply isFinite_not_nan. exact H. }
    eapply Forall_impl; [exact Hc|]. intros c H. cbn beta.
    apply width_at_least; [exact H|exact Hnan|exact Hz|reflexivity].
Qed.

End WidthFacts.

Module ChartsViewFacts.
Import JsNumber.
Import SpendingCharts.

(** X25.  What the charts show once [fetchStats] has settled.  It asks for the
    statistics once.  After a success the error is cleared and the charts
    of the new statistics are shown, or the empty state when they hold no
    month and no category; a block of the charts is shown exactly when its
    list is not empty, so at least one is.  After a failure with a message
    that is not empty the error panel is shown, while the statistics of
    before stay held. *)
Theorem charts_after_fetchStats (result : Settled Stats) (st : State) :
  snd (fetchStats result st) = [Api.GetStats]
  /\ isLoading (fst (fetchStats result st)) = false
  /\ match result with
     | Fulfilled data =>
         view (fst (fetchStats result st))
         = (if noData data then NoDataForCharts else Charts data)
         /\ (noData data = false -> trendShown data || categoriesShown data = true)
     | Rejected err =>
         stats (fst (fetchStats result st)) = stats st
         /\ (JsString.truthy (messageOr "Failed to fetch stats" err) = true ->
             view (fst (fetchStats result st))
             = ErrorLoadingCharts (messageOr "Failed to fetch stats" err))
     end.
Proof.
  destruct result as [data|err]; cbn [fetchStats fst snd].
  - repeat split. unfold noData, trendShown, categoriesShown.
    destruct (monthly data), (categories data); cbn; congruence.
  - repeat split. intros H. unfold view. cbn. rewrite H. reflexivity.
Qed.

End ChartsViewFacts.

Module KeyFacts.
Import JsNumber Api.

Lemma length_substring_min (s : string) : forall n m,
  String.length (String.substring n m s) = Nat.min m (String.length s - n).
Proof.
  induction s as [|c s IH]; intros n m.
  - destruct n, m; reflexivity.
  - destruct n as [|n], m as [|m]; cbn [String.substring String.length]; try reflexivity.
    + rewrite IH. cbn. rewrite Nat.sub_0_r. reflexivity.
    + rewrite IH. reflexivity.
    + rewrite IH. reflexivity.
Qed.

(** X26.  An idempotency key is the text of the clock reading, a hyphen, and the
    third to the fifteenth character of the random text: at most thirteen
    characters, and none at all when the random text has no more than two
    (as the text [0] of the random number zero).  It is never empty. *)
Theorem idempotency_key_shape (now : number) (random36 : string) :
  exists suffix,
    generateIdempotencyKey now random36 = JsNumber.toString now +:+ "-" +:+ suffix
    /\ suffix = String.substring 2 13 random36
    /\ String.length suffix = Nat.min 13 (String.length random36 - 2)
    /\ (String.length random36 <= 2 -> suffix = EmptyString)
    /\ JsString.truthy (generateIdempotencyKey now random36) = true.
Proof.
  exists (String.substring 2 13 random36).
  split; [reflexivity|]. split; [reflexivity|].
  split; [apply length_substring_min|]. split.
  - intros H. pose proof (length_substring_min random36 2 13) as Hl.
    destruct (String.substring 2 13 random36); [reflexivity|]. cbn [String.length] in Hl. lia.
  - apply ExpenseFormFacts.generated_key_truthy.
Qed.

End KeyFacts.

(* ===================================================================== *)
(** * Deleting, with requests in flight *)
(* ===================================================================== *)

Module DeleteFacts.
Import JsNumber Types.
Import ExpenseList ExpenseListView Properties.

Lemma fetchExpenses_in_steps result st :
  fetchExpenses result st
  = (fetchSettled result (fetchStarted st), [Api.GetExpenses (Some (fetchParams st))]).
Proof. destruct result; reflexivity. Qed.

Lemma fetchSettled_deletingId result st :
  deletingId (fetchSettled result st) = deletingId st.
Proof. destruct result; reflexivity. Qed.

(** With nothing else pending, a click and the settlements that follow it
    do what [handleDeleteClick] does from the click to its end. *)
Lemma handleDeleteClick_in_steps id deleted refetched st :
  let trace :=
    deleteRun (mount st) [Click id; DeleteSettled 0 deleted; ListSettled refetched] in
  map (fun after => view (fst after)) (drop 2 trace)
  = [fst (handleDeleteClick id deleted refetched st)]
  /\ concat (map snd trace) = snd (handleDeleteClick id deleted refetched st).
Proof.
  cbn [deleteRun]. unfold handleDeleteClick.
  destruct (isDeleting st id) eqn:E.
  - cbn [deleteStep mount view]. rewrite E. cbn [fst deleting app lookup list_lookup].
    destruct deleted as [u|err].
    + rewrite fetchExpenses_in_steps. cbn. split; reflexivity.
    + cbn. split; reflexivity.
  - cbn [deleteStep mount view]. rewrite E. cbn. split; reflexivity.
Qed.

(** An event that calls [deleteExpense] is a click on an expense that
    awaits confirmation. *)
Lemma deleteStep_deletes m ev id :
  In (Api.DeleteExpense id) (snd (deleteStep m ev)) ->
  ev = Click id /\ deletingId (view m) = Some id.
Proof.
  destruct ev as [id'| |n deleted|result]; cbn [deleteStep].
  - destruct (isDeleting (view m) id') eqn:E; [|intros []].
    intros [H|[]]. injection H as <-.
    split; [reflexivity|]. apply ListHandlerFacts.isDeleting_true. exact E.
  - destruct (timers m); intros [].
  - destruct (deleting m !! n) as [[id' closure]|]; [|intros []].
    destruct deleted; cbn [snd In]; [intros [H|[]]; discriminate H|intros []].
  - destruct (fetching m); intros [].
Qed.

(** An expense that awaits confirmation after an event did so before it,
    or the event is a click on its button that called nothing. *)
Lemma deleteStep_marked m ev id :
  deletingId (view (fst (deleteStep m ev))) = Some id ->
  (ev = Click id /\ snd (deleteStep m ev) = []) \/ deletingId (view m) = Some id.
Proof.
  destruct ev as [id'| |n deleted|result]; cbn [deleteStep].
  - destruct (isDeleting (view m) id'); cbn [fst snd view].
    + intros H. right. exact H.
    + cbn [setDeletingId deletingId]. intros H. injection H as ->. left. split; reflexivity.
  - destruct (timers m); cbn [fst view]; [intros H; right; exact H|discriminate].
  - destruct (deleting m !! n) as [[id' closure]|]; [|intros H; right; exact H].
    destruct deleted; cbn [fst view]; discriminate.
  - destruct (fetching m); cbn [fst view]; [intros H; right; exact H|].
    rewrite fetchSettled_deletingId. intros H. right. exact H.
Qed.

Lemma deleteRun_deletes events : forall m0 k m calls id,
  deleteRun m0 events !! k = Some (m, calls) ->
  In (Api.DeleteExpense id) calls ->
  events !! k = Some (Click id)
  /\ ((deletingId (view m0) = Some id
       /\ forall i, (i < k)%nat -> awaitsAfter (deleteRun m0 events) id i)
      \/ exists j,
           (j < k)%nat
           /\ events !! j = Some (Click id)
           /\ (exists mj, deleteRun m0 events !! j = Some (mj, []))
           /\ forall i, (j <= i < k)%nat -> awaitsAfter (deleteRun m0 events) id i).
Proof.
  induction events as [|ev rest IH]; intros m0 k m calls id Hk Hin; [discriminate Hk|].
  cbn [deleteRun] in *.
  destruct k as [|k].
  - cbn in Hk. injection Hk as Hk.
    assert (Hs : calls = snd (deleteStep m0 ev)) by (rewrite Hk; reflexivity).
    rewrite Hs in Hin. destruct (deleteStep_deletes m0 ev id Hin) as [-> Hd].
    split; [reflexivity|]. left. split; [exact Hd|]. intros i Hi. lia.
  - cbn [lookup list_lookup] in Hk.
    destruct (IH _ k m calls id Hk Hin) as [Hev Hwhen].
    split; [exact Hev|].
    destruct Hwhen as [[Hd Hall]|(j & Hj & Hclick & Hnone & Hall)].
    + assert (Hfirst : awaitsAfter (deleteStep m0 ev :: deleteRun (fst (deleteStep m0 ev)) rest) id 0).
      { exists (fst (deleteStep m0 ev)), (snd (deleteStep m0 ev)).
        split; [destruct (deleteStep m0 ev); reflexivity|exact Hd]. }
      destruct (deleteStep_marked m0 ev id Hd) as [[-> Hcalls]|Hbefore].
      * right. exists 0%nat. split; [lia|]. split; [reflexivity|]. split.
        -- exists (fst (deleteStep m0 (Click id))). cbn [lookup list_lookup].
           rewrite <- Hcalls. destruct (deleteStep m0 (Click id)); reflexivity.
        -- intros [|i] Hi; [exact Hfirst|]. apply (Hall i). lia.
      * left. split; [exact Hbefore|].
        intros [|i] Hi; [exact Hfirst|]. apply (Hall i). lia.
    + right. exists (S j). split; [lia|]. split; [exact Hclick|]. split; [exact Hnone|].
      intros [|i] Hi; [lia|]. apply (Hall i). lia.
Qed.

(** X13.  No expense is deleted by one click, also when the user clicks
    while requests are in flight.  Over every sequence of clicks on Delete
    buttons, timer expiries and settlements of pending requests, starting
    with nothing awaiting confirmation and nothing pending: an event that
    calls [deleteExpense] for an expense is a click on the Delete button of
    that expense; an earlier click on the same button called nothing, and
    from that click up to this one the expense has awaited
    confirmation. *)
Theorem delete_takes_two_clicks
    (st : State) (events : list DeleteEvent) (k : nat) (m : Mounted)
    (calls : list Api.Call) (id : string) :
  deletingId st = None ->
  deleteRun (mount st) events !! k = Some (m, calls) ->
  In (Api.DeleteExpense id) calls ->
  events !! k = Some (Click id)
  /\ exists j,
       (j < k)%nat
       /\ events !! j = Some (Click id)
       /\ (exists mj, deleteRun (mount st) events !! j = Some (mj, []))
       /\ forall i, (j <= i < k)%nat ->
            exists mi ci,
              deleteRun (mount st) events !! i = Some (mi, ci)
              /\ deletingId (view mi) = Some id.
Proof.
  intros Hnone Hk Hin.
  destruct (deleteRun_deletes events (mount st) k m calls id Hk Hin) as [Hev Hwhen].
  split; [exact Hev|].
  destruct Hwhen as [[Hd _]|Hearlier]; [cbn [mount view] in Hd; congruence|].
  exact Hearlier.
Qed.

End DeleteFacts.

(* ===================================================================== *)
(** * The create form as the user meets it *)
(* ===================================================================== *)

Module FormViewFacts.
Import JsNumber Types Spec.
Import ExpenseForm ExpenseFormView.

Lemma clickSaveExpense_blocked env st :
  NumberInput.satisfied amountInput (amount st) = false ->
  clickSaveExpense env st = (st, []).
Proof.
  intros H. unfold clickSaveExpense, checkValidity. rewrite H.
  destruct (isSubmitting st); reflexivity.
Qed.

Lemma truthy_trim (s : string) :
  JsString.truthy (JsString.trim s) = true -> JsString.truthy s = true.
Proof. destruct s; [discriminate|reflexivity]. Qed.

Lemma clickSaveExpense_sent env st i :
  In (Called (Api.CreateExpense i)) (snd (clickSaveExpense env st)) ->
  In (Called (Api.CreateExpense i)) (snd (handleSubmit env st)).
Proof.
  unfold clickSaveExpense.
  destruct (isSubmitting st); [intros []|].
  destruct (checkValidity st); [auto|intros []].
Qed.

(** C3.  The amount is validated before a create request is sent, by the
    form and then by [handleSubmit].  With the amount 0, -5 or 10.555 in
    the amount input, a click on the submit button sends nothing and
    leaves the component as it is, whatever the other controls hold: the
    amount input does not satisfy its constraints ([min] for 0 and -5,
    [step] for 10.555, which has more than two fraction digits).  With
    10.50, the description and the date being filled in, the click sends
    the create request, with the amount 10.5.  A create request is only
    ever sent with an amount that [handleSubmit] has checked to be a
    number greater than zero; [handleSubmit] itself rejects 0 and -5. *)
Theorem amount_validation_before_create (env : SubmitEnv) (st : State) :
  (amount st = "0" -> clickSaveExpense env st = (st, []))
  /\ (amount st = "-5" -> clickSaveExpense env st = (st, []))
  /\ (amount st = "10.555" -> clickSaveExpense env st = (st, []))
  /\ (amount st = "10.50" ->
      isSubmitting st = false ->
      JsString.truthy (JsString.trim (description st)) = true ->
      JsString.truthy (date st) = true ->
      exists rest,
        snd (clickSaveExpense env st) = Called (Api.CreateExpense (input env st)) :: rest
        /\ input_amount (input env st) = of_decimal false 1050 (-2))
  /\ (forall i,
        In (Called (Api.CreateExpense i)) (snd (clickSaveExpense env st)) ->
        i = input env st
        /\ isNaN (input_amount i) = false
        /\ leb (input_amount i) zero = false)
  /\ (amount st = "0" \/ amount st = "-5" ->
      handleSubmit env st
      = (setError (Some "Please enter a valid amount greater than 0") (setError None st), [])).
Proof.
  split; [|split; [|split; [|split; [|split]]]].
  - intros H. apply clickSaveExpense_blocked. rewrite H. vm_compute. reflexivity.
  - intros H. apply clickSaveExpense_blocked. rewrite H. vm_compute. reflexivity.
  - intros H. apply clickSaveExpense_blocked. rewrite H. vm_compute. reflexivity.
  - intros H Hs Hd Ht.
    assert (Hv : checkValidity st = true).
    { unfold checkValidity. rewrite H, Ht, (truthy_trim _ Hd). vm_compute. reflexivity. }
    assert (Ha : amountRejected st = false).
    { unfold amountRejected, amountNum. rewrite H. vm_compute. reflexivity. }
    unfold clickSaveExpense. rewrite Hs, Hv.
    destruct (ExpenseFormFacts.handleSubmit_amount_accepted env st Ha Hd Ht) as [rest Hrest].
    exists rest. split; [exact Hrest|].
    unfold input, amountNum. cbn [input_amount]. rewrite H. vm_compute. reflexivity.
  - intros i Hi. apply clickSaveExpense_sent in Hi.
    apply ExpenseFormFacts.handleSubmit_sent in Hi as (-> & Ha & _ & _).
    unfold amountRejected in Ha. apply orb_false_elim in Ha as [Hn Hl].
    split; [reflexivity|]. split; assumption.
  - intros H. apply ExpenseFormFacts.handleSubmit_amount_rejected.
    unfold amountRejected, amountNum. destruct H as [-> | ->]; vm_compute; reflexivity.
Qed.

(** ** The description (claim C4) *)

Lemma length16_trimStart_from (s : string) : forall skip,
  (JsString.length16 (JsString.trimStart_from skip s) <= JsString.length16 s)%nat.
Proof.
  induction s as [|a r IH]; intros skip; [reflexivity|].
  cbn [JsString.trimStart_from].
  assert (Hr : forall k, (JsString.length16 (JsString.trimStart_from k r)
                          <= JsString.length16 (String a r))%nat).
  { intros k. specialize (IH k). cbn [JsString.length16]. lia. }
  destruct skip as [|k]; [|apply Hr].
  destruct (JsString.whiteSpaceAt (String a r)); [reflexivity|apply Hr].
Qed.

Lemma length16_trimEnd (s : string) :
  (JsString.length16 (JsString.trimEnd s) <= JsString.length16 s)%nat.
Proof.
  induction s as [|a r IH]; [reflexivity|].
  cbn [JsString.trimEnd].
  destruct (JsString.trimStart (String a r)).
  - cbn [JsString.length16]. lia.
  - cbn [JsString.length16]. lia.
Qed.

(** Trimming does not lengthen a string. *)
Lemma length16_trim (s : string) :
  (JsString.length16 (JsString.trim s) <= JsString.length16 s)%nat.
Proof.
  unfold JsString.trim, JsString.trimStart.
  etransitivity; [apply length16_trimEnd|apply length16_trimStart_from].
Qed.

Lemma handleSubmit_description env st :
  description (fst (handleSubmit env st)) = description st
  \/ description (fst (handleSubmit env st)) = EmptyString.
Proof.
  unfold handleSubmit.
  ExpenseFormFacts.validation_cases st; try (left; reflexivity).
  destruct (outcome env); [right; reflexivity|].
  left. destruct (keyMissing _); reflexivity.
Qed.

(** The description a create request may carry: not empty, and the trimmed
    text of an input that holds at most [maxLength] code units. *)
Lemma step_description st ev :
  typed ev = true ->
  (JsString.length16 (description st) <= maxLength)%nat ->
  (JsString.length16 (description (fst (step st ev))) <= maxLength)%nat
  /\ Forall (fun a => Properties.boundedDescription (input_description (sent a)))
       (attemptsOf ev (snd (step st ev))).
Proof.
  intros Ht Hlen. unfold step.
  destruct (isSubmitting st); [split; [exact Hlen|destruct ev; constructor]|].
  destruct ev as [v|index|v|v|env]; cbn [fst snd attemptsOf];
    try (split; [exact Hlen|constructor]).
  - destruct (formCategoryOptions !! index); (split; [exact Hlen|constructor]).
  - split; [|constructor]. cbn [typed] in Ht. apply Nat.leb_le in Ht. exact Ht.
  - split.
    + destruct (handleSubmit_description env st) as [-> | ->]; [exact Hlen|].
      cbn. lia.
    + rewrite ExpenseFormFacts.handleSubmit_outputs.
      destruct (amountRejected st); [constructor|].
      destruct (JsString.truthy (JsString.trim (description st))) eqn:Hd; [|constructor].
      destruct (JsString.truthy (date st)); [|constructor].
      cbn [orb negb].
      assert (Hb : Properties.boundedDescription (input_description (input env st))).
      { unfold Properties.boundedDescription, input. cbn [input_description].
        split; [exact Hd|]. split.
        - etransitivity; [apply length16_trim|exact Hlen].
        - exists (description st). split; [reflexivity|exact Hlen]. }
      destruct (outcome env); cbn [omap option_bind app]; (constructor; [exact Hb|constructor]).
Qed.

Lemma run_description events : forall st,
  Forall (fun ev => typed ev = true) events ->
  (JsString.length16 (description st) <= maxLength)%nat ->
  Forall (fun a => Properties.boundedDescription (input_description (sent a)))
    (snd (run st events)).
Proof.
  induction events as [|ev rest IH]; intros st Hall Hlen; [constructor|].
  inversion Hall as [|? ? Hev Hrest]; subst.
  rewrite ExpenseFormFacts.run_cons. cbn [snd].
  destruct (step_description st ev Hev Hlen) as [Hlen' Hsent].
  apply Forall_app. split; [exact Hsent|].
  apply IH; assumption.
Qed.

(** C4.  On the create path the claim holds: whatever the user does with
    the form from its mount on, the description input never holding more
    than 500 code units ([maxLength]), every create request carries a
    description that is not empty and has at most 500 code units, the
    trimmed text of the input; the check comes before the request, and
    with a blank description nothing is sent.  The edit path trims and
    nothing more: the update request carries the trimmed description of
    the edit form whatever it is; with 501 characters in the description
    of the edit modal the update is sent with these 501 characters, and
    with a blank description it is sent with the empty string. *)
Theorem description_checked_on_create_only :
  (forall day events,
     Forall (fun ev => typed ev = true) events ->
     forall a,
       In a (snd (run (initialState day) events)) ->
       JsString.truthy (input_description (sent a)) = true
       /\ (JsString.length16 (input_description (sent a)) <= 500)%nat
       /\ exists text,
            input_description (sent a) = JsString.trim text
            /\ (JsString.length16 text <= 500)%nat)
  /\ (forall env st,
        JsString.truthy (JsString.trim (description st)) = false ->
        snd (handleSubmit env st) = [] /\ snd (clickSaveExpense env st) = [])
  /\ (forall updated refetched st id i,
        In (Api.UpdateExpense id i)
           (snd (ExpenseList.handleEditSubmit updated refetched st)) ->
        input_description i
        = JsString.trim (ExpenseList.edit_description (ExpenseList.editForm st)))
  /\ (exists i rest,
        snd (ExpenseList.handleEditSubmit (Fulfilled Sample.lunch) (Fulfilled Sample.page1)
               (ExpenseList.changeEditDescription (JsString.repeat "a" 501)
                  Sample.editingLunch))
        = Api.UpdateExpense "65a1" i :: rest
        /\ JsString.length16 (input_description i) = 501%nat)
  /\ (exists i rest,
        snd (ExpenseList.handleEditSubmit (Fulfilled Sample.lunch) (Fulfilled Sample.page1)
               Sample.editingLunch)
        = Api.UpdateExpense "65a1" i :: rest
        /\ input_description i = EmptyString).
Proof.
  split; [|split; [|split; [|split]]].
  - intros day events Htyped a Ha.
    pose proof (run_description events (initialState day) Htyped) as Hall.
    rewrite List.Forall_forall in Hall.
    apply Hall; [cbn; lia|exact Ha].
  - intros env st H. split.
    + rewrite ExpenseFormFacts.handleSubmit_outputs, H.
      rewrite orb_true_r. reflexivity.
    + unfold clickSaveExpense.
      destruct (isSubmitting st); [reflexivity|].
      destruct (checkValidity st); [|reflexivity].
      rewrite ExpenseFormFacts.handleSubmit_outputs, H.
      rewrite orb_true_r. reflexivity.
  - exact FormsFacts.handleEditSubmit_sent.
  - vm_compute. eexists. eexists. split; reflexivity.
  - vm_compute. eexists. eexists. split; reflexivity.
Qed.

End FormViewFacts.

(* ===================================================================== *)
(** * The export: its request and the lines of its text *)
(* ===================================================================== *)

Module ExportFacts.
Import JsNumber Types Api Spec.
Import ExpenseList.

(** What [api.getExpenses(params)] hands to [fetch]. *)
Lemma getExpenses_fetch env params net :
  exists rest,
    snd (getExpenses env params net)
    = Fetched {| fetch_url := API_BASE_URL env +:+ endpointOf (GetExpenses params);
                 fetch_init := {| method := None; body := None |};
                 fetch_headers := [("Content-Type", "application/json")] |} :: rest.
Proof.
  unfold getExpenses, perform, request. cbn [optionsOf].
  destruct net as [e|response]; [eexists; reflexivity|].
  destruct (status response =? 204)%Z; [eexists; reflexivity|].
  destruct (json response) as [data|e]; [|eexists; reflexivity].
  destruct (negb (ok response)); eexists; reflexivity.
Qed.

(** C5.  [handleExportCSV] makes one call, [api.getExpenses], whatever it
    settles to, and that call issues one request, a GET of the list
    endpoint.  The query of its URL, parsed the way the receiving end
    parses it, holds the category filter of the view (left out when the
    filter is empty) and its sort order, and nothing else: no [page] and
    no [limit].  These are the parameters of the list request of the
    view, the one [fetchExpenses] makes, with [page] and [limit] taken
    out. *)
Theorem export_request_matches_view
    (result : Settled (PaginatedResponse Expense)) (day : string) (st : State) :
  let exported := GetExpenses (Some (exportParams st)) in
  let listed := GetExpenses (Some (fetchParams st)) in
  snd (fst (handleExportCSV result day st)) = [exported]
  /\ (forall env net,
        exists rest,
          snd (getExpenses env (Some (exportParams st)) net)
          = Fetched {| fetch_url := API_BASE_URL env +:+ endpointOf exported;
                       fetch_init := {| method := None; body := None |};
                       fetch_headers := [("Content-Type", "application/json")] |} :: rest)
  /\ FormUrlencoded.parse (URLSearchParams.queryOf (endpointOf exported))
     = (if JsString.truthy (categoryFilter st) then [("category", categoryFilter st)] else [])
       ++ [("sort", sortString (sortOrder st))]
  /\ URLSearchParams.queryNames (URLSearchParams.queryOf (endpointOf exported))
     = (if JsString.truthy (categoryFilter st) then ["category"] else []) ++ ["sort"]
  /\ (forall fetched, snd (fetchExpenses fetched st) = [listed])
  /\ FormUrlencoded.parse (URLSearchParams.queryOf (endpointOf exported))
     = List.filter (fun kv => negb (pagingParameter kv))
         (FormUrlencoded.parse (URLSearchParams.queryOf (endpointOf listed))).
Proof.
  intros exported listed. unfold exported, listed. cbn [endpointOf].
  split; [destruct result; reflexivity|].
  split; [intros env net; apply getExpenses_fetch|].
  rewrite !ClientFacts.parse_expensesEndpoint.
  rewrite ApiFacts.queryNames_expensesEndpoint.
  rewrite ExpenseListFacts.searchParams_export, ExpenseListFacts.searchParams_fetch.
  unfold entry, entryNumber.
  split; [reflexivity|].
  split; [destruct (JsString.truthy (categoryFilter st)); reflexivity|].
  split; [intros fetched; destruct fetched; reflexivity|].
  destruct (JsString.truthy (categoryFilter st));
    destruct (JsNumber.truthy (currentPage st)); reflexivity.
Qed.

End ExportFacts.

Module CsvLinesFacts.
Import JsNumber Types Api Spec.

Lemma linesOf_first (s : string) : exists p rest, linesOf s = p :: rest.
Proof.
  induction s as [|c s (p & rest & IH)]; [eexists; eexists; reflexivity|].
  cbn [linesOf]. rewrite IH.
  destruct (JsString.code c =? 10)%N; eexists; eexists; reflexivity.
Qed.

Lemma linesOf_append (a b : string) :
  linesOf (a +:+ String (ascii_of_N 10) b) = linesOf a ++ linesOf b.
Proof.
  induction a as [|c a IH]; [reflexivity|].
  cbn [String.append linesOf]. rewrite IH.
  destruct (JsString.code c =? 10)%N; [reflexivity|].
  destruct (linesOf_first a) as (p & rest & ->). reflexivity.
Qed.

Lemma linesOf_join (l : list string) :
  l <> [] -> linesOf (JsString.join newline l) = concat (map linesOf l).
Proof.
  induction l as [|x l IH]; [congruence|]. intros _.
  destruct l as [|y l].
  - cbn. rewrite app_nil_r. reflexivity.
  - change (JsString.join newline (x :: y :: l))
      with (x +:+ String (ascii_of_N 10) (JsString.join newline (y :: l))).
    rewrite linesOf_append, IH by discriminate. reflexivity.
Qed.

Lemma length_linesOf (s : string) : length (linesOf s) = S (lineFeeds s).
Proof.
  induction s as [|c s IH]; [reflexivity|].
  cbn [linesOf lineFeeds].
  destruct (JsString.code c =? 10)%N; cbn [length]; [rewrite IH; reflexivity|].
  destruct (linesOf s); cbn [length] in *; lia.
Qed.

Lemma linesOf_one (s : string) : lineFeeds s = 0%nat -> linesOf s = [s].
Proof.
  induction s as [|c s IH]; [reflexivity|].
  cbn [linesOf lineFeeds].
  destruct (JsString.code c =? 10)%N; [discriminate|].
  intros H. rewrite IH by exact H. reflexivity.
Qed.

Lemma lineFeeds_append (a b : string) :
  lineFeeds (a +:+ b) = (lineFeeds a + lineFeeds b)%nat.
Proof.
  induction a as [|c a IH]; [reflexivity|].
  cbn [String.append lineFeeds]. rewrite IH. lia.
Qed.

Lemma lineFeeds_doubleQuotes (s : string) :
  lineFeeds (JsString.doubleQuotes s) = lineFeeds s.
Proof.
  induction s as [|c s IH]; [reflexivity|].
  cbn [JsString.doubleQuotes].
  destruct (JsString.code c =? 34)%N eqn:E.
  - apply N.eqb_eq in E. cbn [lineFeeds]. rewrite IH, E. reflexivity.
  - cbn [lineFeeds]. rewrite IH. reflexivity.
Qed.

Lemma lineFeeds_none (s : string) :
  URLSearchParams.occurs 10 s = false -> lineFeeds s = 0%nat.
Proof.
  induction s as [|c s IH]; [reflexivity|].
  cbn [URLSearchParams.occurs lineFeeds]. intros H.
  apply orb_false_elim in H as [Hc Hs]. rewrite Hc, (IH Hs). reflexivity.
Qed.

Lemma lineFeeds_toFixed f x : lineFeeds (toFixed f x) = 0%nat.
Proof.
  apply lineFeeds_none.
  pose proof (CsvReaderFacts.bare_toFixed f x) as H. unfold CsvReader.bare in H.
  apply andb_prop in H as [_ H]. apply negb_true_iff in H. exact H.
Qed.

(** The line feeds of the record of an expense are those of its date, its
    description and its category. *)
Lemma lineFeeds_csvLine (e : Expense) : lineFeeds (csvLine e) = lineFeedsIn e.
Proof.
  unfold csvLine, lineFeedsIn.
  rewrite !lineFeeds_append. cbn [lineFeeds].
  rewrite lineFeeds_doubleQuotes, lineFeeds_toFixed.
  change (JsString.code JsString.dquote =? 10)%N with false.
  change (JsString.code "," =? 10)%N with false.
  cbv iota. lia.
Qed.

Lemma length_concat_lines (l : list string) :
  length (concat (map linesOf l)) = (length l + list_sum (map lineFeeds l))%nat.
Proof.
  induction l as [|x l IH]; [reflexivity|].
  cbn [map concat length list_sum fold_right]. rewrite length_app, length_linesOf, IH.
  unfold list_sum. lia.
Qed.

Lemma lines_of_records (items : list Expense) :
  Forall (fun e => lineFeedsIn e = 0%nat) items ->
  concat (map linesOf (map csvLine items)) = map csvLine items.
Proof.
  induction items as [|e items IH]; [reflexivity|]. intros Hnone.
  inversion Hnone as [|? ? He Hrest]; subst.
  cbn [map concat]. rewrite linesOf_one by (rewrite lineFeeds_csvLine; exact He).
  cbn [app]. f_equal. apply IH. exact Hrest.
Qed.

(** C9, as amended.  The text that [exportToCSV] hands to the browser is
    the header followed by one record per expense, in input order, joined
    by line feeds; a record holds the date, the description between double
    quotes with every double quote of it doubled (so that a reader of
    quoted fields gets the description back), the category, and the
    amount, which for a finite amount of magnitude below [10^21] is written
    with exactly two fraction digits.  A line feed in a date, a
    description or a category is written as it is: the text has one line
    for the header, one for each expense and one more for each such line
    feed; when there is none, its lines are the header and the records of
    the expenses, one line each. *)
Theorem exportToCSV_text (day : string) (items : list Expense) :
  let text := blob_text (exportToCSV day items) in
  text = JsString.join newline ("Date,Description,Category,Amount (₹)" :: map csvLine items)
  /\ length (linesOf text) = (1 + length items + list_sum (map lineFeedsIn items))%nat
  /\ (Forall (fun e => lineFeedsIn e = 0%nat) items ->
      linesOf text = "Date,Description,Category,Amount (₹)" :: map csvLine items)
  /\ (forall e, unquoteField (String JsString.dquote (JsString.doubleQuotes (description e)
                                +:+ String JsString.dquote EmptyString))
                = Some (description e))
  /\ (forall a b, JsString.doubleQuotes (a +:+ String JsString.dquote b)
                  = JsString.doubleQuotes a
                    +:+ String JsString.dquote (String JsString.dquote (JsString.doubleQuotes b)))
  /\ (forall e, In e items -> belowFixedLimit (amount e) = true ->
                hasTwoFractionDigits (toFixed 2 (amount e)) = true).
Proof.
  intros text.
  assert (Htext : text = JsString.join newline
                           ("Date,Description,Category,Amount (₹)" :: map csvLine items)).
  { unfold text, exportToCSV, csvText. cbn [blob_text]. f_equal. f_equal.
    rewrite map_map. apply map_ext. exact CsvFacts.csvRow_line. }
  split; [exact Htext|].
  assert (Hlines : linesOf text
                   = "Date,Description,Category,Amount (₹)"
                     :: concat (map linesOf (map csvLine items))).
  { rewrite Htext, linesOf_join by discriminate. reflexivity. }
  split; [|split; [|split; [|split]]].
  - rewrite Hlines. cbn [length]. rewrite length_concat_lines, length_map, map_map.
    rewrite (List.map_ext _ _ lineFeeds_csvLine). reflexivity.
  - intros Hnone. rewrite Hlines. f_equal. apply lines_of_records. exact Hnone.
  - intros e. apply (CsvFacts.unquote_quoted (description e)).
  - intros a b. rewrite CsvFacts.doubleQuotes_append. reflexivity.
  - intros e _ H. apply NumberFacts.toFixed_two_digits. exact H.
Qed.

End CsvLinesFacts.

(* ===================================================================== *)
(** * The theorems at sample inputs *)
(* ===================================================================== *)

Module AtSamples.
Import JsNumber Types Spec.
Local Open Scope Z_scope.

(** Three requests with one key until the first success, then a new key;
    nothing stays stored. *)
Lemma idempotency_key_reused_witness :
  let run := ExpenseForm.run (ExpenseForm.initialState "2024-01-15") Sample.retries in
  map ExpenseForm.key (snd run)
  = [Some "1700000000001-abc"; Some "1700000000001-abc"; Some "1700000000001-abc";
     Some "1700000000004-jkl"]
  /\ Forall (fun b => ExpenseForm.key b = Some "1700000000001-abc") (take 2 (snd run))
  /\ ExpenseForm.currentIdempotencyKey (fst run) = None.
Proof.
  intros run.
  destruct (ExpenseFormFacts.idempotency_key_reused_until_success "2024-01-15" Sample.retries)
    as (_ & Hsame & _ & _ & Hstored).
  split; [vm_compute; reflexivity|]. split.
  - set (third := List.nth 2 (snd run)
                    {| ExpenseForm.sent := ExpenseForm.input Sample.accepted (Sample.filled "" "");
                       ExpenseForm.env_of := Sample.accepted |}).
    assert (Hkey : ExpenseForm.key third = Some "1700000000001-abc")
      by (vm_compute; reflexivity).
    rewrite <- Hkey.
    apply (Hsame (take 2 (snd run)) third (drop 3 (snd run))).
    + vm_compute. reflexivity.
    + vm_compute. repeat constructor.
  - fold run in Hstored. rewrite Hstored. vm_compute. reflexivity.
Defined.

(** The form does not stay mounted: a create request fails, the user
    hides the form and opens it again, and the second request, the first
    to succeed, carries another key than the first. *)
Lemma hidden_form_sends_a_second_key :
  let log := snd (Home.run Home.initialPage MoreSamples.cancelledRetry) in
  map ExpenseForm.key log = [Some "1700000000001-abc"; Some "1700000000002-def"]
  /\ map ExpenseForm.succeeded log = [false; true].
Proof. vm_compute. split; reflexivity. Qed.

Lemma totals_over_returned_page_witness :
  let shown := fst (ExpenseList.fetchExpenses (Fulfilled Sample.page1) ExpenseList.initialState) in
  ExpenseList.total shown = of_decimal false 1705 (-1)
  /\ ExpenseList.categoryTotals shown !! "Food" = Some (of_decimal false 1205 (-1))
  /\ ExpenseList.categoryTotals shown !! "Transport" = Some (of_decimal false 50 0)
  /\ ExpenseList.categoryTotals shown !! "Bills" = None.
Proof.
  assert (Hpos : Forall (fun e => isFinite (amount e) = true) (data Sample.page1)).
  { repeat constructor. }
  assert (Hcat : Forall (fun e => In (category e) CATEGORIES) (data Sample.page1)).
  { repeat (apply List.Forall_cons; [cbn; auto 10|]). apply List.Forall_nil. }
  destruct (ExpenseListFacts.totals_over_returned_page ExpenseList.initialState Sample.page1)
    as (_ & Htotal & Hentry).
  cbv zeta.
  rewrite Htotal, (Hentry Hpos Hcat "Food"), (Hentry Hpos Hcat "Transport"),
    (Hentry Hpos Hcat "Bills").
  vm_compute. repeat split.
Defined.

(** Called without the validation of the form, [handleSubmit] sends the
    create request for the amount 10.555: the limit of two fraction digits
    is the one of the amount input. *)
Lemma handleSubmit_accepts_three_fraction_digits :
  snd (ExpenseForm.handleSubmit Sample.accepted (Sample.filled "10.555" "Lunch"))
  = [ExpenseForm.Called
       (Api.CreateExpense
          {| input_amount := of_decimal false 10555 (-3);
             input_category := "Food";
             input_description := "Lunch";
             input_date := "2024-01-15";
             idempotency_key := Some "1700000000000-4fzyo82mvyr" |});
     ExpenseForm.OnExpenseCreated].
Proof. vm_compute. reflexivity. Qed.

Lemma amount_validation_witness :
  ExpenseFormView.clickSaveExpense Sample.accepted (Sample.filled "0" "Lunch")
  = (Sample.filled "0" "Lunch", [])
  /\ ExpenseFormView.clickSaveExpense Sample.accepted (Sample.filled "10.555" "Lunch")
     = (Sample.filled "10.555" "Lunch", [])
  /\ exists rest,
       snd (ExpenseFormView.clickSaveExpense Sample.accepted (Sample.filled "10.50" "Lunch"))
       = ExpenseForm.Called
           (Api.CreateExpense (ExpenseForm.input Sample.accepted (Sample.filled "10.50" "Lunch")))
         :: rest
       /\ input_amount (ExpenseForm.input Sample.accepted (Sample.filled "10.50" "Lunch"))
          = of_decimal false 1050 (-2).
Proof.
  split; [|split].
  - destruct (FormViewFacts.amount_validation_before_create Sample.accepted
                (Sample.filled "0" "Lunch")) as [Hzero _].
    apply Hzero. reflexivity.
  - destruct (FormViewFacts.amount_validation_before_create Sample.accepted
                (Sample.filled "10.555" "Lunch")) as (_ & _ & Hthree & _).
    apply Hthree. reflexivity.
  - destruct (FormViewFacts.amount_validation_before_create Sample.accepted
                (Sample.filled "10.50" "Lunch")) as (_ & _ & _ & Haccepted & _).
    apply Haccepted; reflexivity.
Defined.

(** The descriptions of the create requests of [Sample.retries]. *)
Lemma description_checked_witness :
  Forall (fun a =>
            JsString.truthy (input_description (ExpenseForm.sent a)) = true
            /\ (JsString.length16 (input_description (ExpenseForm.sent a)) <= 500)%nat)
    (snd (ExpenseForm.run (ExpenseForm.initialState "2024-01-15") Sample.retries))
  /\ map (fun a => input_description (ExpenseForm.sent a))
       (snd (ExpenseForm.run (ExpenseForm.initialState "2024-01-15") Sample.retries))
     = ["Lunch"; "Lunch"; "Lunch"; "Snack"].
Proof.
  destruct FormViewFacts.description_checked_on_create_only as (Hcreate & _).
  assert (Htyped : Forall (fun ev => ExpenseFormView.typed ev = true) Sample.retries).
  { repeat constructor. }
  split; [|vm_compute; reflexivity].
  apply List.Forall_forall. intros a Ha.
  destruct (Hcreate "2024-01-15" Sample.retries Htyped a Ha) as (Hfilled & Hlength & _).
  split; assumption.
Defined.

Lemma deleteExpense_witness :
  Api.deleteExpense None "65a1"
    (Api.Responded {| Api.status := 204; Api.json := Rejected (SyntaxError "Unexpected end of JSON input") |})
  = (Fulfilled None,
     [Api.Fetched {| Api.fetch_url := "http://localhost:3001/expenses/65a1";
                     Api.fetch_init := {| Api.method := Some Api.DELETE; Api.body := None |};
                     Api.fetch_headers := [("Content-Type", "application/json")] |}])
  /\ exists e,
       fst (Api.deleteExpense None "nope"
              (Api.Responded {| Api.status := 404;
                                Api.json := Fulfilled (Json.Obj [("error", Json.Str "Expense not found")]) |}))
       = Rejected e.
Proof.
  split.
  - apply (ApiFacts.deleteExpense_no_content_and_failures None "65a1"
             {| Api.status := 204; Api.json := Rejected (SyntaxError "Unexpected end of JSON input") |}).
    reflexivity.
  - apply (ApiFacts.deleteExpense_no_content_and_failures None "nope"
             {| Api.status := 404;
                Api.json := Fulfilled (Json.Obj [("error", Json.Str "Expense not found")]) |}).
    reflexivity.
Defined.

(** A details array holding one empty string: the message is the error
    field, not the joined details. *)
Lemma empty_detail_is_not_the_message :
  fst (Api.request None "/expenses" {| Api.method := Some Api.POST; Api.body := None |}
         (Api.Responded (Sample.validationFailure [""])))
  = Rejected (Error "Validation failed")
  /\ JsString.join ", " [""] = ""
  /\ length [""] = 1%nat.
Proof. vm_compute. repeat split. Qed.

Lemma request_error_message_witness :
  fst (Api.request None "/expenses" {| Api.method := Some Api.POST; Api.body := None |}
         (Api.Responded
            (Sample.validationFailure ["amount must be positive"; "description is required"])))
  = Rejected (Error "amount must be positive, description is required").
Proof.
  rewrite (ApiFacts.request_error_message None "/expenses" _ _
             {| error := Some "Validation failed";
                details := Some ["amount must be positive"; "description is required"] |});
    reflexivity.
Defined.

(** An amount of [1e21] is written in exponent notation; and the record
    of an expense whose description holds a line feed takes two lines. *)
Lemma export_without_two_digits_or_on_two_lines :
  Api.blob_text (Api.exportToCSV "2024-02-01" [Sample.rent])
  = JsString.join Api.newline
      ["Date,Description,Category,Amount (₹)";
       "2024-01-15," +:+ Api.quoted "Rent" +:+ ",Bills,1e+21"]
  /\ toFixed 2 (amount Sample.rent) = "1e+21"
  /\ hasTwoFractionDigits (toFixed 2 (amount Sample.rent)) = false
  /\ length [MoreSamples.dinner] = 1%nat
  /\ linesOf (Api.blob_text (Api.exportToCSV "2024-02-01" [MoreSamples.dinner]))
     = ["Date,Description,Category,Amount (₹)";
        "2024-02-03," +:+ String JsString.dquote "Dinner, "
        +:+ String JsString.dquote (String JsString.dquote "large")
        +:+ String JsString.dquote (String JsString.dquote "");
        "with friends" +:+ String JsString.dquote ",Food,45.50"].
Proof. vm_compute. repeat split. Qed.

Lemma exportToCSV_text_witness :
  linesOf (Api.blob_text (Api.exportToCSV "2024-02-01" [Sample.lunch; Sample.taxi]))
  = ["Date,Description,Category,Amount (₹)";
     "2024-01-10," +:+ Api.quoted "Lunch" +:+ ",Food,100.50";
     "2024-01-15," +:+ Api.quoted "Taxi" +:+ ",Transport,50.00"]
  /\ hasTwoFractionDigits (toFixed 2 (amount Sample.lunch)) = true.
Proof.
  destruct (CsvLinesFacts.exportToCSV_text "2024-02-01" [Sample.lunch; Sample.taxi])
    as (_ & _ & Hlines & _ & _ & Hdigits).
  split.
  - rewrite Hlines; [vm_compute; reflexivity|]. repeat constructor.
  - apply Hdigits; [left; reflexivity|vm_compute; reflexivity].
Defined.

Lemma getExpenses_omits_falsy_witness :
  URLSearchParams.queryNames
    (URLSearchParams.queryOf
       (Api.expensesEndpoint
          (Some {| Api.params_category := Some ""; Api.params_sort := Some "date_asc";
                   Api.params_page := Some zero; Api.params_limit := Some zero |})))
  = ["sort"]
  /\ Api.expensesEndpoint
       (Some {| Api.params_category := Some ""; Api.params_sort := None;
                Api.params_page := Some zero; Api.params_limit := Some zero |})
     = "/expenses".
Proof.
  split.
  - rewrite (proj1 (ApiFacts.getExpenses_omits_falsy_parameters _)). reflexivity.
  - apply (ApiFacts.getExpenses_omits_falsy_parameters
             (Some {| Api.params_category := Some ""; Api.params_sort := None;
                      Api.params_page := Some zero; Api.params_limit := Some zero |}));
      reflexivity.
Defined.

(** The edit path: with the description of the edit form blank,
    [handleEditSubmit] sends the update with an empty description. *)
Lemma handleEditSubmit_sends_empty_description :
  snd (ExpenseList.handleEditSubmit (Rejected (Error "Validation failed"))
         (Rejected NotAnError) Sample.editingLunch)
  = [Api.UpdateExpense "65a1"
       {| input_amount := of_decimal false 1005 (-1);
          input_category := "Food";
          input_description := "";
          input_date := "2024-01-10";
          idempotency_key := None |}].
Proof. vm_compute. reflexivity. Qed.

End AtSamples.

(* ===================================================================== *)
(** * The further theorems at sample inputs *)
(* ===================================================================== *)

Module AtMoreSamples.
Import JsNumber Types Spec Properties.
Local Open Scope Z_scope.

Lemma error_message_witness :
  exists m,
    fst (Api.request None "/expenses/nope" {| Api.method := Some Api.DELETE; Api.body := None |}
           (Api.Responded MoreSamples.notFound))
    = Rejected (Error m)
    /\ JsString.truthy m = true.
Proof.
  apply (ClientFacts.error_message_is_never_empty None "/expenses/nope" _ MoreSamples.notFound
           {| error := Some "Expense not found"; details := None |}); reflexivity.
Defined.

Lemma exported_file_witness :
  CsvReader.records (Api.blob_text (Api.exportToCSV "2024-02-03" [Sample.lunch; MoreSamples.dinner]))
  = [["Date"; "Description"; "Category"; "Amount (₹)"];
     ["2024-01-10"; "Lunch"; "Food"; "100.50"];
     ["2024-02-03"; description MoreSamples.dinner; "Food"; "45.50"]].
Proof.
  rewrite (CsvReaderFacts.exported_file_reads_back "2024-02-03" [Sample.lunch; MoreSamples.dinner]).
  - vm_compute. reflexivity.
  - repeat constructor.
Defined.

Lemma rejected_submission_witness :
  ExpenseForm.handleSubmit Sample.accepted (Sample.filled "0" "Lunch")
  = (ExpenseForm.setError (Some "Please enter a valid amount greater than 0")
       (Sample.filled "0" "Lunch"), [])
  /\ ExpenseForm.handleSubmit Sample.accepted (Sample.filled "12" "   ")
     = (ExpenseForm.setError (Some "Please enter a description") (Sample.filled "12" "   "), []).
Proof.
  split.
  - apply (SubmissionFacts.rejected_submission_changes_only_the_error Sample.accepted
             (Sample.filled "0" "Lunch")). reflexivity.
  - apply (SubmissionFacts.rejected_submission_changes_only_the_error Sample.accepted
             (Sample.filled "12" "   ")); reflexivity.
Defined.

Lemma successful_submission_witness :
  ExpenseForm.handleSubmit Sample.accepted (Sample.filled "100.50" " Lunch ")
  = (ExpenseForm.initialState "2024-01-15",
     [ExpenseForm.Called
        (Api.CreateExpense (ExpenseForm.input Sample.accepted (Sample.filled "100.50" " Lunch ")));
      ExpenseForm.OnExpenseCreated]).
Proof.
  apply (SubmissionFacts.successful_submission_resets_the_form Sample.accepted
           (Sample.filled "100.50" " Lunch ") Sample.lunch); reflexivity.
Defined.

Lemma failed_submission_witness :
  let first := Sample.refused 1700000000001 "0.abc" in
  let again := Sample.created 1700000000003 "0.ghi" in
  let st := Sample.filled "100.50" " Lunch " in
  ExpenseForm.currentIdempotencyKey (fst (ExpenseForm.handleSubmit first st))
  = Some "1700000000001-abc"
  /\ exists rest,
       snd (ExpenseForm.handleSubmit again (fst (ExpenseForm.handleSubmit first st)))
       = ExpenseForm.Called (Api.CreateExpense (ExpenseForm.input first st)) :: rest.
Proof.
  intros first again st.
  destruct (SubmissionFacts.failed_submission_can_be_repeated first again st
              (TypeError "Failed to fetch") eq_refl eq_refl eq_refl eq_refl)
    as (_ & _ & _ & _ & _ & _ & _ & Hkey & Hagain).
  split; [rewrite Hkey; reflexivity|exact Hagain].
Defined.

Lemma page_buttons_witness :
  leb JsMath.one (ExpenseList.currentPage (ExpenseListView.previousPage MoreSamples.secondOfThree))
  = true
  /\ leb (ExpenseList.currentPage (ExpenseListView.nextPage MoreSamples.secondOfThree))
         (ExpenseList.totalPages MoreSamples.secondOfThree) = true.
Proof.
  destruct (ListViewFacts.page_buttons_stay_in_range MoreSamples.secondOfThree eq_refl)
    as (Hprevious & _ & Hnext).
  split; [exact Hprevious|apply Hnext; reflexivity].
Defined.

Lemma summary_witness :
  is_Some (ExpenseList.categoryTotals MoreSamples.shown !! "Food")
  /\ (size (ExpenseList.categoryTotals MoreSamples.shown) <= 8)%nat.
Proof.
  assert (Hcat : Forall (fun e => In (category e) CATEGORIES)
                   (ExpenseList.expenses MoreSamples.shown)).
  { repeat (apply List.Forall_cons; [cbn; auto 10|]). apply List.Forall_nil. }
  destruct (ListViewFacts.summary_has_the_categories_of_the_page MoreSamples.shown Hcat)
    as (Hkeys & _ & Hsize & _).
  split; [apply Hkeys; left; reflexivity|exact Hsize].
Defined.

Lemma totals_are_numbers_witness :
  isNaN (ExpenseList.total MoreSamples.shown) = false
  /\ forall x, ExpenseList.categoryTotals MoreSamples.shown !! "Food" = Some x -> isNaN x = false.
Proof.
  assert (Hfinite : Forall (fun e => isFinite (amount e) = true)
                      (ExpenseList.expenses MoreSamples.shown)).
  { repeat constructor. }
  assert (Hcat : Forall (fun e => In (category e) CATEGORIES)
                   (ExpenseList.expenses MoreSamples.shown)).
  { repeat (apply List.Forall_cons; [cbn; auto 10|]). apply List.Forall_nil. }
  destruct (ListViewFacts.totals_are_numbers MoreSamples.shown Hfinite Hcat)
    as ((Htotal & _) & Hentry).
  split; [exact Htotal|]. intros x Hx. apply (Hentry "Food" x Hx).
Defined.

(** The third click of [MoreSamples.impatientClicks], made while the
    request of the second is in flight, calls [deleteExpense] again; the
    first click called nothing. *)
Lemma delete_witness :
  MoreSamples.impatientClicks !! 2%nat = Some (ExpenseListView.Click "65a1")
  /\ exists j,
       (j < 2)%nat
       /\ MoreSamples.impatientClicks !! j = Some (ExpenseListView.Click "65a1")
       /\ (exists mj,
             ExpenseListView.deleteRun (ExpenseListView.mount MoreSamples.shown)
               MoreSamples.impatientClicks !! j = Some (mj, []))
       /\ forall i, (j <= i < 2)%nat ->
            exists mi ci,
              ExpenseListView.deleteRun (ExpenseListView.mount MoreSamples.shown)
                MoreSamples.impatientClicks !! i = Some (mi, ci)
              /\ ExpenseList.deletingId (ExpenseListView.view mi) = Some "65a1".
Proof.
  eapply (DeleteFacts.delete_takes_two_clicks MoreSamples.shown MoreSamples.impatientClicks
            2 _ _ "65a1").
  - reflexivity.
  - vm_compute. reflexivity.
  - vm_compute. left. reflexivity.
Defined.

Lemma confirmed_delete_witness :
  let awaiting :=
    fst (ExpenseList.handleDeleteClick "65a1" (Fulfilled tt) (Fulfilled Sample.page1)
           MoreSamples.shown) in
  ExpenseList.deletingId
    (fst (ExpenseList.handleDeleteClick "65a1" (Rejected (Error "Expense not found"))
            (Fulfilled Sample.page1) awaiting))
  = None.
Proof.
  intros awaiting.
  apply (ListHandlerFacts.confirmed_delete_outcomes "65a1" (Rejected (Error "Expense not found"))
           (Fulfilled Sample.page1) awaiting eq_refl).
Defined.


Lemma edit_without_changes_witness :
  let input :=
    {| input_amount := of_decimal false 455 (-1); input_category := "Food";
       input_description := description MoreSamples.dinner; input_date := "2024-02-03";
       idempotency_key := None |} in
  In (Api.UpdateExpense "65a5" input)
     (snd (ExpenseList.handleEditSubmit (Fulfilled MoreSamples.dinner) (Fulfilled Sample.page1)
             (ExpenseList.handleEditClick MoreSamples.dinner MoreSamples.shown)))
  /\ input_description input = JsString.trim (description MoreSamples.dinner)
  /\ input_amount input = parseFloat (JsNumber.toString (amount MoreSamples.dinner)).
Proof.
  intros input.
  assert (Hin : In (Api.UpdateExpense "65a5" input)
                  (snd (ExpenseList.handleEditSubmit (Fulfilled MoreSamples.dinner)
                          (Fulfilled Sample.page1)
                          (ExpenseList.handleEditClick MoreSamples.dinner MoreSamples.shown)))).
  { vm_compute. left. reflexivity. }
  destruct (ListHandlerFacts.edit_without_changes MoreSamples.dinner (Fulfilled MoreSamples.dinner)
              (Fulfilled Sample.page1) MoreSamples.shown) as [_ Hsent].
  destruct (Hsent "65a5" input Hin) as (_ & _ & _ & Hdescription & Hamount & _).
  split; [exact Hin|]. split; [exact Hdescription|exact Hamount].
Defined.


Lemma created_expense_witness :
  let after :=
    fst (Home.step MoreSamples.formFilled (Home.OnForm (ExpenseForm.Submit Sample.accepted))) in
  Home.form after = None
  /\ Home.refreshTrigger (Home.home after) = JsMath.one.
Proof.
  intros after.
  destruct (HomeFacts.created_expense_hides_the_form MoreSamples.formFilled
              (ExpenseForm.setDescription "Lunch"
                 (ExpenseForm.setAmount "100.50" (ExpenseForm.initialState "2024-01-15")))
              (ExpenseForm.Submit Sample.accepted) eq_refl eq_refl) as [Hcreated _].
  destruct Hcreated as (Hform & _ & Htrigger & _).
  - right. left. reflexivity.
  - split; [exact Hform|]. fold after in Htrigger. rewrite Htrigger. vm_compute. reflexivity.
Defined.

Lemma reopened_form_witness :
  Home.form MoreSamples.hiddenAfterFailure = None
  /\ map ExpenseForm.key (snd (Home.run MoreSamples.hiddenAfterFailure MoreSamples.secondTry))
     = [Some "1700000000002-def"].
Proof.
  split; [reflexivity|].
  destruct (HomeFacts.reopened_form_sends_a_new_key MoreSamples.hiddenAfterFailure)
    as (_ & _ & Hnew).
  pose proof (Hnew eq_refl MoreSamples.secondTry
                {| ExpenseForm.sent :=
                     ExpenseForm.input (Sample.created 1700000000002 "0.def")
                       (Sample.filled "100.50" "Lunch");
                   ExpenseForm.env_of := Sample.created 1700000000002 "0.def" |}
                [] eq_refl) as Hkey.
  change (snd (Home.run MoreSamples.hiddenAfterFailure MoreSamples.secondTry))
    with [{| ExpenseForm.sent :=
               ExpenseForm.input (Sample.created 1700000000002 "0.def")
                 (Sample.filled "100.50" "Lunch");
             ExpenseForm.env_of := Sample.created 1700000000002 "0.def" |}].
  cbn [map]. rewrite Hkey. vm_compute. reflexivity.
Defined.

Lemma last_six_months_witness :
  map SpendingCharts.month (SpendingCharts.monthsShown MoreSamples.sevenMonths)
  = ["2023-09"; "2023-10"; "2023-11"; "2023-12"; "2024-01"; "2024-02"]
  /\ length (SpendingCharts.monthsShown MoreSamples.sevenMonths) = 6%nat.
Proof.
  destruct (SpendingChartsFacts.last_six_months_are_shown MoreSamples.sevenMonths)
    as (Hlength & _ & _).
  split; [reflexivity|rewrite Hlength; reflexivity].
Defined.

Lemma bars_scale_witness :
  leb JsMath.one (SpendingCharts.maxMonthly MoreSamples.sevenMonths) = true
  /\ SpendingCharts.maxMonthly MoreSamples.sevenMonths = of_decimal false 950 0.
Proof.
  destruct (SpendingChartsFacts.bars_are_scaled_by_the_largest_total MoreSamples.sevenMonths)
    as (Hmonthly & _).
  destruct Hmonthly as (Hone & _); [repeat constructor|].
  split; [exact Hone|vm_compute; reflexivity].
Defined.

Lemma bars_width_witness :
  Forall (fun m => leb JsMath.ten (SpendingCharts.monthWidth MoreSamples.sevenMonths m) = true)
         (SpendingCharts.monthly MoreSamples.sevenMonths)
  /\ map (SpendingCharts.monthWidth MoreSamples.sevenMonths)
         (take 3 (SpendingCharts.monthly MoreSamples.sevenMonths))
     = [of_decimal false 12631578947368421 (-15); JsMath.ten; JsMath.ten].
Proof.
  destruct (WidthFacts.bars_have_a_least_width MoreSamples.sevenMonths) as [Hmonths _].
  - repeat constructor.
  - repeat constructor.
  - split; [exact Hmonths|vm_compute; reflexivity].
Defined.

End AtMoreSamples.
